(** * pdvpracenje: invoice verification, tenant context, members and settings

    A shallow embedding of the client-side logic of the dashboard:
    - [Js]: the fragment of JavaScript values the screens rely on
      (truthiness, [||], [Number(...)], a JSON reader);
    - [Supabase]: the remote requests the screens issue;
    - [InvoiceVerification]: the invoice verification view;
    - [OrganizationContext]: the tenant context provider;
    - [TeamMembers]: the members page;
    - [Settings]: the organization settings page. *)

From Stdlib Require Import ZArith NArith Ascii String List Bool Lia.
From Stdlib Require SpecFloat.
From stdpp Require Import gmap strings list fin_maps.

#[local] Set Warnings "-register-all".

(* ===================================================================== *)
(** * JavaScript values *)
(* ===================================================================== *)

Module Js.

(** A JavaScript number.  A finite number is kept as a decimal
    [(-1)^neg * m * 10^e]: every finite binary64 value has such an
    expansion, and the numbers read from a text ([StringToNumber], the
    JSON reader) are rounded to binary64 by [round] below.
    [Dec true 0 0] is [-0]. *)
Inductive number :=
| NaN
| Infinity (neg : bool)
| Dec (neg : bool) (m : N) (e : Z).

Definition number_is_zero (n : number) : bool :=
  match n with
  | Dec _ m _ => (m =? 0)%N
  | _ => false
  end.

Definition is_NaN (n : number) : bool :=
  match n with NaN => true | _ => false end.

(** The finite binary64 value [(-1)^neg * m * 2^e] as a decimal.  An
    integer gets the exponent [0]; otherwise the mantissa is halved while
    it is even, and an odd [m] at [e < 0] is [m * 5^(-e)] at the decimal
    exponent [e], a mantissa that ten does not divide. *)
Fixpoint of_binary (neg : bool) (m : positive) (e : Z) : number :=
  if (0 <=? e)%Z then Dec neg (Npos m * 2 ^ Z.to_N e) 0
  else
    match m with
    | xO half => of_binary neg half (e + 1)
    | _ => Dec neg (Npos m * 5 ^ Z.to_N (- e)) e
    end.

(** The Number value for the mathematical value [(-1)^neg * m * 10^e]:
    the nearest binary64 value, a tie going to the even mantissa, which
    is an infinity from [2^1024 - 2^970] on and a zero up to [2^-1075].
    The value is the quotient of two integers, [m * 10^e] by [1] or [m]
    by [10^(-e)], and is rounded once, from the quotient and the place of
    the remainder.

    The two tests before that keep the powers of ten small.  [m] is below
    [2^(N.size m)] and at least half of that, and [8^k <= 10^k]: so with
    [0 <= e] and [1025 <= N.size m + 3 * e] the value is at least
    [2^1024], and with [e < 0] and [N.size m + 3 * e <= -1075] it is
    below [2^-1075]. *)
Definition round (neg : bool) (m : N) (e : Z) : number :=
  let bits := Z.of_N (N.size m) in
  if (m =? 0)%N then Dec neg 0 0
  else if (0 <=? e)%Z && (1025 <=? bits + 3 * e)%Z then Infinity neg
  else if (e <? 0)%Z && (bits + 3 * e <=? - 1075)%Z then Dec neg 0 0
  else
    let numerator := (Z.of_N m * 10 ^ Z.max e 0)%Z in
    let denominator := (10 ^ Z.max (- e) 0)%Z in
    let '(q, x, l) :=
      SpecFloat.SFdiv_core_binary 53 1024 numerator 0 denominator 0 in
    match SpecFloat.binary_round_aux 53 1024 neg q x l with
    | SpecFloat.S754_zero s => Dec s 0 0
    | SpecFloat.S754_infinity s => Infinity s
    | SpecFloat.S754_nan => NaN
    | SpecFloat.S754_finite s b x => of_binary s b x
    end.

(** JavaScript values ([any]).  Strings are byte strings; an object keeps
    its own properties in insertion order.  [VBuiltin k] is the built-in
    function or object that every ordinary object inherits under the name
    [k] from [Object.prototype]. *)
Inductive value :=
| VUndefined
| VNull
| VBool (b : bool)
| VNumber (n : number)
| VString (s : string)
| VArray (items : list value)
| VObject (props : list (string * value))
| VBuiltin (name : string).

(** ToBoolean: [undefined], [null], [false], [0], [-0], [NaN] and the empty
    string are falsy; every array, object and function is truthy. *)
Definition truthy (v : value) : bool :=
  match v with
  | VUndefined | VNull => false
  | VBool b => b
  | VNumber n => negb (number_is_zero n || is_NaN n)
  | VString s => negb (String.eqb s "")
  | VArray _ | VObject _ | VBuiltin _ => true
  end.

(** [a || b] *)
Definition logical_or (a b : value) : value := if truthy a then a else b.

(** [Array.isArray(v)] *)
Definition isArray (v : value) : bool :=
  match v with VArray _ => true | _ => false end.

(** A nullable string column ([string | null], possibly [undefined]). *)
Definition of_nullable (o : option string) : value :=
  match o with Some s => VString s | None => VNull end.

(** The property names of [Object.prototype], which an object literal and
    an object read from JSON inherit. *)
Definition Object_prototype : list string :=
  [ "constructor"; "__defineGetter__"; "__defineSetter__"; "hasOwnProperty";
    "__lookupGetter__"; "__lookupSetter__"; "isPrototypeOf";
    "propertyIsEnumerable"; "toString"; "valueOf"; "__proto__";
    "toLocaleString" ].

(** The outcome of a property read [o[k]] on an ordinary object whose own
    properties are the map [own]: an own property, one inherited from
    [Object.prototype], or none ([undefined]). *)
Inductive property (A : Type) :=
| Own (a : A)
| Inherited (name : string)
| Absent.
Arguments Own {A} a.
Arguments Inherited {A} name.
Arguments Absent {A}.

Definition get_property {A : Type} (own : gmap string A) (k : string)
  : property A :=
  match own !! k with
  | Some a => Own a
  | None =>
      if existsb (String.eqb k) Object_prototype then Inherited k else Absent
  end.

(** [p || q] on property reads: own and inherited properties of the
    objects modelled here are objects or functions, hence truthy. *)
Definition property_or {A : Type} (p q : property A) : property A :=
  match p with
  | Absent => q
  | _ => p
  end.

(** [o.k] / [o[k]] on a data object holding JavaScript values. *)
Definition get (o : gmap string value) (k : string) : value :=
  match get_property o k with
  | Own v => v
  | Inherited name => VBuiltin name
  | Absent => VUndefined
  end.

(** ** Characters *)

Definition code (c : ascii) : N := N_of_ascii c.

Definition is_digit (c : ascii) : bool :=
  ((48 <=? code c) && (code c <=? 57))%N.

Definition digit_val (c : ascii) : N := (code c - 48)%N.

Definition is_char (n : N) (c : ascii) : bool := (code c =? n)%N.

(** Reads a run of decimal digits: accumulated value, number of digits
    read, and the rest of the input. *)
Fixpoint read_digits (cs : list ascii) (acc : N) (k : nat)
  : N * nat * list ascii :=
  match cs with
  | c :: r =>
      if is_digit c then read_digits r (10 * acc + digit_val c)%N (S k)
      else (acc, k, cs)
  | [] => (acc, k, [])
  end.

(** An optional sign: [true] for [-]. When [plus] is false a [+] is not
    a sign. *)
Definition read_sign (plus : bool) (cs : list ascii) : bool * list ascii :=
  match cs with
  | c :: r =>
      if is_char 45 c then (true, r)
      else if plus && is_char 43 c then (false, r)
      else (false, cs)
  | [] => (false, [])
  end.

(** An optional exponent part [e[+-]digits]; [None] when an [e] is not
    followed by at least one digit. *)
Definition read_exponent (cs : list ascii) : option (Z * list ascii) :=
  match cs with
  | c :: r =>
      if is_char 101 c || is_char 69 c then
        let '(neg, r1) := read_sign true r in
        let '(x, k, r2) := read_digits r1 0%N 0 in
        match k with
        | O => None
        | S _ => Some (if neg then (- Z.of_N x)%Z else Z.of_N x, r2)
        end
      else Some (0%Z, cs)
  | [] => Some (0%Z, [])
  end.

(** ** [Number(string)] (StringToNumber) *)

(** A text is held as its UTF-8 bytes.  [decode cs] is the code point
    that the first one, two or three bytes of [cs] encode, with the bytes
    after it; [None] when they encode none (code points from U+10000 on
    take four bytes, and none of them is white space). *)
Definition continues (c : ascii) : bool :=
  ((128 <=? code c) && (code c <? 192))%N.

Definition decode (cs : list ascii) : option (N * list ascii) :=
  match cs with
  | c1 :: r1 =>
      if (code c1 <? 128)%N then Some (code c1, r1)
      else
        match r1 with
        | c2 :: r2 =>
            if ((194 <=? code c1) && (code c1 <? 224))%N && continues c2 then
              Some (((code c1 - 192) * 64 + (code c2 - 128))%N, r2)
            else
              match r2 with
              | c3 :: r3 =>
                  let p := ((code c1 - 224) * 4096 + (code c2 - 128) * 64
                            + (code c3 - 128))%N in
                  if ((224 <=? code c1) && (code c1 <? 240))%N
                     && continues c2 && continues c3 && (2048 <=? p)%N then
                    Some (p, r3)
                  else None
              | [] => None
              end
        | [] => None
        end
  | [] => None
  end.

(** The code point that the last bytes of a text encode, with the bytes
    before it, both given last byte first. *)
Definition decode_last (rs : list ascii) : option (N * list ascii) :=
  let ending k :=
    match decode (rev (take k rs)) with
    | Some (p, []) => Some (p, drop k rs)
    | _ => None
    end in
  match ending 1%nat, ending 2%nat, ending 3%nat with
  | Some found, _, _ => Some found
  | None, Some found, _ => Some found
  | None, None, found => found
  end.

(** StrWhiteSpaceChar: WhiteSpace (TAB, VT, FF, U+FEFF and the space
    separators U+0020, U+00A0, U+1680, U+2000 to U+200A, U+202F, U+205F,
    U+3000) and LineTerminator (LF, CR, U+2028, U+2029). *)
Definition is_str_ws (p : N) : bool :=
  ((9 <=? p) && (p <=? 13) || (p =? 32) || (p =? 160) || (p =? 5760)
   || (8192 <=? p) && (p <=? 8202) || (p =? 8232) || (p =? 8233)
   || (p =? 8239) || (p =? 8287) || (p =? 12288) || (p =? 65279))%N.

(** Removes the white space that [next] finds at the front. *)
Fixpoint drop_ws (next : list ascii -> option (N * list ascii))
    (fuel : nat) (cs : list ascii) : list ascii :=
  match fuel with
  | O => cs
  | S fuel =>
      match next cs with
      | Some (p, r) => if is_str_ws p then drop_ws next fuel r else cs
      | None => cs
      end
  end.

(** The text without the white space at its start and at its end. *)
Definition trim (cs : list ascii) : list ascii :=
  let cs := drop_ws decode (length cs) cs in
  rev (drop_ws decode_last (length cs) (rev cs)).

Definition radix_digit (radix : N) (c : ascii) : option N :=
  let n := code c in
  let d :=
    if ((48 <=? n) && (n <=? 57))%N then Some (n - 48)%N
    else if ((97 <=? n) && (n <=? 102))%N then Some (n - 87)%N
    else if ((65 <=? n) && (n <=? 70))%N then Some (n - 55)%N
    else None in
  match d with
  | Some v => if (v <? radix)%N then Some v else None
  | None => None
  end.

(** Digits of a [0x] / [0o] / [0b] literal; all of the input must be
    digits of the radix, and there must be at least one. *)
Fixpoint read_radix (radix : N) (cs : list ascii) (acc : N) (k : nat)
  : option N :=
  match cs with
  | c :: r =>
      match radix_digit radix c with
      | Some v => read_radix radix r (radix * acc + v)%N (S k)
      | None => None
      end
  | [] => match k with O => None | S _ => Some acc end
  end.

Definition radix_prefix (cs : list ascii) : option (N * list ascii) :=
  match cs with
  | z :: p :: r =>
      if is_char 48 z then
        if is_char 120 p || is_char 88 p then Some (16%N, r)
        else if is_char 111 p || is_char 79 p then Some (8%N, r)
        else if is_char 98 p || is_char 66 p then Some (2%N, r)
        else None
      else None
  | _ => None
  end.

(** StrDecimalLiteral after the sign: [Infinity], or digits with an
    optional fraction and exponent; the whole input must be used. *)
Definition read_decimal (neg : bool) (cs : list ascii) : number :=
  if String.eqb (string_of_list_ascii cs) "Infinity" then Infinity neg
  else
    let '(i, ki, r1) := read_digits cs 0%N 0 in
    let '(m, kf, r2) :=
      match r1 with
      | c :: r =>
          if is_char 46 c then read_digits r i 0 else (i, O, r1)
      | [] => (i, O, [])
      end in
    match (ki + kf)%nat with
    | O => NaN
    | S _ =>
        match read_exponent r2 with
        | Some (x, []) => round neg m (x - Z.of_nat kf)
        | _ => NaN
        end
    end.

Definition StringToNumber (s : string) : number :=
  let cs := trim (list_ascii_of_string s) in
  match cs with
  | [] => Dec false 0 0
  | _ =>
      match radix_prefix cs with
      | Some (radix, r) =>
          match read_radix radix r 0%N 0 with
          | Some n => round false n 0
          | None => NaN
          end
      | None =>
          let '(neg, r) := read_sign true cs in read_decimal neg r
      end
  end.

(** ** A JSON reader

    [JSON.parse] belongs to the host; the properties of [parseLineItems]
    below are proved for any such function.  This reader is used to run
    the code on concrete texts.  It implements the JSON grammar except
    for [\u] escapes, which it refuses. *)

Definition is_json_ws (c : ascii) : bool :=
  ((code c =? 32) || (code c =? 9) || (code c =? 10) || (code c =? 13))%N.

Fixpoint skip_ws (cs : list ascii) : list ascii :=
  match cs with
  | c :: r => if is_json_ws c then skip_ws r else cs
  | [] => []
  end.

Definition unescape (c : ascii) : option ascii :=
  let n := code c in
  if ((n =? 34) || (n =? 92) || (n =? 47))%N then Some c
  else if (n =? 98)%N then Some (ascii_of_N 8)
  else if (n =? 102)%N then Some (ascii_of_N 12)
  else if (n =? 110)%N then Some (ascii_of_N 10)
  else if (n =? 114)%N then Some (ascii_of_N 13)
  else if (n =? 116)%N then Some (ascii_of_N 9)
  else None.

(** The characters of a string literal after its opening quote, up to and
    including the closing quote. *)
Fixpoint read_string_body (cs : list ascii) : option (list ascii * list ascii) :=
  match cs with
  | [] => None
  | c :: r =>
      if is_char 34 c then Some ([], r)
      else if is_char 92 c then
        match r with
        | e :: r' =>
            match unescape e, read_string_body r' with
            | Some x, Some (body, rest) => Some (x :: body, rest)
            | _, _ => None
            end
        | [] => None
        end
      else if (code c <? 32)%N then None
      else
        match read_string_body r with
        | Some (body, rest) => Some (c :: body, rest)
        | None => None
        end
  end.

(** A JSON number: an optional minus, then 0 or a digit run without a
    leading zero, then an optional fraction of at least one digit and an
    optional exponent. *)
Definition read_json_number (cs : list ascii) : option (number * list ascii) :=
  let '(neg, r0) := read_sign false cs in
  let int_part :=
    match r0 with
    | c :: r =>
        if is_char 48 c then Some (0%N, r)
        else if is_digit c then
          let '(i, _, r1) := read_digits r0 0%N 0 in Some (i, r1)
        else None
    | [] => None
    end in
  match int_part with
  | None => None
  | Some (i, r1) =>
      let frac :=
        match r1 with
        | c :: r =>
            if is_char 46 c then
              let '(m, kf, r2) := read_digits r i 0 in
              match kf with O => None | S _ => Some (m, kf, r2) end
            else Some (i, O, r1)
        | [] => Some (i, O, [])
        end in
      match frac with
      | None => None
      | Some (m, kf, r2) =>
          match read_exponent r2 with
          | Some (x, r3) => Some (round neg m (x - Z.of_nat kf), r3)
          | None => None
          end
      end
  end.

(** Defining a property twice keeps its first position and its last
    value. *)
Fixpoint set_prop (k : string) (v : value) (ps : list (string * value))
  : list (string * value) :=
  match ps with
  | [] => [(k, v)]
  | (k', v') :: r =>
      if String.eqb k k' then (k', v) :: r else (k', v') :: set_prop k v r
  end.

Definition starts_with (p : string) (cs : list ascii) : option (list ascii) :=
  let n := String.length p in
  if String.eqb (string_of_list_ascii (take n cs)) p then Some (drop n cs)
  else None.

Fixpoint read_value (fuel : nat) (cs : list ascii) {struct fuel}
  : option (value * list ascii) :=
  match fuel with
  | O => None
  | S fuel =>
      match skip_ws cs with
      | [] => None
      | c :: r =>
          if is_char 91 c then
            match skip_ws r with
            | c' :: r' =>
                if is_char 93 c' then Some (VArray [], r')
                else
                  match read_elements fuel r with
                  | Some (vs, rest) => Some (VArray vs, rest)
                  | None => None
                  end
            | [] => None
            end
          else if is_char 123 c then
            match skip_ws r with
            | c' :: r' =>
                if is_char 125 c' then Some (VObject [], r')
                else
                  match read_members fuel r [] with
                  | Some (ps, rest) => Some (VObject ps, rest)
                  | None => None
                  end
            | [] => None
            end
          else if is_char 34 c then
            match read_string_body r with
            | Some (body, rest) =>
                Some (VString (string_of_list_ascii body), rest)
            | None => None
            end
          else
            match starts_with "null" (c :: r),
                  starts_with "true" (c :: r),
                  starts_with "false" (c :: r) with
            | Some rest, _, _ => Some (VNull, rest)
            | _, Some rest, _ => Some (VBool true, rest)
            | _, _, Some rest => Some (VBool false, rest)
            | None, None, None =>
                match read_json_number (c :: r) with
                | Some (n, rest) => Some (VNumber n, rest)
                | None => None
                end
            end
      end
  end

with read_elements (fuel : nat) (cs : list ascii) {struct fuel}
  : option (list value * list ascii) :=
  match fuel with
  | O => None
  | S fuel =>
      match read_value fuel cs with
      | Some (v, r) =>
          match skip_ws r with
          | c :: r' =>
              if is_char 44 c then
                match read_elements fuel r' with
                | Some (vs, rest) => Some (v :: vs, rest)
                | None => None
                end
              else if is_char 93 c then Some ([v], r')
              else None
          | [] => None
          end
      | None => None
      end
  end

with read_members (fuel : nat) (cs : list ascii) (acc : list (string * value))
  {struct fuel} : option (list (string * value) * list ascii) :=
  match fuel with
  | O => None
  | S fuel =>
      match skip_ws cs with
      | q :: r =>
          if is_char 34 q then
            match read_string_body r with
            | Some (key, r1) =>
                match skip_ws r1 with
                | colon :: r2 =>
                    if is_char 58 colon then
                      match read_value fuel r2 with
                      | Some (v, r3) =>
                          let acc' := set_prop (string_of_list_ascii key) v acc in
                          match skip_ws r3 with
                          | c :: r4 =>
                              if is_char 44 c then read_members fuel r4 acc'
                              else if is_char 125 c then Some (acc', r4)
                              else None
                          | [] => None
                          end
                      | None => None
                      end
                    else None
                | [] => None
                end
            | None => None
            end
          else None
      | [] => None
      end
  end.

(** The reader's result on a whole text; [None] stands for the
    [SyntaxError] that [JSON.parse] throws. *)
Definition read_json (s : string) : option value :=
  let cs := list_ascii_of_string s in
  match read_value (2 + length cs) cs with
  | Some (v, rest) =>
      match skip_ws rest with
      | [] => Some v
      | _ :: _ => None
      end
  | None => None
  end.

(** The double quote character, as a string. *)
Definition dq : string := String (ascii_of_N 34) EmptyString.

End Js.

(* ===================================================================== *)
(** * Remote requests *)
(* ===================================================================== *)

Module Supabase.

(** The write requests the screens send:
    [from(table).update(payload).eq(column, v)] and
    [from(table).delete().eq(column, v)]. *)
Inductive request :=
| Update (table : string) (payload : gmap string Js.value)
         (column : string) (v : string)
| Delete (table : string) (column : string) (v : string).

(** A stored row maps column names to values. *)
Definition matches (column v : string) (row : gmap string Js.value) : bool :=
  match row !! column with
  | Some (Js.VString s) => String.eqb s v
  | _ => false
  end.

(** What an accepted update does to the rows of its table: every row
    whose [column] equals [v] takes the columns of the payload and keeps
    its other columns. *)
Definition apply_update (payload : gmap string Js.value) (column v : string)
    (rows : list (gmap string Js.value)) : list (gmap string Js.value) :=
  (fun row => if matches column v row then payload ∪ row else row) <$> rows.

End Supabase.

(* ===================================================================== *)
(** * src/lib/organization-context.tsx *)
(* ===================================================================== *)

Module OrganizationContext.

(** [Organization] extended with the caller's role. *)
Record OrganizationWithRole := {
  id : string;
  name : string;
  slug : string;
  logo_url : option string;
  accountant_email : option string;
  settings : option (gmap string Js.value);
  created_at : string;
  pib : option string;
  pdv_number : option string;
  address : option string;
  city : option string;
  postal_code : option string;
  country : option string;
  phone : option string;
  email : option string;
  owner_name : option string;
  is_pdv_registered : option bool;
  role : string
}.

(** The provider's state. *)
Record State := {
  currentOrganization : option OrganizationWithRole;
  organizations : list OrganizationWithRole;
  isLoading : bool
}.

Definition setCurrentOrganization (org : option OrganizationWithRole)
    (st : State) : State :=
  {| currentOrganization := org;
     organizations := organizations st;
     isLoading := isLoading st |}.

Definition setOrganizations (orgs : list OrganizationWithRole)
    (st : State) : State :=
  {| currentOrganization := currentOrganization st;
     organizations := orgs;
     isLoading := isLoading st |}.

Definition setIsLoading (b : bool) (st : State) : State :=
  {| currentOrganization := currentOrganization st;
     organizations := organizations st;
     isLoading := b |}.

(** What the provider reads from the backend: the signed-in user
    ([supabase.auth.getUser()], by id) and the [profiles] rows by id, each
    with its nullable [current_organization_id]. *)
Record Backend := {
  user : option string;
  profiles : gmap string (option string)
}.

(** [getCurrentOrgFromProfile]: [null] without a user or a profile row;
    otherwise [profile?.current_organization_id || null]. *)
Definition getCurrentOrgFromProfile (b : Backend) : option string :=
  match user b with
  | None => None
  | Some u =>
      match profiles b !! u with
      | Some (Some current_organization_id) =>
          if Js.truthy (Js.VString current_organization_id)
          then Some current_organization_id else None
      | _ => None
      end
  end.

(** [saveCurrentOrgToProfile orgId]: the requests it sends. *)
Definition saveCurrentOrgToProfile (b : Backend) (orgId : string)
  : list Supabase.request :=
  match user b with
  | None => []
  | Some u =>
      [ Supabase.Update "profiles"
          {[ "current_organization_id" := Js.VString orgId ]} "id" u ]
  end.

(** [o.id === savedOrgId] with [savedOrgId : string | null]. *)
Definition id_is (savedOrgId : option string) (o : OrganizationWithRole) : bool :=
  match savedOrgId with
  | Some s => String.eqb (id o) s
  | None => false
  end.

(** [refreshOrganizations], given the list [orgs] that
    [fetchOrganizations()] resolved to: the state it ends in and the
    requests it sent. *)
Definition refreshOrganizations (b : Backend) (orgs : list OrganizationWithRole)
    (st : State) : State * list Supabase.request :=
  let st := setIsLoading true st in
  let st := setOrganizations orgs st in
  let '(st, sent) :=
    match orgs with
    | first :: _ =>
        let savedOrgId := getCurrentOrgFromProfile b in
        match List.find (id_is savedOrgId) orgs with
        | Some savedOrg => (setCurrentOrganization (Some savedOrg) st, [])
        | None =>
            (setCurrentOrganization (Some first) st,
             saveCurrentOrgToProfile b (id first))
        end
    | [] => (setCurrentOrganization None st, [])
    end in
  (setIsLoading false st, sent).

(** [switchOrganization orgId] *)
Definition switchOrganization (b : Backend) (orgId : string) (st : State)
  : State * list Supabase.request :=
  match List.find (fun o => String.eqb (id o) orgId) (organizations st) with
  | Some org =>
      (setCurrentOrganization (Some org) st, saveCurrentOrgToProfile b orgId)
  | None => (st, [])
  end.

End OrganizationContext.

(* ===================================================================== *)
(** * The invoice verification view (src/unnamed/part_000) *)
(* ===================================================================== *)

Module InvoiceVerification.

Record Invoice := {
  id : string;
  invoice_number : option string;
  invoice_date : option string;
  vendor_name : option string;
  vendor_address : option string;
  vendor_tax_id : option string;
  vendor_pdv : option string;
  buyer_name : option string;
  buyer_address : option string;
  buyer_tax_id : option string;
  subtotal : option Js.number;
  tax_amount : option Js.number;
  total_amount : option Js.number;
  currency : string;
  line_items : Js.value;
  notes : option string;
  file_url : option string;
  file_type : string;
  status : string;
  created_at : string;
  user_id : string
}.

Record StatusInfo := {
  label : string;
  color : string;
  bgColor : string
}.

Definition pending_info : StatusInfo :=
  {| label := "Na cekanju"; color := "text-yellow-400";
     bgColor := "bg-yellow-500/20" |}.

(** The object literal [statusConfig]: its own properties. *)
Definition statusConfig : gmap string StatusInfo :=
  list_to_map
    [ ("pending", pending_info);
      ("processed",
        {| label := "Obradeno - ceka provjeru"; color := "text-blue-400";
           bgColor := "bg-blue-500/20" |});
      ("verified",
        {| label := "Provjereno"; color := "text-lime-400";
           bgColor := "bg-lime-500/20" |});
      ("sent_to_accountant",
        {| label := "Poslano racunovodji"; color := "text-purple-400";
           bgColor := "bg-purple-500/20" |});
      ("error",
        {| label := "Greska"; color := "text-red-400";
           bgColor := "bg-red-500/20" |}) ].

(** The five defined states. *)
Definition InvoiceStatus : list string :=
  [ "pending"; "processed"; "verified"; "sent_to_accountant"; "error" ].

Section ParseLineItems.

(** The host's [JSON.parse]; [None] when it throws. *)
Variable JSON_parse : string -> option Js.value.

Definition parseLineItems (lineItems : Js.value) : Js.value :=
  if negb (Js.truthy lineItems) then Js.VArray []
  else if Js.isArray lineItems then lineItems
  else
    match lineItems with
    | Js.VString s =>
        match JSON_parse s with
        | Some parsed => if Js.isArray parsed then parsed else Js.VArray []
        | None => Js.VArray []
        end
    | _ => Js.VArray []
    end.

End ParseLineItems.

(** [org?.settings?.k] *)
Definition settings_get (org : option OrganizationContext.OrganizationWithRole)
    (k : string) : Js.value :=
  match org with
  | Some o =>
      match OrganizationContext.settings o with
      | Some s => Js.get s k
      | None => Js.VUndefined
      end
  | None => Js.VUndefined
  end.

(** [org?.f] for a nullable string attribute [f]. *)
Definition attr (org : option OrganizationContext.OrganizationWithRole)
    (f : OrganizationContext.OrganizationWithRole -> option string) : Js.value :=
  match org with
  | Some o => Js.of_nullable (f o)
  | None => Js.VUndefined
  end.

(** The template literal
    [`${org.address}${org.city ? ', ' + org.city : ''}${org.postal_code ? ' ' + org.postal_code : ''}`];
    it is evaluated only where [org.address] is truthy, hence a string. *)
Definition address_line (org : OrganizationContext.OrganizationWithRole)
  : string :=
  default "" (OrganizationContext.address org)
  +:+ match OrganizationContext.city org with
      | Some c => if Js.truthy (Js.VString c) then ", " +:+ c else ""
      | None => ""
      end
  +:+ match OrganizationContext.postal_code org with
      | Some p => if Js.truthy (Js.VString p) then " " +:+ p else ""
      | None => ""
      end.

Record CompanyData := {
  cd_name : Js.value;
  cd_pib : Js.value;
  cd_pdv_number : Js.value;
  cd_address : Js.value;
  cd_email : Js.value;
  cd_phone : Js.value
}.

(** [companyData], from the current organization [org] (possibly [null]). *)
Definition companyData (org : option OrganizationContext.OrganizationWithRole)
  : CompanyData :=
  {| cd_name :=
       Js.logical_or
         (match org with
          | Some o => Js.VString (OrganizationContext.name o)
          | None => Js.VUndefined
          end)
         (Js.VString "");
     cd_pib :=
       Js.logical_or
         (Js.logical_or (attr org OrganizationContext.pib) (settings_get org "pib"))
         (Js.VString "");
     cd_pdv_number :=
       Js.logical_or
         (Js.logical_or (attr org OrganizationContext.pdv_number)
                        (settings_get org "pdv_number"))
         (Js.VString "");
     cd_address :=
       if Js.truthy (attr org OrganizationContext.address)
       then match org with
            | Some o => Js.VString (address_line o)
            | None => Js.VUndefined
            end
       else Js.logical_or (settings_get org "address") (Js.VString "");
     cd_email :=
       Js.logical_or
         (Js.logical_or (attr org OrganizationContext.email) (settings_get org "email"))
         (Js.VString "");
     cd_phone :=
       Js.logical_or
         (Js.logical_or (attr org OrganizationContext.phone) (settings_get org "phone"))
         (Js.VString "") |}.

(** A form value: [string | number]. *)
Inductive form_value :=
| FString (s : string)
| FNumber (n : Js.number).

Definition to_value (f : form_value) : Js.value :=
  match f with
  | FString s => Js.VString s
  | FNumber n => Js.VNumber n
  end.

(** [x || ''] for a nullable string [x]. *)
Definition text_or_empty (x : option string) : form_value :=
  match x with
  | Some s => FString s
  | None => FString ""
  end.

(** [x || 0] for a nullable number [x]. *)
Definition number_or_zero (x : option Js.number) : form_value :=
  match x with
  | Some n => if Js.truthy (Js.VNumber n) then FNumber n else FNumber (Js.Dec false 0 0)
  | None => FNumber (Js.Dec false 0 0)
  end.

(** The initial [formData] object. *)
Definition initialFormData (invoice : Invoice) : gmap string form_value :=
  list_to_map
    [ ("invoice_number", text_or_empty (invoice_number invoice));
      ("invoice_date", text_or_empty (invoice_date invoice));
      ("vendor_name", text_or_empty (vendor_name invoice));
      ("vendor_address", text_or_empty (vendor_address invoice));
      ("vendor_tax_id", text_or_empty (vendor_tax_id invoice));
      ("vendor_pdv", text_or_empty (vendor_pdv invoice));
      ("buyer_name", text_or_empty (buyer_name invoice));
      ("buyer_address", text_or_empty (buyer_address invoice));
      ("buyer_tax_id", text_or_empty (buyer_tax_id invoice));
      ("subtotal", number_or_zero (subtotal invoice));
      ("tax_amount", number_or_zero (tax_amount invoice));
      ("total_amount", number_or_zero (total_amount invoice));
      ("currency",
        FString (if Js.truthy (Js.VString (currency invoice))
                 then currency invoice else "EUR"));
      ("notes", text_or_empty (notes invoice)) ].

(** [handleInputChange field value]: [{ ...prev, [field]: value }]. *)
Definition handleInputChange (field : string) (v : form_value)
    (formData : gmap string form_value) : gmap string form_value :=
  <[ field := v ]> formData.

(** [Number(formData.k)]: a number is kept, a string goes through
    StringToNumber, a missing property ([undefined]) gives [NaN]. *)
Definition Number_of (x : option form_value) : Js.number :=
  match x with
  | Some (FNumber n) => n
  | Some (FString s) => Js.StringToNumber s
  | None => Js.NaN
  end.

(** [(invoice.status as InvoiceStatus) || 'pending'] *)
Definition currentStatus (invoice : Invoice) : string :=
  if Js.truthy (Js.VString (status invoice)) then status invoice else "pending".

(** [statusConfig[currentStatus] || statusConfig.pending] *)
Definition statusInfo (invoice : Invoice) : Js.property StatusInfo :=
  Js.property_or (Js.get_property statusConfig (currentStatus invoice))
                 (Js.get_property statusConfig "pending").

(** [statusInfo.label], [statusInfo.color], [statusInfo.bgColor] as the
    header badge reads them; [None] is [undefined]. *)
Definition badge (p : Js.property StatusInfo) : option StatusInfo :=
  match p with
  | Js.Own info => Some info
  | Js.Inherited _ | Js.Absent => None
  end.

(** What a handler of the view does, in order. *)
Inductive effect :=
| SetIsSaving (b : bool)
| SetIsEditing (b : bool)
| Remote (rq : Supabase.request)
| RouterRefresh
| ConsoleError (context : string)
| Alert (message : string).

(** The payload of [handleSave]:
    [{ ...formData, subtotal: Number(formData.subtotal), ... }]. *)
Definition save_payload (formData : gmap string form_value)
  : gmap string form_value :=
  <[ "total_amount" := FNumber (Number_of (formData !! "total_amount")) ]>
  (<[ "tax_amount" := FNumber (Number_of (formData !! "tax_amount")) ]>
  (<[ "subtotal" := FNumber (Number_of (formData !! "subtotal")) ]> formData)).

(** The three numeric keys of the save payload. *)
Definition numeric_keys : list string :=
  [ "subtotal"; "tax_amount"; "total_amount" ].

(** [handleSave]; [response] is the error the update came back with (or
    threw), [None] when it was accepted. *)
Definition handleSave (invoice : Invoice) (formData : gmap string form_value)
    (response : option string) : list effect :=
  [ SetIsSaving true;
    Remote (Supabase.Update "invoices" (to_value <$> save_payload formData)
                            "id" (id invoice)) ]
  ++ match response with
     | None => [ SetIsEditing false; RouterRefresh ]
     | Some _ => [ ConsoleError "Error saving:"; Alert "Greska pri spremanju" ]
     end
  ++ [ SetIsSaving false ].

(** [handleVerify] *)
Definition handleVerify (invoice : Invoice) (response : option string)
  : list effect :=
  [ SetIsSaving true;
    Remote (Supabase.Update "invoices" {[ "status" := Js.VString "verified" ]}
                            "id" (id invoice)) ]
  ++ match response with
     | None => [ RouterRefresh ]
     | Some _ => [ ConsoleError "Error verifying:"; Alert "Greska pri verifikaciji" ]
     end
  ++ [ SetIsSaving false ].

(** [handleSendToAccountant] *)
Definition handleSendToAccountant (invoice : Invoice) (response : option string)
  : list effect :=
  [ SetIsSaving true;
    Remote (Supabase.Update "invoices"
              {[ "status" := Js.VString "sent_to_accountant" ]}
              "id" (id invoice)) ]
  ++ match response with
     | None => [ RouterRefresh ]
     | Some _ => [ ConsoleError "Error sending:"; Alert "Greska pri slanju" ]
     end
  ++ [ SetIsSaving false ].

(** The buttons of the action bar. *)
Inductive action :=
| Cancel
| Save
| Edit
| Verify
| SendToAccountant.

#[global] Instance action_eq_dec : EqDecision action.
Proof. solve_decision. Defined.

(** The action bar, as rendered for the edit flag [isEditing]. *)
Definition actionButtons (isEditing : bool) (invoice : Invoice) : list action :=
  if isEditing then [ Cancel; Save ]
  else
    [ Edit ]
    ++ (if String.eqb (currentStatus invoice) "processed" then [ Verify ] else [])
    ++ (if String.eqb (currentStatus invoice) "verified"
        then [ SendToAccountant ] else []).

(** The requests among the effects of a handler. *)
Definition requests (es : list effect) : list Supabase.request :=
  omap (fun e => match e with Remote rq => Some rq | _ => None end) es.

End InvoiceVerification.

(* ===================================================================== *)
(** * src/app/dashboard/settings/members/page.tsx *)
(* ===================================================================== *)

Module TeamMembers.

Record Member := {
  id : string;
  user_id : string;
  role : string;
  created_at : string;
  user_email : string;
  user_full_name : option string
}.

(** What [handleRemoveMember] does, in order. *)
Inductive effect :=
| ToastError (message : string)
| ToastSuccess (message : string)
| Confirm (message : string)
| Remote (rq : Supabase.request)
| LoadMembers.

(** [handleRemoveMember member]; [confirmed] is the answer to the
    [confirm] dialog and [response] the message of the error the delete
    came back with (or threw), [None] when it was accepted. *)
Definition handleRemoveMember (member : Member) (confirmed : bool)
    (response : option string) : list effect :=
  if String.eqb (role member) "owner" then
    [ ToastError "Ne mozete ukloniti vlasnika" ]
  else
    Confirm "Da li ste sigurni da zelite ukloniti ovog clana?"
    :: if negb confirmed then []
       else
         Remote (Supabase.Delete "organization_members" "id" (id member))
         :: match response with
            | None => [ ToastSuccess "Clan uspjesno uklonjen"; LoadMembers ]
            | Some message =>
                [ ToastError
                    (if Js.truthy (Js.VString message) then message
                     else "Greska pri uklanjanju clana") ]
            end.

Definition requests (es : list effect) : list Supabase.request :=
  omap (fun e => match e with Remote rq => Some rq | _ => None end) es.

Definition reloads (es : list effect) : bool :=
  existsb (fun e => match e with LoadMembers => true | _ => false end) es.

Definition rejections (es : list effect) : list string :=
  omap (fun e => match e with ToastError m => Some m | _ => None end) es.

End TeamMembers.

(* ===================================================================== *)
(** * The organization settings page (src/unnamed/part_002) *)
(* ===================================================================== *)

Module Settings.

Record FormData := {
  name : Js.value;
  pib : Js.value;
  pdv_number : Js.value;
  address : Js.value;
  email : Js.value;
  phone : Js.value;
  accountant_email : Js.value
}.

(** The form before an organization is loaded. *)
Definition emptyFormData : FormData :=
  {| name := Js.VString ""; pib := Js.VString "";
     pdv_number := Js.VString ""; address := Js.VString "";
     email := Js.VString ""; phone := Js.VString "";
     accountant_email := Js.VString "" |}.

(** The effect on [currentOrganization]: with an organization it sets
    the form from direct columns first, then from [settings]; without one
    the form is left as it is. *)
Definition loadFormData (currentOrganization : option OrganizationContext.OrganizationWithRole)
    (formData : FormData) : FormData :=
  match currentOrganization with
  | None => formData
  | Some org =>
      let settings := default ∅ (OrganizationContext.settings org) in
      {| name := Js.logical_or (Js.VString (OrganizationContext.name org))
                               (Js.VString "");
         pib :=
           Js.logical_or
             (Js.logical_or (Js.of_nullable (OrganizationContext.pib org))
                            (Js.get settings "pib"))
             (Js.VString "");
         pdv_number :=
           Js.logical_or
             (Js.logical_or (Js.of_nullable (OrganizationContext.pdv_number org))
                            (Js.get settings "pdv_number"))
             (Js.VString "");
         address :=
           if Js.truthy (Js.of_nullable (OrganizationContext.address org))
           then Js.VString (InvoiceVerification.address_line org)
           else Js.logical_or (Js.get settings "address") (Js.VString "");
         email :=
           Js.logical_or
             (Js.logical_or (Js.of_nullable (OrganizationContext.email org))
                            (Js.get settings "email"))
             (Js.VString "");
         phone :=
           Js.logical_or
             (Js.logical_or (Js.of_nullable (OrganizationContext.phone org))
                            (Js.get settings "phone"))
             (Js.VString "");
         accountant_email :=
           Js.logical_or
             (Js.of_nullable (OrganizationContext.accountant_email org))
             (Js.VString "") |}
  end.

End Settings.

(* ===================================================================== *)
(** * The attributes kept both as columns and in [settings] *)
(* ===================================================================== *)

Module TaxFields.

(** The tax and contact fields that an organization holds as a direct
    column and, historically, under the same key in [settings]. *)
Inductive field :=
| Pib
| PdvNumber
| Address
| Email
| Phone.

Definition key (f : field) : string :=
  match f with
  | Pib => "pib"
  | PdvNumber => "pdv_number"
  | Address => "address"
  | Email => "email"
  | Phone => "phone"
  end.

(** The direct column. *)
Definition first_class (f : field)
    (org : OrganizationContext.OrganizationWithRole) : option string :=
  match f with
  | Pib => OrganizationContext.pib org
  | PdvNumber => OrganizationContext.pdv_number org
  | Address => OrganizationContext.address org
  | Email => OrganizationContext.email org
  | Phone => OrganizationContext.phone org
  end.

(** The value under the same key in [settings], when it has one. *)
Definition in_settings (f : field)
    (org : OrganizationContext.OrganizationWithRole) : option Js.value :=
  match OrganizationContext.settings org with
  | Some s => s !! key f
  | None => None
  end.

(** The settings object that the merges read: [settings || {}]. *)
Definition settings_of (org : OrganizationContext.OrganizationWithRole)
  : gmap string Js.value :=
  default ∅ (OrganizationContext.settings org).

(** The field as the settings form shows it. *)
Definition in_form (f : field) (formData : Settings.FormData) : Js.value :=
  match f with
  | Pib => Settings.pib formData
  | PdvNumber => Settings.pdv_number formData
  | Address => Settings.address formData
  | Email => Settings.email formData
  | Phone => Settings.phone formData
  end.

(** The field as the invoice view's [companyData] holds it. *)
Definition in_company (f : field) (c : InvoiceVerification.CompanyData)
  : Js.value :=
  match f with
  | Pib => InvoiceVerification.cd_pib c
  | PdvNumber => InvoiceVerification.cd_pdv_number c
  | Address => InvoiceVerification.cd_address c
  | Email => InvoiceVerification.cd_email c
  | Phone => InvoiceVerification.cd_phone c
  end.

End TaxFields.

(* ===================================================================== *)
(** * Concrete data for the scenarios *)
(* ===================================================================== *)

Module Scenario.

(** An invoice with the given status and line items, all else blank. *)
Definition invoice (status : string) (line_items : Js.value)
  : InvoiceVerification.Invoice :=
  {| InvoiceVerification.id := "inv-1";
     InvoiceVerification.invoice_number := None;
     InvoiceVerification.invoice_date := None;
     InvoiceVerification.vendor_name := None;
     InvoiceVerification.vendor_address := None;
     InvoiceVerification.vendor_tax_id := None;
     InvoiceVerification.vendor_pdv := None;
     InvoiceVerification.buyer_name := None;
     InvoiceVerification.buyer_address := None;
     InvoiceVerification.buyer_tax_id := None;
     InvoiceVerification.subtotal := None;
     InvoiceVerification.tax_amount := None;
     InvoiceVerification.total_amount := None;
     InvoiceVerification.currency := "EUR";
     InvoiceVerification.line_items := line_items;
     InvoiceVerification.notes := None;
     InvoiceVerification.file_url := None;
     InvoiceVerification.file_type := "pdf";
     InvoiceVerification.status := status;
     InvoiceVerification.created_at := "2024-01-01";
     InvoiceVerification.user_id := "user-1" |}.

(** The text [[{"description":"A","amount":10}]]. *)
Definition line_items_text : string :=
  "[{" +:+ Js.dq +:+ "description" +:+ Js.dq +:+ ":" +:+ Js.dq +:+ "A"
  +:+ Js.dq +:+ "," +:+ Js.dq +:+ "amount" +:+ Js.dq +:+ ":10}]".

(** An organization with the given id, tax id, street and settings. *)
Definition organization (id : string) (pib address : option string)
    (settings : gmap string Js.value)
  : OrganizationContext.OrganizationWithRole :=
  {| OrganizationContext.id := id;
     OrganizationContext.name := "Firma";
     OrganizationContext.slug := "firma";
     OrganizationContext.logo_url := None;
     OrganizationContext.accountant_email := None;
     OrganizationContext.settings := Some settings;
     OrganizationContext.created_at := "2024-01-01";
     OrganizationContext.pib := pib;
     OrganizationContext.pdv_number := None;
     OrganizationContext.address := address;
     OrganizationContext.city := None;
     OrganizationContext.postal_code := None;
     OrganizationContext.country := None;
     OrganizationContext.phone := None;
     OrganizationContext.email := None;
     OrganizationContext.owner_name := None;
     OrganizationContext.is_pdv_registered := None;
     OrganizationContext.role := "owner" |}.

Definition member (id role : string) : TeamMembers.Member :=
  {| TeamMembers.id := id;
     TeamMembers.user_id := "user-" +:+ id;
     TeamMembers.role := role;
     TeamMembers.created_at := "2024-01-01";
     TeamMembers.user_email := "korisnik@email.com";
     TeamMembers.user_full_name := None |}.

(** A signed-in user [u] whose profile row stores [saved]. *)
Definition backend (u : string) (saved : option string)
  : OrganizationContext.Backend :=
  {| OrganizationContext.user := Some u;
     OrganizationContext.profiles := {[ u := saved ]} |}.

Definition state (current : option OrganizationContext.OrganizationWithRole)
    (orgs : list OrganizationContext.OrganizationWithRole)
  : OrganizationContext.State :=
  {| OrganizationContext.currentOrganization := current;
     OrganizationContext.organizations := orgs;
     OrganizationContext.isLoading := false |}.

End Scenario.

(* ===================================================================== *)
(** * The provider around the tenant context
      (src/lib/organization-context.tsx) *)
(* ===================================================================== *)

Module Provider.

Import OrganizationContext.

(** [useState(initialOrganization)], [useState(initialOrganizations)] and
    [useState(!initialOrganization)]. *)
Definition initialState (initialOrganization : option OrganizationWithRole)
    (initialOrganizations : list OrganizationWithRole) : State :=
  {| currentOrganization := initialOrganization;
     organizations := initialOrganizations;
     isLoading := match initialOrganization with
                  | Some _ => false
                  | None => true
                  end |}.

(** The mount effect: [if (!initialOrganization) refreshOrganizations()];
    [fetched] is what [fetchOrganizations()] resolves to. *)
Definition mount (b : Backend) (fetched : list OrganizationWithRole)
    (initialOrganization : option OrganizationWithRole)
    (initialOrganizations : list OrganizationWithRole)
  : State * list Supabase.request :=
  match initialOrganization with
  | None =>
      refreshOrganizations b fetched
        (initialState initialOrganization initialOrganizations)
  | Some _ => (initialState initialOrganization initialOrganizations, [])
  end.

(** [currentOrganization?.role || null] *)
Definition role_of (st : State) : option string :=
  match currentOrganization st with
  | Some o => if Js.truthy (Js.VString (role o)) then Some (role o) else None
  | None => None
  end.

(** [role === 'owner'] *)
Definition isOwner (st : State) : bool :=
  match role_of st with
  | Some r => String.eqb r "owner"
  | None => false
  end.

Definition canManageMembers (st : State) : bool := isOwner st.
Definition canManageProjects (st : State) : bool := true.
Definition canExportReports (st : State) : bool := true.

(** [useRequireOrganization]: where it sends the browser, if anywhere;
    [in_browser] is [typeof window !== 'undefined']. *)
Definition useRequireOrganization (in_browser : bool) (st : State)
  : option string :=
  if negb (isLoading st)
     && match currentOrganization st with Some _ => false | None => true end
     && (length (organizations st) =? 0)%nat
  then (if in_browser then Some "/onboarding" else None)
  else None.

(** What an accepted request does to the rows the provider reads: an
    update of [profiles] filtered by [id] sets [current_organization_id]
    on the row with that id, when there is one. *)
Definition apply_request (b : Backend) (rq : Supabase.request) : Backend :=
  match rq with
  | Supabase.Update table payload column v =>
      if String.eqb table "profiles" && String.eqb column "id" then
        match payload !! "current_organization_id" with
        | Some new =>
            {| user := user b;
               profiles :=
                 alter (fun _ => match new with
                                 | Js.VString s => Some s
                                 | _ => None
                                 end) v (profiles b) |}
        | None => b
        end
      else b
  | Supabase.Delete _ _ _ => b
  end.

Definition apply_requests (b : Backend) (rqs : list Supabase.request) : Backend :=
  foldl apply_request b rqs.

(** The two operations that the context offers for changing the current
    organization, each with the backend it runs against. *)
Inductive operation :=
| Refresh (b : Backend) (fetched : list OrganizationWithRole)
| Switch (b : Backend) (orgId : string).

(** One call, run from its start to its end with no other call in
    between. *)
Definition step (st : State) (op : operation) : State :=
  match op with
  | Refresh b fetched => fst (refreshOrganizations b fetched st)
  | Switch b orgId => fst (switchOrganization b orgId st)
  end.

(** Calls made one after another, each one finished before the next one
    starts; calls that overlap are not described by [run]. *)
Definition run (ops : list operation) (st : State) : State := foldl step st ops.

(** The current organization, if any, is one of the listed ones. *)
Definition consistent (st : State) : Prop :=
  forall o, currentOrganization st = Some o -> o ∈ organizations st.

(** [refreshOrganizations] is an async function: between its awaits it
    runs without interruption, and while it waits other calls may run.
    Its parts are: up to [await fetchOrganizations()]; from the list
    [orgs] that resolved to, up to [await getCurrentOrgFromProfile()], or
    to the end when the list is empty; from the id [savedOrgId] that
    resolved to, up to [await saveCurrentOrgToProfile(...)], or to the
    end when an entry has that id; and the end after the save. *)
Inductive part :=
| Started
| Fetched (orgs : list OrganizationWithRole)
| Resolved (savedOrgId : option string) (orgs : list OrganizationWithRole)
| Saved.

Definition part_step (st : State) (p : part) : State :=
  match p with
  | Started => setIsLoading true st
  | Fetched orgs =>
      let st := setOrganizations orgs st in
      match orgs with
      | _ :: _ => st
      | [] => setIsLoading false (setCurrentOrganization None st)
      end
  | Resolved savedOrgId orgs =>
      match List.find (id_is savedOrgId) orgs, orgs with
      | Some savedOrg, _ =>
          setIsLoading false (setCurrentOrganization (Some savedOrg) st)
      | None, first :: _ => setCurrentOrganization (Some first) st
      | None, [] => st
      end
  | Saved => setIsLoading false st
  end.

(** The parts of one call, in the order in which they run. *)
Definition refresh_parts (b : Backend) (orgs : list OrganizationWithRole)
  : list part :=
  Started :: Fetched orgs ::
  match orgs with
  | [] => []
  | _ :: _ =>
      Resolved (getCurrentOrgFromProfile b) orgs ::
      match List.find (id_is (getCurrentOrgFromProfile b)) orgs with
      | Some _ => []
      | None => [Saved]
      end
  end.

(** [interleaving l1 l2 l]: [l] has the elements of [l1] and of [l2],
    those of each list in their order. *)
Inductive interleaving {A : Type} : list A -> list A -> list A -> Prop :=
| interleaving_nil : interleaving [] [] []
| interleaving_left (x : A) (l1 l2 l : list A) :
    interleaving l1 l2 l -> interleaving (x :: l1) l2 (x :: l)
| interleaving_right (x : A) (l1 l2 l : list A) :
    interleaving l1 l2 l -> interleaving l1 (x :: l2) (x :: l).

End Provider.

(* ===================================================================== *)
(** * The dashboard layout (src/unnamed/part_001) and shell *)
(* ===================================================================== *)

Module DashboardLayout.

Import OrganizationContext.

(** The signed-in user, as [supabase.auth.getUser()] gives it. *)
Record AuthUser := {
  user_id : string;
  user_email : option string
}.

(** The columns of the [profiles] row that the layout reads. *)
Record Profile := {
  current_organization_id : option string;
  full_name : option string
}.

(** The [user] prop of the shell. *)
Record ShellUser := {
  shell_id : string;
  shell_email : string;
  shell_fullName : option string
}.

Inductive outcome :=
| Redirect (path : string)
| Shell (user : ShellUser) (organizations : list OrganizationWithRole)
        (currentOrganization : OrganizationWithRole).

(** [org.id === profile?.current_organization_id] *)
Definition is_current (profile : option Profile) (org : OrganizationWithRole)
  : bool :=
  match profile with
  | Some p =>
      match current_organization_id p with
      | Some s => String.eqb (id org) s
      | None => false
      end
  | None => false
  end.

(** [DashboardLayout]; [getOrganizations] and [getProfile] are what the
    two queries resolve to for a user id. *)
Definition DashboardLayout (user : option AuthUser)
    (getOrganizations : string -> list OrganizationWithRole)
    (getProfile : string -> option Profile) : outcome :=
  match user with
  | None => Redirect "/login"
  | Some u =>
      let organizations := getOrganizations (user_id u) in
      let profile := getProfile (user_id u) in
      match organizations with
      | [] => Redirect "/onboarding"
      | first :: _ =>
          let currentOrganization :=
            match List.find (is_current profile) organizations with
            | Some org => org
            | None => first
            end in
          Shell {| shell_id := user_id u;
                   shell_email :=
                     match user_email u with
                     | Some e => e
                     | None => ""
                     end;
                   shell_fullName :=
                     match profile with
                     | Some p => full_name p
                     | None => None
                     end |}
                organizations currentOrganization
      end
  end.

(** [DashboardShell]: the provider's first state. *)
Definition DashboardShell (organizations : list OrganizationWithRole)
    (currentOrganization : OrganizationWithRole) : State :=
  Provider.initialState (Some currentOrganization) organizations.

(** [profile?.current_organization_id]: the saved selection as the layout
    reads it. *)
Definition layout_saved (profile : option Profile) : option string :=
  match profile with
  | Some p => current_organization_id p
  | None => None
  end.

End DashboardLayout.

(* ===================================================================== *)
(** * The header (bundled with src/app/register/page.tsx) *)
(* ===================================================================== *)

Module Header.

Import OrganizationContext.

(** [s.split('@')[0]]: the text before the first [@]. *)
Fixpoint before_at (s : string) : string :=
  match s with
  | EmptyString => EmptyString
  | String c r => if Js.is_char 64 c then EmptyString else String c (before_at r)
  end.

(** [user.fullName || user.email.split('@')[0]] *)
Definition displayName (user : DashboardLayout.ShellUser) : string :=
  match DashboardLayout.shell_fullName user with
  | Some n =>
      if Js.truthy (Js.VString n) then n
      else before_at (DashboardLayout.shell_email user)
  | None => before_at (DashboardLayout.shell_email user)
  end.

Inductive effect :=
| SignOut
| RouterPush (path : string)
| RouterRefresh
| SetShowOrgDropdown (b : bool).

(** [handleLogout] *)
Definition handleLogout : list effect :=
  [ SignOut; RouterPush "/login"; RouterRefresh ].

(** [handleSwitchOrg orgId] *)
Definition handleSwitchOrg (b : Backend) (orgId : string) (st : State)
  : State * list Supabase.request * list effect :=
  (switchOrganization b orgId st, [ SetShowOrgDropdown false; RouterRefresh ]).

(** The organizations listed in the switcher: it is rendered with a
    current organization, more than one organization, and the dropdown
    open; each entry calls [handleSwitchOrg] with its id. *)
Definition switcherEntries (showOrgDropdown : bool) (st : State)
  : list OrganizationWithRole :=
  match currentOrganization st with
  | Some _ =>
      if showOrgDropdown && (1 <? length (organizations st))%nat
      then organizations st else []
  | None => []
  end.

(** [org.id === currentOrganization?.id]: the entry carries the check
    mark. *)
Definition checked (st : State) (org : OrganizationWithRole) : bool :=
  match currentOrganization st with
  | Some c => String.eqb (id org) (id c)
  | None => false
  end.

End Header.

(* ===================================================================== *)
(** * The form and the handlers of the invoice view, as a whole
      (src/unnamed/part_000) *)
(* ===================================================================== *)

Module InvoiceForm.

Import InvoiceVerification.

(** The keys of the form object. *)
Definition form_keys : list string :=
  [ "invoice_number"; "invoice_date"; "vendor_name"; "vendor_address";
    "vendor_tax_id"; "vendor_pdv"; "buyer_name"; "buyer_address";
    "buyer_tax_id"; "subtotal"; "tax_amount"; "total_amount"; "currency";
    "notes" ].

(** The fields that have an input: the [field] arguments with which the
    view calls [handleInputChange]. *)
Definition input_fields : list string :=
  [ "invoice_number"; "invoice_date"; "vendor_name"; "vendor_address";
    "vendor_tax_id"; "vendor_pdv"; "subtotal"; "tax_amount"; "total_amount";
    "currency"; "notes" ].

(** The form after a series of input changes, oldest first. *)
Definition edited (invoice : Invoice) (edits : list (string * form_value))
  : gmap string form_value :=
  foldl (fun formData e => handleInputChange (fst e) (snd e) formData)
        (initialFormData invoice) edits.

(** The three handlers that write the invoice. *)
Inductive handler :=
| HandleSave (formData : gmap string form_value)
| HandleVerify
| HandleSendToAccountant.

Definition handle (h : handler) (invoice : Invoice) (response : option string)
  : list effect :=
  match h with
  | HandleSave formData => handleSave invoice formData response
  | HandleVerify => handleVerify invoice response
  | HandleSendToAccountant => handleSendToAccountant invoice response
  end.

Definition is_alert (e : effect) : bool :=
  match e with Alert _ => true | _ => false end.

Definition is_refresh (e : effect) : bool :=
  match e with RouterRefresh => true | _ => false end.

(** The company card is rendered under
    [(companyData.pib || companyData.address || companyData.email) && ...]. *)
Definition showCompanyCard (c : CompanyData) : bool :=
  Js.truthy (Js.logical_or (Js.logical_or (cd_pib c) (cd_address c)) (cd_email c)).

End InvoiceForm.

(* ===================================================================== *)
(** * The members page as a whole
      (src/app/dashboard/settings/members/page.tsx) *)
(* ===================================================================== *)

Module MembersPage.

(** A row of [organization_members], as selected:
    [id, user_id, role, created_at]. *)
Record MemberRow := {
  id : string;
  user_id : string;
  role : string;
  created_at : string
}.

(** A row of [profiles], as selected: [id, full_name]. *)
Record ProfileRow := {
  profile_id : string;
  profile_full_name : option string
}.

(** A member as the page keeps it: [{ ...m, user: { email, full_name } }]. *)
Record Member := {
  row : MemberRow;
  email : option string;
  full_name : option string
}.

Record State := {
  members : list Member;
  loading : bool
}.

(** What a query resolves to: an error, or its data (possibly [null]). *)
Inductive result (A : Type) :=
| QueryError (message : string)
| QueryData (data : option A).
Arguments QueryError {A} message.
Arguments QueryData {A} data.

Inductive notice :=
| ConsoleError (context : string)
| ToastError (message : string)
| ToastSuccess (message : string).

(** [profilesMap], filled by [profilesData.forEach(p => profilesMap[p.id]
    = { full_name: p.full_name })]. Only [profilesMap[k]?.full_name] is
    ever read, and what a read finds on the prototype chain has no
    [full_name], so the object is kept as the map of its own entries. *)
Definition profilesMap (profilesData : option (list ProfileRow))
  : gmap string (option string) :=
  match profilesData with
  | Some rows =>
      foldl (fun m p => <[ profile_id p := profile_full_name p ]> m) ∅ rows
  | None => ∅
  end.

(** [profilesMap[m.user_id]?.full_name || null] *)
Definition full_name_of (names : gmap string (option string)) (m : MemberRow)
  : option string :=
  match names !! user_id m with
  | Some (Some n) => if Js.truthy (Js.VString n) then Some n else None
  | _ => None
  end.

(** [m.user_id === user?.id ? user?.email : 'korisnik@email.com'] *)
Definition email_of (user : option DashboardLayout.AuthUser) (m : MemberRow)
  : option string :=
  match user with
  | Some u =>
      if String.eqb (user_id m) (DashboardLayout.user_id u)
      then DashboardLayout.user_email u
      else Some "korisnik@email.com"
  | None => Some "korisnik@email.com"
  end.

(** [loadMembers]: [membersResponse] is what the members query resolves
    to, [user] the signed-in user, and [profilesData] what the profiles
    query resolves to (it is sent only when there are members). *)
Definition loadMembers
    (currentOrganization : option OrganizationContext.OrganizationWithRole)
    (membersResponse : result (list MemberRow))
    (user : option DashboardLayout.AuthUser)
    (profilesData : option (list ProfileRow))
    (st : State) : State * list notice :=
  match currentOrganization with
  | None => (st, [])
  | Some org =>
      if negb (Js.truthy (Js.VString (OrganizationContext.id org))) then (st, [])
      else
        match membersResponse with
        | QueryError _ =>
            ({| members := members st; loading := false |},
             [ ConsoleError "Error loading members:";
               ToastError "Greska pri ucitavanju clanova" ])
        | QueryData membersData =>
            let rows := default [] membersData in
            let names :=
              match rows with
              | [] => ∅
              | _ :: _ => profilesMap profilesData
              end in
            ({| members :=
                  (fun m => {| row := m;
                               email := email_of user m;
                               full_name := full_name_of names m |}) <$> rows;
                loading := false |}, [])
        end
  end.

(** The remove button of a member is rendered under
    [isOwner && member.role !== 'owner']. *)
Definition removeButton (isOwner : bool) (member : Member) : bool :=
  isOwner && negb (String.eqb (role (row member)) "owner").

(** The member as [handleRemoveMember] receives it; the handler reads its
    [id] and [role] only. *)
Definition as_member (m : Member) : TeamMembers.Member :=
  {| TeamMembers.id := id (row m);
     TeamMembers.user_id := user_id (row m);
     TeamMembers.role := role (row m);
     TeamMembers.created_at := created_at (row m);
     TeamMembers.user_email := default "" (email m);
     TeamMembers.user_full_name := full_name m |}.

(** The state of the invite dialog. *)
Record InviteForm := {
  showInviteModal : bool;
  inviteEmail : string;
  inviteName : string;
  invitePhone : string;
  inviteRole : string;
  inviting : bool
}.

(** The white space and line terminators that [trim] removes, by code
    point: U+0009 to U+000D, U+0020, U+00A0, U+1680, U+2000 to U+200A,
    U+2028, U+2029, U+202F, U+205F, U+3000 and U+FEFF. A text is held
    as its UTF-8 bytes, so each of them is one, two or three bytes;
    [white_space b1 b2 b3] tells how many of the next bytes, given first
    to last, form such a character ([0] when they do not). *)
Definition white_space (b1 b2 b3 : option N) : nat :=
  match b1, b2, b3 with
  | Some n1, _, _ =>
      if ((9 <=? n1) && (n1 <=? 13) || (n1 =? 32))%N then 1
      else
        match b2 with
        | Some n2 =>
            if ((n1 =? 194) && (n2 =? 160))%N then 2
            else
              match b3 with
              | Some n3 =>
                  if ((n1 =? 225) && (n2 =? 154) && (n3 =? 128)
                      || (n1 =? 226) && (n2 =? 128)
                         && ((128 <=? n3) && (n3 <=? 138)
                             || (n3 =? 168) || (n3 =? 169) || (n3 =? 175))
                      || (n1 =? 226) && (n2 =? 129) && (n3 =? 159)
                      || (n1 =? 227) && (n2 =? 128) && (n3 =? 128)
                      || (n1 =? 239) && (n2 =? 187) && (n3 =? 191))%N
                  then 3 else 0
              | None => 0
              end
        | None => 0
        end
  | None, _, _ => 0
  end.

(** How many bytes the white-space character at the start of [cs] takes
    ([0] when there is none); with [backwards] the bytes are given last
    to first and the character looked for is the last one of the text. *)
Definition white_space_width (backwards : bool) (cs : list ascii) : nat :=
  let b k := Js.code <$> cs !! k in
  if backwards then
    if (white_space (b 0%nat) None None =? 1)%nat then 1
    else if (white_space (b 1%nat) (b 0%nat) None =? 2)%nat then 2
    else if (white_space (b 2%nat) (b 1%nat) (b 0%nat) =? 3)%nat then 3
    else 0
  else white_space (b 0%nat) (b 1%nat) (b 2%nat).

(** Removes the white space at the start of [cs]. *)
Fixpoint trim_start (backwards : bool) (fuel : nat) (cs : list ascii)
  : list ascii :=
  match fuel with
  | O => cs
  | S fuel =>
      match white_space_width backwards cs with
      | O => cs
      | S k => trim_start backwards fuel (drop (S k) cs)
      end
  end.

(** [s.trim()] *)
Definition trim (s : string) : string :=
  let cs := list_ascii_of_string s in
  let cs := trim_start false (length cs) cs in
  string_of_list_ascii (rev (trim_start true (length cs) (rev cs))).

(** [handleInvite]: the form afterwards, what is shown, and what is sent
    to the backend. *)
Definition handleInvite (form : InviteForm)
  : InviteForm * list notice * list Supabase.request :=
  if negb (Js.truthy (Js.VString (trim (inviteEmail form)))) then (form, [], [])
  else
    ({| showInviteModal := false;
        inviteEmail := "";
        inviteName := "";
        invitePhone := "";
        inviteRole := inviteRole form;
        inviting := false |},
     [ ToastSuccess
         ("Pozivnica za "
          +:+ (if Js.truthy (Js.VString (inviteName form))
               then inviteName form else inviteEmail form)
          +:+ " ce biti poslana (funkcionalnost u izradi)") ],
     []).

End MembersPage.

(* ===================================================================== *)
(** * The handlers of the settings page (src/unnamed/part_002) *)
(* ===================================================================== *)

Module SettingsPage.

Import OrganizationContext.

(** The payload of the update that [handleSubmit] sends. *)
Record OrganizationUpdate := {
  upd_name : Js.value;
  upd_accountant_email : Js.value;
  upd_settings : gmap string Js.value
}.

(** [{ ...(currentOrganization.settings || {}), pib: formData.pib,
    pdv_number: ..., address: ..., email: ..., phone: ... }] *)
Definition submitted_settings (org : OrganizationWithRole)
    (formData : Settings.FormData) : gmap string Js.value :=
  <[ "phone" := Settings.phone formData ]>
  (<[ "email" := Settings.email formData ]>
  (<[ "address" := Settings.address formData ]>
  (<[ "pdv_number" := Settings.pdv_number formData ]>
  (<[ "pib" := Settings.pib formData ]> (default ∅ (settings org)))))).

Definition submitted (org : OrganizationWithRole) (formData : Settings.FormData)
  : OrganizationUpdate :=
  {| upd_name := Settings.name formData;
     upd_accountant_email := Settings.accountant_email formData;
     upd_settings := submitted_settings org formData |}.

(** The image file picked in the logo input. *)
Record File := {
  file_type : string;
  file_size : N
}.


Inductive effect :=
| SetLoading (b : bool)
| SetUploadingLogo (b : bool)
| UpdateOrganization (payload : OrganizationUpdate) (id : string)
| UpdateLogoUrlNull (id : option string)
| UploadLogo (file : File)
| Confirm (message : string)
| ToastSuccess (message : string)
| ToastError (message : string)
| RefreshOrganizations
| ResetFileInput.

(** [message || fallback] *)
Definition message_or (message fallback : string) : string :=
  if Js.truthy (Js.VString message) then message else fallback.

(** [handleSubmit]; [response] is the message of the error the update
    came back with, [None] when it was accepted. *)
Definition handleSubmit (currentOrganization : option OrganizationWithRole)
    (formData : Settings.FormData) (response : option string) : list effect :=
  match currentOrganization with
  | None => []
  | Some org =>
      if negb (Js.truthy (Js.VString (id org))) then []
      else
        [ SetLoading true;
          UpdateOrganization (submitted org formData) (id org) ]
        ++ match response with
           | None => [ ToastSuccess "Postavke uspjesno sacuvane";
                       RefreshOrganizations ]
           | Some message =>
               [ ToastError (message_or message "Greska pri cuvanju") ]
           end
        ++ [ SetLoading false ]
  end.




(** [handleRemoveLogo] *)
Definition handleRemoveLogo (currentOrganization : option OrganizationWithRole)
    (confirmed : bool) (response : option string) : list effect :=
  Confirm "Da li ste sigurni da zelite ukloniti logo?"
  :: if negb confirmed then []
     else
       [ SetUploadingLogo true;
         UpdateLogoUrlNull (id <$> currentOrganization) ]
       ++ match response with
          | None => [ ToastSuccess "Logo uklonjen"; RefreshOrganizations ]
          | Some message =>
              [ ToastError (message_or message "Greska pri uklanjanju") ]
          end
       ++ [ SetUploadingLogo false ].


Definition is_refresh (e : effect) : bool :=
  match e with RefreshOrganizations => true | _ => false end.

Definition is_write (e : effect) : bool :=
  match e with
  | UpdateOrganization _ _ | UpdateLogoUrlNull _ | UploadLogo _ => true
  | _ => false
  end.

(** An organization as it is read again after an accepted
    [handleSubmit]: the update leaves the direct tax and contact columns
    alone and replaces [settings]. *)
Definition reloaded (org : OrganizationWithRole) (formData : Settings.FormData)
    (org' : OrganizationWithRole) : Prop :=
  pib org' = pib org /\ pdv_number org' = pdv_number org
  /\ address org' = address org /\ city org' = city org
  /\ postal_code org' = postal_code org
  /\ email org' = email org /\ phone org' = phone org
  /\ settings org' = Some (submitted_settings org formData).

End SettingsPage.

(* ===================================================================== *)
(** * The registration page (src/app/register/page.tsx) and the login
      page (bundled with src/unnamed/part_002) *)
(* ===================================================================== *)

Module AuthPages.

(** [s.includes(p)] *)
Fixpoint includes (p s : string) : bool :=
  String.prefix p s
  || match s with
     | EmptyString => false
     | String _ r => includes p r
     end.

(** What [supabase.auth.signUp] came back with: it threw, it returned an
    error with a message, or it returned data with or without a user
    (by id). *)
Inductive signUp_result :=
| SignUpThrew
| SignUpError (message : string)
| SignUpData (user : option string).

(** What [supabase.auth.signInWithPassword] came back with. *)
Inductive signIn_result :=
| SignInThrew
| SignInError (message : string)
| SignInOk.

(** A password is kept as the sequence of its UTF-16 code units, which
    is what [!==] compares and [.length] counts. *)
Inductive effect :=
| SetError (message : string)
| SetLoading (b : bool)
| SignUp (email : string) (password : list N) (full_name : string)
| SignIn (email : string) (password : list N)
| UpsertProfile (id : string) (full_name : string)
| RouterPush (path : string)
| RouterRefresh.

(** [handleRegister]; [upsert_threw] tells whether the profile upsert
    threw (an error it returns is not looked at). *)
Definition handleRegister (email : string) (password confirmPassword : list N)
    (fullName : string) (signUp : signUp_result) (upsert_threw : bool)
  : list effect :=
  SetError ""
  :: if negb (bool_decide (password = confirmPassword)) then
       [ SetError "Lozinke se ne podudaraju" ]
     else if (length password <? 6)%nat then
       [ SetError "Lozinka mora imati najmanje 6 karaktera" ]
     else
       [ SetLoading true; SignUp email password fullName ]
       ++ match signUp with
          | SignUpThrew => [ SetError "Doslo je do greske. Pokusajte ponovo." ]
          | SignUpError message =>
              [ SetError (if includes "already registered" message
                          then "Ovaj email je vec registrovan" else message) ]
          | SignUpData (Some user_id) =>
              UpsertProfile user_id fullName
              :: if upsert_threw
                 then [ SetError "Doslo je do greske. Pokusajte ponovo." ]
                 else [ RouterPush "/onboarding"; RouterRefresh ]
          | SignUpData None => []
          end
       ++ [ SetLoading false ].

(** [handleLogin] *)
Definition handleLogin (email : string) (password : list N)
    (signIn : signIn_result) : list effect :=
  [ SetError ""; SetLoading true; SignIn email password ]
  ++ match signIn with
     | SignInThrew => [ SetError "Došlo je do greške. Pokušajte ponovo." ]
     | SignInError _ => [ SetError "Pogrešan email ili lozinka" ]
     | SignInOk => [ RouterPush "/dashboard"; RouterRefresh ]
     end
  ++ [ SetLoading false ].

Definition is_signUp (e : effect) : bool :=
  match e with SignUp _ _ _ => true | _ => false end.

Definition is_push (e : effect) : bool :=
  match e with RouterPush _ => true | _ => false end.

(** The error messages set, in order. *)
Definition errors (es : list effect) : list string :=
  omap (fun e => match e with SetError m => Some m | _ => None end) es.


End AuthPages.

(* ===================================================================== *)
(** * Properties of the invoice verification view *)
(* ===================================================================== *)

Section LineItems.

Import InvoiceVerification.

Variable JSON_parse : string -> option Js.value.

(** The empty text is not JSON: [JSON.parse("")] throws. *)
Hypothesis JSON_parse_empty : JSON_parse "" = None.

Lemma parseLineItems_falsy (v : Js.value) :
  Js.truthy v = false -> parseLineItems JSON_parse v = Js.VArray [].
Proof. intros Hv. unfold parseLineItems. now rewrite Hv. Qed.

Lemma parseLineItems_string (s : string) :
  parseLineItems JSON_parse (Js.VString s) =
  match JSON_parse s with
  | Some (Js.VArray items) => Js.VArray items
  | _ => Js.VArray []
  end.
Proof.
  unfold parseLineItems. cbn [Js.truthy Js.isArray].
  destruct (String.eqb_spec s "") as [-> | Hne]; cbn [negb].
  - now rewrite JSON_parse_empty.
  - destruct (JSON_parse s) as [[]|]; reflexivity.
Qed.

(** C1. [parseLineItems] returns a native array as it is, the parsed
    array for a string that holds a JSON array, and the empty array for
    [null], [undefined], a string that is not JSON, a string whose JSON
    value is not an array, and every other value. *)
Theorem parseLineItems_spec :
  (forall items, parseLineItems JSON_parse (Js.VArray items) = Js.VArray items)
  /\ (forall s items,
        JSON_parse s = Some (Js.VArray items) ->
        parseLineItems JSON_parse (Js.VString s) = Js.VArray items)
  /\ parseLineItems JSON_parse Js.VNull = Js.VArray []
  /\ parseLineItems JSON_parse Js.VUndefined = Js.VArray []
  /\ (forall s,
        JSON_parse s = None ->
        parseLineItems JSON_parse (Js.VString s) = Js.VArray [])
  /\ (forall s parsed,
        JSON_parse s = Some parsed ->
        Js.isArray parsed = false ->
        parseLineItems JSON_parse (Js.VString s) = Js.VArray [])
  /\ (forall v,
        Js.isArray v = false ->
        (forall s, v <> Js.VString s) ->
        parseLineItems JSON_parse v = Js.VArray []).
Proof.
  repeat apply conj.
  - reflexivity.
  - intros s items Hs. now rewrite parseLineItems_string, Hs.
  - reflexivity.
  - reflexivity.
  - intros s Hs. now rewrite parseLineItems_string, Hs.
  - intros s parsed Hs Hp. rewrite parseLineItems_string, Hs.
    destruct parsed; try reflexivity. discriminate Hp.
  - intros v Hv Hstr. unfold parseLineItems. rewrite Hv.
    destruct v; try reflexivity.
    + now destruct (negb _).
    + now destruct (negb _).
    + exfalso. now apply (Hstr s).
Qed.

End LineItems.

(** Scenario 2, run with the JSON reader: the stored text is parsed to
    one item with description [A] and amount [10]. *)
Lemma parseLineItems_scenario :
  Js.read_json "" = None
  /\ InvoiceVerification.parseLineItems Js.read_json
       (InvoiceVerification.line_items
          (Scenario.invoice "processed" (Js.VString Scenario.line_items_text)))
     = Js.VArray
         [ Js.VObject [ ("description", Js.VString "A");
                        ("amount", Js.VNumber (Js.Dec false 10 0)) ] ].
Proof.
  split; [reflexivity |].
  apply (proj1 (proj2 (parseLineItems_spec Js.read_json eq_refl))).
  vm_compute. reflexivity.
Defined.

Section StatusDisplay.

Import InvoiceVerification.

Lemma statusConfig_defined (s : string) :
  s ∈ InvoiceStatus -> is_Some (statusConfig !! s).
Proof.
  unfold InvoiceStatus. rewrite !elem_of_cons, elem_of_nil.
  intros [-> | [-> | [-> | [-> | [-> | []]]]]]; vm_compute; eauto.
Qed.

Lemma statusConfig_undefined (s : string) :
  s ∉ InvoiceStatus -> statusConfig !! s = None.
Proof.
  unfold InvoiceStatus. rewrite !not_elem_of_cons. intros (? & ? & ? & ? & ? & _).
  unfold statusConfig. cbn [list_to_map foldr uncurry fst snd].
  rewrite !lookup_insert_ne by congruence. apply lookup_empty.
Qed.

Lemma inherited_spec (s : string) :
  existsb (String.eqb s) Js.Object_prototype = true <-> s ∈ Js.Object_prototype.
Proof.
  rewrite existsb_exists. split.
  - intros (x & Hin & Heq). apply String.eqb_eq in Heq. subst x.
    now apply list_elem_of_In.
  - intros Hin. exists s. split; [now apply list_elem_of_In | apply String.eqb_refl].
Qed.

(** Within the five states the own entry is shown, and a status that is
    neither a defined state nor a property name of [Object.prototype]
    is shown as [pending]. *)
Lemma statusInfo_unrecognized (invoice : Invoice) :
  status invoice ∉ InvoiceStatus ->
  status invoice ∉ Js.Object_prototype ->
  statusInfo invoice = Js.Own pending_info.
Proof.
  intros Hfive Hproto. unfold statusInfo, currentStatus.
  cbn [Js.truthy]. destruct (String.eqb_spec (status invoice) "") as [He | Hne];
    cbn [negb]; [reflexivity |].
  unfold Js.get_property at 1. rewrite (statusConfig_undefined _ Hfive).
  destruct (existsb _ _) eqn:Hex.
  - apply inherited_spec in Hex. contradiction.
  - reflexivity.
Qed.

Lemma statusInfo_defined (invoice : Invoice) :
  status invoice ∈ InvoiceStatus ->
  exists info, statusConfig !! status invoice = Some info
               /\ statusInfo invoice = Js.Own info.
Proof.
  unfold InvoiceStatus. rewrite !elem_of_cons, elem_of_nil.
  unfold statusInfo, currentStatus.
  intros [-> | [-> | [-> | [-> | [-> | []]]]]]; eexists; split; reflexivity.
Qed.

(** A status that names a property of [Object.prototype] reads that
    inherited property, not the [pending] entry. *)
Lemma statusInfo_inherited (invoice : Invoice) :
  status invoice ∈ Js.Object_prototype ->
  statusInfo invoice = Js.Inherited (status invoice).
Proof.
  unfold Js.Object_prototype. rewrite !elem_of_cons, elem_of_nil.
  unfold statusInfo, currentStatus.
  intros H. repeat (destruct H as [-> | H]; [reflexivity |]). destruct H.
Qed.

(** C2, at the status [constructor]: the lookup finds the property that
    [statusConfig] inherits from [Object.prototype], which is truthy, so
    the fallback to the [pending] entry is not taken and the badge has no
    label and no styling, whereas a stored [pending] shows the pending
    entry. *)
Theorem statusInfo_constructor :
  let invoice := Scenario.invoice "constructor" Js.VNull in
  (status invoice ∉ InvoiceStatus)
  /\ statusInfo invoice = Js.Inherited "constructor"
  /\ badge (statusInfo invoice) = None
  /\ statusInfo (Scenario.invoice "pending" Js.VNull) = Js.Own pending_info
  /\ badge (statusInfo (Scenario.invoice "pending" Js.VNull)) = Some pending_info.
Proof.
  cbv zeta. split; [| repeat split; reflexivity].
  cbn [status Scenario.invoice]. unfold InvoiceStatus.
  rewrite !not_elem_of_cons. repeat split; try discriminate. apply not_elem_of_nil.
Qed.

End StatusDisplay.

Section Actions.

Import InvoiceVerification.

Lemma currentStatus_is (invoice : Invoice) (s : string) :
  s <> "" -> s <> "pending" ->
  String.eqb (currentStatus invoice) s = String.eqb (status invoice) s.
Proof.
  intros Hs Hp. unfold currentStatus. cbn [Js.truthy].
  destruct (String.eqb_spec (status invoice) "") as [He | Hne]; cbn [negb];
    [| reflexivity].
  rewrite He. destruct (String.eqb_spec "pending" s), (String.eqb_spec "" s);
    congruence.
Qed.

(** C3 as stated fails while the form is being edited: with status
    [processed] the action bar then holds only Cancel and Save. *)
Lemma actionButtons_editing_counterexample :
  actionButtons true (Scenario.invoice "processed" Js.VNull) = [ Cancel; Save ]
  /\ ~ (forall (isEditing : bool) (invoice : Invoice),
          (Verify ∈ actionButtons isEditing invoice
             <-> status invoice = "processed")
          /\ (SendToAccountant ∈ actionButtons isEditing invoice
             <-> status invoice = "verified")).
Proof.
  split; [reflexivity |]. intros H.
  destruct (H true (Scenario.invoice "processed" Js.VNull)) as [[_ Hback] _].
  specialize (Hback eq_refl). vm_compute in Hback.
  apply elem_of_cons in Hback as [Hc | Hback]; [discriminate |].
  apply elem_of_cons in Hback as [Hc | Hback]; [discriminate |].
  now apply elem_of_nil in Hback.
Qed.

(** C3, amended. Outside edit mode the verify action is offered exactly
    for status [processed] and the send action exactly for status
    [verified]; in edit mode neither is offered. *)
Theorem actionButtons_spec (isEditing : bool) (invoice : Invoice) :
  (Verify ∈ actionButtons isEditing invoice
     <-> isEditing = false /\ status invoice = "processed")
  /\ (SendToAccountant ∈ actionButtons isEditing invoice
     <-> isEditing = false /\ status invoice = "verified").
Proof.
  unfold actionButtons.
  rewrite (currentStatus_is invoice "processed") by discriminate.
  rewrite (currentStatus_is invoice "verified") by discriminate.
  destruct isEditing.
  - split; (split; [intros H | intros [H _]; discriminate]);
      repeat (apply elem_of_cons in H as [H | H]; [discriminate |]);
      now apply elem_of_nil in H.
  - destruct (String.eqb_spec (status invoice) "processed") as [Hp | Hp],
             (String.eqb_spec (status invoice) "verified") as [Hv | Hv];
      try (rewrite Hp in Hv; discriminate); cbn [app].
    all: split; (split; [intros H | intros [_ H]]).
    all: try (split; [reflexivity | assumption]).
    all: try (repeat (apply elem_of_cons in H as [H | H]; [discriminate |]);
              now apply elem_of_nil in H).
    all: try congruence.
    all: set_solver.
Qed.

End Actions.

Section Writes.

Import InvoiceVerification.

Lemma requests_handleVerify (invoice : Invoice) (response : option string) :
  requests (handleVerify invoice response) =
  [ Supabase.Update "invoices" {[ "status" := Js.VString "verified" ]}
                    "id" (id invoice) ].
Proof. destruct response; reflexivity. Qed.

Lemma requests_handleSave (invoice : Invoice)
    (formData : gmap string form_value) (response : option string) :
  requests (handleSave invoice formData response) =
  [ Supabase.Update "invoices" (to_value <$> save_payload formData)
                    "id" (id invoice) ].
Proof. destruct response; reflexivity. Qed.

(** C4. A verify that the backend accepts sends one update, for the
    invoice's id, whose payload is the single column [status] with value
    [verified]; applied to the stored rows it sets [status] on the rows
    with that id, keeps all their other columns, and keeps every other
    row. *)
Theorem handleVerify_writes_status_only (invoice : Invoice) :
  let payload : gmap string Js.value := {[ "status" := Js.VString "verified" ]} in
  handleVerify invoice None =
    [ SetIsSaving true;
      Remote (Supabase.Update "invoices" payload "id" (id invoice));
      RouterRefresh;
      SetIsSaving false ]
  /\ dom payload = ({[ "status" ]} : gset string)
  /\ forall rows : list (gmap string Js.value),
       Forall2
         (fun row row' =>
            if Supabase.matches "id" (id invoice) row
            then row' !! "status" = Some (Js.VString "verified")
                 /\ delete "status" row' = delete "status" row
            else row' = row)
         rows (Supabase.apply_update payload "id" (id invoice) rows).
Proof.
  cbv zeta. split; [reflexivity |]. split; [apply dom_singleton_L |].
  intros rows. unfold Supabase.apply_update.
  apply Forall2_fmap_r, Forall_Forall2_diag, Forall_forall.
  intros row _. cbn [compose].
  destruct (Supabase.matches "id" (id invoice) row) eqn:Hm; rewrite ?Hm;
    [| reflexivity].
  split.
  - apply lookup_union_Some_l, lookup_singleton_eq.
  - rewrite delete_union, delete_singleton_eq. apply (left_id_L ∅ (∪)).
Qed.

(** Scenario 1: the accepted update of [handleVerify] turns a stored
    [processed] invoice into a [verified] one and keeps its total. *)
Example handleVerify_scenario :
  let stored : gmap string Js.value :=
    {[ "id" := Js.VString "inv-1"; "status" := Js.VString "processed";
       "total_amount" := Js.VNumber (Js.Dec false 10 0) ]} in
  Supabase.apply_update {[ "status" := Js.VString "verified" ]} "id"
    (id (Scenario.invoice "processed" Js.VNull)) [ stored ]
  = [ {[ "id" := Js.VString "inv-1"; "status" := Js.VString "verified";
         "total_amount" := Js.VNumber (Js.Dec false 10 0) ]} ].
Proof. reflexivity. Qed.

(** The two tests that [Js.round] makes before it computes a power of
    ten decide what they are meant to decide: under the first the value
    [m * 10^e] is at least [2^1024], under the second it is below
    [2^-1075]. *)
Lemma size_bounds (m : N) :
  m <> 0%N ->
  (2 ^ (Z.of_N (N.size m) - 1) <= Z.of_N m < 2 ^ Z.of_N (N.size m))%Z.
Proof.
  intros Hm. rewrite (N.size_log2 m Hm).
  destruct (N.log2_spec m) as [Hlow Hhigh]; [lia |].
  replace (Z.of_N (N.succ (N.log2 m)) - 1)%Z with (Z.of_N (N.log2 m)) by lia.
  rewrite <- !(N2Z.inj_pow 2). lia.
Qed.

Lemma round_overflows (neg : bool) (m : N) (e : Z) :
  m <> 0%N ->
  (0 <= e)%Z ->
  (1025 <= Z.of_N (N.size m) + 3 * e)%Z ->
  Js.round neg m e = Js.Infinity neg
  /\ (2 ^ 1024 <= Z.of_N m * 10 ^ e)%Z.
Proof.
  intros Hm He Hbits. split.
  - unfold Js.round. cbv zeta.
    destruct (N.eqb_spec m 0) as [? | _]; [congruence |].
    destruct (Z.leb_spec 0 e); [| lia].
    now destruct (Z.leb_spec 1025 (Z.of_N (N.size m) + 3 * e)); [| lia].
  - destruct (size_bounds m Hm) as [Hlow _].
    assert (Hpow : (2 ^ (3 * e) <= 10 ^ e)%Z).
    { rewrite Z.pow_mul_r by lia. apply Z.pow_le_mono_l. lia. }
    assert (0 < Z.of_N (N.size m))%Z by (rewrite (N.size_log2 m Hm); lia).
    assert (H1 : (2 ^ 1024 <= 2 ^ (Z.of_N (N.size m) - 1 + 3 * e))%Z)
      by (apply Z.pow_le_mono_r; lia).
    rewrite Z.pow_add_r in H1 by lia.
    assert (0 < 2 ^ (Z.of_N (N.size m) - 1))%Z by (apply Z.pow_pos_nonneg; lia).
    assert (0 < 2 ^ (3 * e))%Z by (apply Z.pow_pos_nonneg; lia).
    nia.
Qed.

Lemma round_underflows (neg : bool) (m : N) (e : Z) :
  m <> 0%N ->
  (e < 0)%Z ->
  (Z.of_N (N.size m) + 3 * e <= - 1075)%Z ->
  Js.round neg m e = Js.Dec neg 0 0
  /\ (Z.of_N m * 2 ^ 1075 < 10 ^ (- e))%Z.
Proof.
  intros Hm He Hbits. split.
  - unfold Js.round. cbv zeta.
    destruct (N.eqb_spec m 0) as [? | _]; [congruence |].
    destruct (Z.leb_spec 0 e); [lia |]. cbn [andb].
    destruct (Z.ltb_spec e 0); [| lia].
    now destruct (Z.leb_spec (Z.of_N (N.size m) + 3 * e) (- 1075)); [| lia].
  - destruct (size_bounds m Hm) as [_ Hhigh].
    assert (Hpow : (2 ^ (3 * - e) <= 10 ^ (- e))%Z).
    { rewrite Z.pow_mul_r by lia. apply Z.pow_le_mono_l. lia. }
    assert (H1 : (2 ^ (Z.of_N (N.size m) + 1075) <= 2 ^ (3 * - e))%Z)
      by (apply Z.pow_le_mono_r; lia).
    rewrite Z.pow_add_r in H1 by lia.
    assert (0 < 2 ^ 1075)%Z by (apply Z.pow_pos_nonneg; lia).
    nia.
Qed.

(** [Number] of a text: white space of any kind around the literal is
    dropped, a blank text is [0], the value is rounded to binary64 and
    overflows to an infinity, and anything else is [NaN]. *)
Example StringToNumber_examples :
  let nbsp := String (ascii_of_N 194) (String (ascii_of_N 160) EmptyString) in
  let line_separator :=
    String (ascii_of_N 226) (String (ascii_of_N 128)
      (String (ascii_of_N 168) EmptyString)) in
  Js.StringToNumber (nbsp +:+ "12") = Js.Dec false 12 0
  /\ Js.StringToNumber (" 12.50" +:+ line_separator) = Js.Dec false 125 (-1)
  /\ Js.StringToNumber (nbsp +:+ " ") = Js.Dec false 0 0
  /\ Js.StringToNumber "1e400" = Js.Infinity false
  /\ Js.StringToNumber "-1.8e308" = Js.Infinity true
  /\ Js.StringToNumber "1e-400" = Js.Dec false 0 0
  /\ Js.StringToNumber "9007199254740993" = Js.Dec false 9007199254740992 0
  /\ Js.StringToNumber "0.1"
     = Js.Dec false 1000000000000000055511151231257827021181583404541015625
              (-55)
  /\ Js.StringToNumber "0x1F" = Js.Dec false 31 0
  /\ Js.StringToNumber "12,5" = Js.NaN
  /\ Js.StringToNumber "1 2" = Js.NaN.
Proof. cbv zeta. repeat apply conj; vm_compute; reflexivity. Qed.

Lemma StringToNumber_blank (s : string) :
  Js.trim (list_ascii_of_string s) = [] ->
  Js.StringToNumber s = Js.Dec false 0 0.
Proof. unfold Js.StringToNumber. cbv zeta. now intros ->. Qed.

(** C8 as stated fails: a subtotal that is not numeric is not rejected.
    With [abc] typed into the field, a save that the backend accepts
    sends the update with [subtotal = NaN], leaves edit mode and shows no
    error; a blank field is sent as [0]. *)
Lemma handleSave_non_numeric_counterexample :
  let invoice := Scenario.invoice "processed" Js.VNull in
  let typed s := handleInputChange "subtotal" (FString s) (initialFormData invoice) in
  Js.StringToNumber "abc" = Js.NaN
  /\ handleSave invoice (typed "abc") None =
       [ SetIsSaving true;
         Remote (Supabase.Update "invoices"
                   (to_value <$> save_payload (typed "abc")) "id" "inv-1");
         SetIsEditing false;
         RouterRefresh;
         SetIsSaving false ]
  /\ (to_value <$> save_payload (typed "abc")) !! "subtotal"
       = Some (Js.VNumber Js.NaN)
  /\ (to_value <$> save_payload (typed "")) !! "subtotal"
       = Some (Js.VNumber (Js.Dec false 0 0))
  /\ ~ (forall (inv : Invoice) (formData : gmap string form_value)
               (response : option string) (k s : string),
          k ∈ numeric_keys ->
          formData !! k = Some (FString s) ->
          Js.StringToNumber s = Js.NaN ->
          requests (handleSave inv formData response) = []).
Proof.
  cbv zeta. repeat apply conj; try reflexivity.
  intros H.
  specialize (H (Scenario.invoice "processed" Js.VNull)
                (handleInputChange "subtotal" (FString "abc")
                   (initialFormData (Scenario.invoice "processed" Js.VNull)))
                None "subtotal" "abc").
  rewrite requests_handleSave in H.
  discriminate H; [apply list_elem_of_here | reflexivity | reflexivity].
Qed.

(** C8, amended. Every save coerces the three numeric fields with
    [Number(...)] and sends the update, whatever they hold: the payload
    has [Number] of each numeric field, a text that is not numeric being
    sent as [NaN] and a blank one (empty, or white space only) as [0],
    and every other field as the form has it. *)
Theorem handleSave_coerces (invoice : Invoice)
    (formData : gmap string form_value) (response : option string) :
  let payload := to_value <$> save_payload formData in
  requests (handleSave invoice formData response)
    = [ Supabase.Update "invoices" payload "id" (id invoice) ]
  /\ Forall
       (fun k => payload !! k = Some (Js.VNumber (Number_of (formData !! k))))
       numeric_keys
  /\ foldr delete payload numeric_keys
       = to_value <$> foldr delete formData numeric_keys
  /\ (forall k s,
        k ∈ numeric_keys ->
        formData !! k = Some (FString s) ->
        Js.StringToNumber s = Js.NaN ->
        payload !! k = Some (Js.VNumber Js.NaN))
  /\ (forall k s,
        k ∈ numeric_keys ->
        formData !! k = Some (FString s) ->
        Js.trim (list_ascii_of_string s) = [] ->
        payload !! k = Some (Js.VNumber (Js.Dec false 0 0))).
Proof.
  cbv zeta. split; [apply requests_handleSave |].
  assert (Hnum : Forall
       (fun k => (to_value <$> save_payload formData) !! k
                 = Some (Js.VNumber (Number_of (formData !! k))))
       numeric_keys).
  { unfold numeric_keys, save_payload. repeat apply Forall_cons_2;
      [| | | apply Forall_nil_2]; rewrite lookup_fmap.
    - rewrite lookup_insert_ne, lookup_insert_ne, lookup_insert_eq by done.
      reflexivity.
    - rewrite lookup_insert_ne, lookup_insert_eq by done. reflexivity.
    - rewrite lookup_insert_eq. reflexivity. }
  split; [exact Hnum |]. split.
  - unfold numeric_keys, save_payload. cbn [foldr].
    rewrite <- !fmap_delete. f_equal.
    apply map_eq. intros k.
    destruct (decide (k = "subtotal")) as [-> | H1];
      [now rewrite !lookup_delete_eq |].
    destruct (decide (k = "tax_amount")) as [-> | H2];
      [now rewrite !(lookup_delete_ne _ "subtotal"), !lookup_delete_eq by done |].
    destruct (decide (k = "total_amount")) as [-> | H3];
      [now rewrite !(lookup_delete_ne _ "subtotal"),
                   !(lookup_delete_ne _ "tax_amount"), !lookup_delete_eq by done |].
    rewrite !lookup_delete_ne, !lookup_insert_ne by done. reflexivity.
  - rewrite Forall_forall in Hnum. split.
    + intros k s Hk Hs Hnan.
      rewrite (Hnum k Hk), Hs. cbn [Number_of]. now rewrite Hnan.
    + intros k s Hk Hs Hblank.
      rewrite (Hnum k Hk), Hs. cbn [Number_of].
      now rewrite (StringToNumber_blank s Hblank).
Qed.

(** With [abc] typed into the subtotal field the update carries
    [subtotal = NaN]; with the field left holding two spaces it carries
    [subtotal = 0]. *)
Lemma handleSave_coerces_witness :
  let invoice := Scenario.invoice "processed" Js.VNull in
  let typed s := handleInputChange "subtotal" (FString s) (initialFormData invoice) in
  (to_value <$> save_payload (typed "abc")) !! "subtotal"
    = Some (Js.VNumber Js.NaN)
  /\ (to_value <$> save_payload (typed "  ")) !! "subtotal"
    = Some (Js.VNumber (Js.Dec false 0 0)).
Proof.
  cbv zeta. split.
  - apply (proj1 (proj2 (proj2 (proj2
             (handleSave_coerces (Scenario.invoice "processed" Js.VNull) _ None))))
             "subtotal" "abc").
    + apply list_elem_of_here.
    + reflexivity.
    + reflexivity.
  - apply (proj2 (proj2 (proj2 (proj2
             (handleSave_coerces (Scenario.invoice "processed" Js.VNull) _ None))))
             "subtotal" "  ").
    + apply list_elem_of_here.
    + reflexivity.
    + reflexivity.
Defined.

End Writes.

(* ===================================================================== *)
(** * Properties of the tenant context *)
(* ===================================================================== *)

Section TenantContext.

Import OrganizationContext.

Lemma find_by_id_present (orgs : list OrganizationWithRole) (sid : string) :
  sid ∈ id <$> orgs ->
  exists o, List.find (fun o => String.eqb (id o) sid) orgs = Some o
            /\ o ∈ orgs /\ id o = sid.
Proof.
  intros Hin. apply list_elem_of_fmap in Hin as (o' & -> & Ho').
  destruct (List.find (fun o => String.eqb (id o) (id o')) orgs) as [o |] eqn:Hfind.
  - apply find_some in Hfind as [Ho Hid]. apply String.eqb_eq in Hid.
    exists o. repeat split; [now apply list_elem_of_In | assumption].
  - apply list_elem_of_In in Ho'.
    pose proof (find_none _ _ Hfind o' Ho') as Hno. cbn beta in Hno.
    now rewrite String.eqb_refl in Hno.
Qed.

Lemma find_by_id_absent (orgs : list OrganizationWithRole) (sid : string) :
  sid ∉ id <$> orgs ->
  List.find (fun o => String.eqb (id o) sid) orgs = None.
Proof.
  intros Hout.
  destruct (List.find _ orgs) as [o |] eqn:Hfind; [| reflexivity].
  apply find_some in Hfind as [Ho Hid]. apply String.eqb_eq in Hid.
  exfalso. apply Hout. apply list_elem_of_fmap. exists o.
  split; [now symmetry | now apply list_elem_of_In].
Qed.

Lemma saveCurrentOrgToProfile_signed_in (b : Backend) (u orgId : string) :
  user b = Some u ->
  saveCurrentOrgToProfile b orgId =
  [ Supabase.Update "profiles"
      {[ "current_organization_id" := Js.VString orgId ]} "id" u ].
Proof. intros Hu. unfold saveCurrentOrgToProfile. now rewrite Hu. Qed.

(** How the saved selection is read: the stored id of the signed-in
    user's profile row, an empty or null id being read as none. *)
Lemma getCurrentOrgFromProfile_Some (b : Backend) (sid : string) :
  getCurrentOrgFromProfile b = Some sid <->
  sid <> "" /\ exists u, user b = Some u /\ profiles b !! u = Some (Some sid).
Proof.
  unfold getCurrentOrgFromProfile. cbn [Js.truthy].
  destruct (user b) as [u |]; [| split; [discriminate | intros (_ & ? & ? & _); discriminate]].
  destruct (profiles b !! u) as [[stored |] |] eqn:Hrow.
  - destruct (String.eqb_spec stored "") as [-> | Hne]; cbn [negb].
    + split; [discriminate |]. intros (Hsid & u' & [= <-] & Hu').
      rewrite Hrow in Hu'. congruence.
    + split.
      * intros [= ->]. split; [assumption | eauto].
      * intros (_ & u' & [= <-] & Hu'). rewrite Hrow in Hu'. congruence.
  - split; [discriminate |]. intros (_ & u' & [= <-] & Hu').
    rewrite Hrow in Hu'. discriminate.
  - split; [discriminate |]. intros (_ & u' & [= <-] & Hu').
    rewrite Hrow in Hu'. discriminate.
Qed.

Ltac state_simpl :=
  cbn [fst snd setIsLoading setOrganizations setCurrentOrganization
       currentOrganization organizations isLoading].

(** C5. After [refreshOrganizations] the list is the fetched one; with an
    empty list there is no current organization; with a saved id that is
    in the list the current organization is the entry with that id and
    nothing is sent; with no saved id, or one that is not in the list,
    the current organization is the first entry and that choice is saved
    (for the signed-in user, by an update of the profile row); and the
    current organization, if any, is in the list. *)
Theorem refreshOrganizations_spec (b : Backend)
    (orgs : list OrganizationWithRole) (st : State) :
  let st' := fst (refreshOrganizations b orgs st) in
  let sent := snd (refreshOrganizations b orgs st) in
  organizations st' = orgs
  /\ isLoading st' = false
  /\ (orgs = [] -> currentOrganization st' = None /\ sent = [])
  /\ (forall sid,
        getCurrentOrgFromProfile b = Some sid ->
        sid ∈ id <$> orgs ->
        exists o,
          currentOrganization st' = Some o
          /\ o ∈ orgs /\ id o = sid
          /\ List.find (fun o => String.eqb (id o) sid) orgs = Some o
          /\ sent = [])
  /\ (forall first rest,
        orgs = first :: rest ->
        (forall sid, getCurrentOrgFromProfile b = Some sid -> sid ∉ id <$> orgs) ->
        currentOrganization st' = Some first
        /\ sent = saveCurrentOrgToProfile b (id first)
        /\ forall u, user b = Some u ->
             sent = [ Supabase.Update "profiles"
                        {[ "current_organization_id" := Js.VString (id first) ]}
                        "id" u ])
  /\ (forall o, currentOrganization st' = Some o -> o ∈ organizations st').
Proof.
  cbv zeta. unfold refreshOrganizations.
  destruct orgs as [| first rest].
  - cbn. repeat apply conj; try reflexivity.
    + intros _. split; reflexivity.
    + intros sid _ Hin. now apply elem_of_nil in Hin.
    + intros ? ? [=].
    + intros o [=].
  - set (orgs := first :: rest).
    destruct (getCurrentOrgFromProfile b) as [sid0 |] eqn:Hsaved.
    + change (id_is (Some sid0)) with (fun o => String.eqb (id o) sid0).
      destruct (List.find (fun o => String.eqb (id o) sid0) orgs) as [o0 |] eqn:Hfind.
      * pose proof (find_some _ _ Hfind) as [Ho0 Hid0]. cbn beta in Hid0.
        apply String.eqb_eq in Hid0. apply list_elem_of_In in Ho0.
        state_simpl. repeat apply conj; try reflexivity.
        -- intros [=].
        -- intros sid [= <-] _. exists o0. repeat split; assumption.
        -- intros f r _ Hout. exfalso. apply (Hout sid0 eq_refl).
           apply list_elem_of_fmap. exists o0. split; [now symmetry | assumption].
        -- intros o [= <-]. assumption.
      * state_simpl. repeat apply conj; try reflexivity.
        -- intros [=].
        -- intros sid [= <-] Hin.
           apply find_by_id_present in Hin as (o & Ho & _). fold orgs in Ho.
           congruence.
        -- intros f r [= <- <-] _. repeat split.
           intros u Hu. now apply saveCurrentOrgToProfile_signed_in.
        -- intros o [= <-]. apply list_elem_of_here.
    + assert (Hnone : List.find (id_is None) orgs = None).
      { clear. induction orgs as [| x r IH]; [reflexivity | exact IH]. }
      rewrite Hnone. state_simpl. repeat apply conj; try reflexivity.
      * intros [=].
      * intros sid [=].
      * intros f r [= <- <-] _. repeat split.
        intros u Hu. now apply saveCurrentOrgToProfile_signed_in.
      * intros o [= <-]. apply list_elem_of_here.
Qed.

(** C6. [switchOrganization] with an id that is not in the list leaves
    the state as it is and sends nothing; with an id that is in the list
    it makes the entry with that id current and saves the selection (for
    the signed-in user, by an update of the profile row). *)
Theorem switchOrganization_spec (b : Backend) (orgId : string) (st : State) :
  let st' := fst (switchOrganization b orgId st) in
  let sent := snd (switchOrganization b orgId st) in
  (orgId ∉ id <$> organizations st -> st' = st /\ sent = [])
  /\ (orgId ∈ id <$> organizations st ->
      exists org,
        List.find (fun o => String.eqb (id o) orgId) (organizations st) = Some org
        /\ org ∈ organizations st /\ id org = orgId
        /\ currentOrganization st' = Some org
        /\ organizations st' = organizations st
        /\ sent = saveCurrentOrgToProfile b orgId
        /\ forall u, user b = Some u ->
             sent = [ Supabase.Update "profiles"
                        {[ "current_organization_id" := Js.VString orgId ]}
                        "id" u ]).
Proof.
  cbv zeta. unfold switchOrganization. split.
  - intros Hout. rewrite (find_by_id_absent _ _ Hout). split; reflexivity.
  - intros Hin. destruct (find_by_id_present _ _ Hin) as (org & Hfind & Horg & Hid).
    exists org. rewrite Hfind. cbn. repeat split; try assumption.
    intros u Hu. now apply saveCurrentOrgToProfile_signed_in.
Qed.

End TenantContext.

(** A user in two organizations whose profile stores the second one gets
    it back on refresh; with nothing stored, the first one is chosen and
    saved. *)
Lemma refreshOrganizations_witness :
  let a := Scenario.organization "org-a" None None ∅ in
  let b := Scenario.organization "org-b" None None ∅ in
  OrganizationContext.currentOrganization
    (fst (OrganizationContext.refreshOrganizations
            (Scenario.backend "u1" (Some "org-b")) [a; b] (Scenario.state None [])))
  = Some b
  /\ snd (OrganizationContext.refreshOrganizations
            (Scenario.backend "u1" None) [a; b] (Scenario.state None []))
     = [ Supabase.Update "profiles"
           {[ "current_organization_id" := Js.VString "org-a" ]} "id" "u1" ].
Proof.
  cbv zeta. split.
  - destruct (refreshOrganizations_spec
                (Scenario.backend "u1" (Some "org-b"))
                [Scenario.organization "org-a" None None ∅;
                 Scenario.organization "org-b" None None ∅]
                (Scenario.state None []))
      as (_ & _ & _ & Hsaved & _).
    destruct (Hsaved "org-b" eq_refl) as (o & Hcur & _ & _ & Hfind & _).
    + apply list_elem_of_further, list_elem_of_here.
    + rewrite Hcur, <- Hfind. reflexivity.
  - destruct (refreshOrganizations_spec
                (Scenario.backend "u1" None)
                [Scenario.organization "org-a" None None ∅;
                 Scenario.organization "org-b" None None ∅]
                (Scenario.state None []))
      as (_ & _ & _ & _ & Hfirst & _).
    destruct (Hfirst _ _ eq_refl) as (_ & _ & Hsent).
    + intros sid Hsid. vm_compute in Hsid. discriminate Hsid.
    + apply (Hsent "u1" eq_refl).
Defined.

(** Switching to the second of two organizations makes it current and
    saves it; switching to an unknown id changes nothing. *)
Lemma switchOrganization_witness :
  let a := Scenario.organization "org-a" None None ∅ in
  let b := Scenario.organization "org-b" None None ∅ in
  let st := Scenario.state (Some a) [a; b] in
  OrganizationContext.switchOrganization (Scenario.backend "u1" None) "org-z" st
    = (st, [])
  /\ OrganizationContext.currentOrganization
       (fst (OrganizationContext.switchOrganization
               (Scenario.backend "u1" None) "org-b" st)) = Some b
  /\ snd (OrganizationContext.switchOrganization
            (Scenario.backend "u1" None) "org-b" st)
     = [ Supabase.Update "profiles"
           {[ "current_organization_id" := Js.VString "org-b" ]} "id" "u1" ].
Proof.
  cbv zeta.
  pose (a := Scenario.organization "org-a" None None ∅).
  pose (b := Scenario.organization "org-b" None None ∅).
  destruct (switchOrganization_spec (Scenario.backend "u1" None) "org-z"
              (Scenario.state (Some a) [a; b])) as [Habsent _].
  destruct (switchOrganization_spec (Scenario.backend "u1" None) "org-b"
              (Scenario.state (Some a) [a; b])) as [_ Hpresent].
  split; [| split].
  - destruct Habsent as [Hst Hsent].
    + intros Hin. apply list_elem_of_In in Hin. cbn in Hin.
      destruct Hin as [H | [H | []]]; discriminate H.
    + fold a b. rewrite (surjective_pairing (OrganizationContext.switchOrganization _ _ _)).
      now rewrite Hst, Hsent.
  - destruct Hpresent as (org & Hfind & _ & _ & Hcur & _).
    + apply list_elem_of_further, list_elem_of_here.
    + fold a b. rewrite Hcur, <- Hfind. reflexivity.
  - destruct Hpresent as (org & _ & _ & _ & _ & _ & _ & Hsent).
    + apply list_elem_of_further, list_elem_of_here.
    + apply (Hsent "u1" eq_refl).
Defined.

(* ===================================================================== *)
(** * Properties of the members page *)
(* ===================================================================== *)

Section Members.

Import TeamMembers.

Lemma role_owner_dec (member : Member) :
  (role member = "owner" -> String.eqb (role member) "owner" = true)
  /\ (role member <> "owner" -> String.eqb (role member) "owner" = false).
Proof.
  split; intros H.
  - now apply String.eqb_eq.
  - now apply String.eqb_neq.
Qed.

(** C7 as stated fails for a member who is not the owner: when the
    confirmation dialog is declined, no delete is sent and the list is
    not reloaded. *)
Lemma handleRemoveMember_declined_counterexample :
  let member := Scenario.member "m-2" "employee" in
  role member <> "owner"
  /\ handleRemoveMember member false None
       = [ Confirm "Da li ste sigurni da zelite ukloniti ovog clana?" ]
  /\ ~ (forall (m : Member) (confirmed : bool) (response : option string),
          (role m = "owner" ->
             rejections (handleRemoveMember m confirmed response) <> []
             /\ requests (handleRemoveMember m confirmed response) = [])
          /\ (role m <> "owner" ->
               requests (handleRemoveMember m confirmed response)
                 = [ Supabase.Delete "organization_members" "id" (id m) ]
               /\ reloads (handleRemoveMember m confirmed response) = true)).
Proof.
  cbv zeta. split; [discriminate |]. split; [reflexivity |].
  intros H.
  destruct (H (Scenario.member "m-2" "employee") false None) as [_ Hother].
  destruct Hother as [Hreq _]; [discriminate |].
  vm_compute in Hreq. discriminate Hreq.
Qed.

(** C7, amended. For an owner the removal is refused with an error
    message, nothing is sent and nothing is reloaded. For any other
    member the user is asked to confirm: if they decline, nothing is sent
    and nothing is reloaded; if they confirm, the delete of that
    membership row is sent, and the list is reloaded when the delete is
    accepted, while a failed delete is reported and not followed by a
    reload. *)
Theorem handleRemoveMember_spec (member : Member) (confirmed : bool)
    (response : option string) :
  let done := handleRemoveMember member confirmed response in
  (role member = "owner" ->
     done = [ ToastError "Ne mozete ukloniti vlasnika" ]
     /\ requests done = [] /\ reloads done = false
     /\ rejections done = [ "Ne mozete ukloniti vlasnika" ])
  /\ (role member <> "owner" -> confirmed = false ->
       requests done = [] /\ reloads done = false /\ rejections done = [])
  /\ (role member <> "owner" -> confirmed = true ->
       requests done = [ Supabase.Delete "organization_members" "id" (id member) ])
  /\ (role member <> "owner" -> confirmed = true -> response = None ->
       reloads done = true /\ rejections done = [])
  /\ (role member <> "owner" -> confirmed = true -> response <> None ->
       reloads done = false /\ length (rejections done) = 1).
Proof.
  cbv zeta. unfold handleRemoveMember.
  destruct (role_owner_dec member) as [Hyes Hno].
  repeat apply conj.
  - intros H. rewrite (Hyes H). repeat split.
  - intros H ->. rewrite (Hno H). repeat split.
  - intros H ->. rewrite (Hno H). now destruct response.
  - intros H -> ->. rewrite (Hno H). repeat split.
  - intros H -> Hr. rewrite (Hno H). destruct response; [repeat split | congruence].
Qed.

End Members.

(** The owner is refused; an employee whose removal is confirmed and
    accepted is deleted and the list reloaded. *)
Lemma handleRemoveMember_witness :
  TeamMembers.handleRemoveMember (Scenario.member "m-1" "owner") true None
    = [ TeamMembers.ToastError "Ne mozete ukloniti vlasnika" ]
  /\ TeamMembers.requests
       (TeamMembers.handleRemoveMember (Scenario.member "m-2" "employee") true None)
     = [ Supabase.Delete "organization_members" "id" "m-2" ]
  /\ TeamMembers.reloads
       (TeamMembers.handleRemoveMember (Scenario.member "m-2" "employee") true None)
     = true.
Proof.
  split; [| split].
  - apply (proj1 (handleRemoveMember_spec (Scenario.member "m-1" "owner") true None)).
    reflexivity.
  - apply (proj1 (proj2 (proj2
             (handleRemoveMember_spec (Scenario.member "m-2" "employee") true None)))).
    + discriminate.
    + reflexivity.
  - apply (proj1 (proj2 (proj2 (proj2
             (handleRemoveMember_spec (Scenario.member "m-2" "employee") true None))))).
    + discriminate.
    + reflexivity.
    + reflexivity.
Defined.

(* ===================================================================== *)
(** * Properties of the merge of direct columns and settings *)
(* ===================================================================== *)

Section Merge.

Import OrganizationContext TaxFields.

Lemma truthy_string (s : string) : s <> "" -> Js.truthy (Js.VString s) = true.
Proof. intros H. cbn. now apply String.eqb_neq in H as ->. Qed.

Lemma logical_or_truthy (a b : Js.value) :
  Js.truthy a = true -> Js.logical_or a b = a.
Proof. intros H. unfold Js.logical_or. now rewrite H. Qed.

Lemma logical_or_falsy (a b : Js.value) :
  Js.truthy a = false -> Js.logical_or a b = b.
Proof. intros H. unfold Js.logical_or. now rewrite H. Qed.

Lemma get_own (m : gmap string Js.value) (k : string) (v : Js.value) :
  m !! k = Some v -> Js.get m k = v.
Proof. intros H. unfold Js.get, Js.get_property. now rewrite H. Qed.

Lemma append_empty (s : string) : s +:+ "" = s.
Proof.
  induction s as [| c s IH]; [reflexivity |].
  change (String c (s +:+ "") = String c s). now f_equal.
Qed.

Lemma settings_get_of (org : OrganizationWithRole) (f : field) :
  InvoiceVerification.settings_get (Some org) (key f)
  = Js.get (settings_of org) (key f).
Proof.
  unfold InvoiceVerification.settings_get, settings_of.
  destruct (settings org); [reflexivity |]. now destruct f.
Qed.

(** A direct column that is truthy is what both merges show (for the
    address, with city and postal code appended). *)
Lemma merged_first_class (org : OrganizationWithRole)
    (formData : Settings.FormData) (f : field) (s : string) :
  first_class f org = Some s -> s <> "" ->
  let shown := match f with
               | Address => Js.VString (InvoiceVerification.address_line org)
               | _ => Js.VString s
               end in
  in_form f (Settings.loadFormData (Some org) formData) = shown
  /\ in_company f (InvoiceVerification.companyData (Some org)) = shown.
Proof.
  intros Hf Hs. pose proof (truthy_string s Hs) as Ht.
  destruct f; cbn in Hf |- *; rewrite Hf; cbn [Js.of_nullable];
    rewrite ?(logical_or_truthy (Js.VString s)) by exact Ht;
    rewrite ?(logical_or_truthy (Js.VString s)) by exact Ht;
    rewrite ?Ht; split; reflexivity.
Qed.

(** A direct column that is falsy (null, undefined or empty) makes both
    merges show [settings.k || '']. *)
Lemma merged_fallback (org : OrganizationWithRole)
    (formData : Settings.FormData) (f : field) :
  Js.truthy (Js.of_nullable (first_class f org)) = false ->
  let shown := Js.logical_or (Js.get (settings_of org) (key f)) (Js.VString "") in
  in_form f (Settings.loadFormData (Some org) formData) = shown
  /\ in_company f (InvoiceVerification.companyData (Some org)) = shown.
Proof.
  intros Hf. cbv zeta. rewrite <- (settings_get_of org f).
  destruct f; cbn in Hf |- *; fold (settings_of org);
    rewrite ?(logical_or_falsy _ _ Hf), ?Hf;
    (split; [| reflexivity]).
  all: unfold settings_of; destruct (settings org); reflexivity.
Qed.

(** With a falsy direct column, a truthy value in [settings] is shown. *)
Lemma merged_settings (org : OrganizationWithRole)
    (formData : Settings.FormData) (f : field) (v : Js.value) :
  Js.truthy (Js.of_nullable (first_class f org)) = false ->
  in_settings f org = Some v ->
  Js.truthy v = true ->
  in_form f (Settings.loadFormData (Some org) formData) = v
  /\ in_company f (InvoiceVerification.companyData (Some org)) = v.
Proof.
  intros Hfc Hset Hv.
  destruct (merged_fallback org formData f Hfc) as [H1 H2].
  rewrite H1, H2. unfold in_settings, settings_of in *.
  destruct (settings org) as [m |]; [| discriminate].
  change (default ∅ (Some m)) with m.
  rewrite (get_own _ _ _ Hset). split; now apply logical_or_truthy.
Qed.

(** C9. In the settings form and in the invoice view's company data,
    each of pib, pdv_number, address, email and phone is read from the
    direct column when it holds a non-empty text (the address with city
    and postal code appended when present), and from [settings]
    otherwise when the column is absent. *)
Theorem merge_prefers_first_class (org : OrganizationWithRole)
    (formData : Settings.FormData) :
  let form := Settings.loadFormData (Some org) formData in
  let company := InvoiceVerification.companyData (Some org) in
  (forall f s,
     f <> Address -> first_class f org = Some s -> s <> "" ->
     in_form f form = Js.VString s /\ in_company f company = Js.VString s)
  /\ (forall s,
        address org = Some s -> s <> "" ->
        in_form Address form = Js.VString (InvoiceVerification.address_line org)
        /\ in_company Address company
           = Js.VString (InvoiceVerification.address_line org)
        /\ (city org = None -> postal_code org = None ->
            InvoiceVerification.address_line org = s))
  /\ (forall f,
        first_class f org = None ->
        in_form f form
          = Js.logical_or (Js.get (settings_of org) (key f)) (Js.VString "")
        /\ in_company f company
          = Js.logical_or (Js.get (settings_of org) (key f)) (Js.VString ""))
  /\ (forall f v,
        first_class f org = None ->
        in_settings f org = Some v -> Js.truthy v = true ->
        in_form f form = v /\ in_company f company = v).
Proof.
  cbv zeta. repeat apply conj.
  - intros f s Hf Hfc Hs.
    pose proof (merged_first_class org formData f s Hfc Hs) as H.
    destruct f; try exact H. congruence.
  - intros s Ha Hs.
    destruct (merged_first_class org formData Address s Ha Hs) as [H1 H2].
    repeat split; [exact H1 | exact H2 |].
    intros Hc Hp. unfold InvoiceVerification.address_line.
    rewrite Ha, Hc, Hp. cbn [default]. now rewrite !append_empty.
  - intros f Hfc. apply merged_fallback. now rewrite Hfc.
  - intros f v Hfc Hset Hv.
    apply merged_settings; [now rewrite Hfc | assumption | assumption].
Qed.

(** C10. Precedence goes by truthiness: a direct column that holds the
    empty text gives way to the value under the same key in [settings]
    when that value is truthy (any non-empty text is), in the settings
    form and in the company data alike. *)
Theorem merge_empty_first_class_falls_back (org : OrganizationWithRole)
    (formData : Settings.FormData) (f : field) (v : Js.value) :
  first_class f org = Some "" ->
  in_settings f org = Some v ->
  Js.truthy v = true ->
  in_form f (Settings.loadFormData (Some org) formData) = v
  /\ in_company f (InvoiceVerification.companyData (Some org)) = v.
Proof.
  intros Hfc Hset Hv.
  apply merged_settings; [now rewrite Hfc | assumption | assumption].
Qed.

End Merge.

(** The two profile scenarios: a direct [pib] of [123] wins over
    [settings.pib = 999], and without a direct address the form shows
    [settings.address = Main St]; the same holds for the company data of
    the invoice view. *)
Lemma merge_prefers_first_class_witness :
  let with_pib :=
    Scenario.organization "org-a" (Some "123") None {[ "pib" := Js.VString "999" ]} in
  let without_address :=
    Scenario.organization "org-b" None None {[ "address" := Js.VString "Main St" ]} in
  (Settings.pib (Settings.loadFormData (Some with_pib) Settings.emptyFormData)
     = Js.VString "123"
   /\ InvoiceVerification.cd_pib (InvoiceVerification.companyData (Some with_pib))
     = Js.VString "123")
  /\ (Settings.address
        (Settings.loadFormData (Some without_address) Settings.emptyFormData)
      = Js.VString "Main St"
      /\ InvoiceVerification.cd_address
           (InvoiceVerification.companyData (Some without_address))
         = Js.VString "Main St").
Proof.
  cbv zeta. split.
  - apply (proj1 (merge_prefers_first_class
                    (Scenario.organization "org-a" (Some "123") None
                       {[ "pib" := Js.VString "999" ]})
                    Settings.emptyFormData) TaxFields.Pib "123").
    + discriminate.
    + reflexivity.
    + discriminate.
  - apply (proj2 (proj2 (proj2 (merge_prefers_first_class
                    (Scenario.organization "org-b" None None
                       {[ "address" := Js.VString "Main St" ]})
                    Settings.emptyFormData))) TaxFields.Address
                 (Js.VString "Main St")).
    + reflexivity.
    + reflexivity.
    + reflexivity.
Defined.

(** An empty direct [pib] gives way to [settings.pib = 999]. *)
Lemma merge_empty_first_class_witness :
  let org :=
    Scenario.organization "org-a" (Some "") None {[ "pib" := Js.VString "999" ]} in
  Settings.pib (Settings.loadFormData (Some org) Settings.emptyFormData)
    = Js.VString "999"
  /\ InvoiceVerification.cd_pib (InvoiceVerification.companyData (Some org))
    = Js.VString "999".
Proof.
  cbv zeta.
  apply (merge_empty_first_class_falls_back
           (Scenario.organization "org-a" (Some "") None
              {[ "pib" := Js.VString "999" ]})
           Settings.emptyFormData TaxFields.Pib (Js.VString "999")).
  - reflexivity.
  - reflexivity.
  - reflexivity.
Defined.
(* ===================================================================== *)
(** * Further properties of the tenant context and its callers *)
(* ===================================================================== *)

Section ProviderProperties.

Import OrganizationContext Provider.

Lemma find_ext {A : Type} (f g : A -> bool) (l : list A) :
  (forall x, f x = g x) -> List.find f l = List.find g l.
Proof.
  intros Hfg. induction l as [| x l IH]; [reflexivity |].
  cbn. now rewrite Hfg, IH.
Qed.

(** [refreshOrganizations] in closed form. *)
Lemma refreshOrganizations_eq (b : Backend) (orgs : list OrganizationWithRole)
    (st : State) :
  refreshOrganizations b orgs st =
  match orgs with
  | [] =>
      ({| currentOrganization := None; organizations := [];
          isLoading := false |}, [])
  | first :: _ =>
      match List.find (id_is (getCurrentOrgFromProfile b)) orgs with
      | Some saved =>
          ({| currentOrganization := Some saved; organizations := orgs;
              isLoading := false |}, [])
      | None =>
          ({| currentOrganization := Some first; organizations := orgs;
              isLoading := false |},
           saveCurrentOrgToProfile b (id first))
      end
  end.
Proof.
  unfold refreshOrganizations. destruct orgs as [| first rest]; [reflexivity |].
  now destruct (List.find _ (first :: rest)).
Qed.

(** [switchOrganization] in closed form. *)
Lemma switchOrganization_eq (b : Backend) (orgId : string) (st : State) :
  switchOrganization b orgId st =
  match List.find (fun o => String.eqb (id o) orgId) (organizations st) with
  | Some org =>
      ({| currentOrganization := Some org; organizations := organizations st;
          isLoading := isLoading st |},
       saveCurrentOrgToProfile b orgId)
  | None => (st, [])
  end.
Proof. reflexivity. Qed.

Lemma getCurrentOrgFromProfile_stored (b : Backend) (u s : string) :
  user b = Some u -> profiles b !! u = Some (Some s) -> s <> "" ->
  getCurrentOrgFromProfile b = Some s.
Proof. intros Hu Hp Hs. apply getCurrentOrgFromProfile_Some. eauto. Qed.

(** After an accepted save of [orgId] for a user with a profile row, the
    saved selection reads back as [orgId]. *)
Lemma saved_selection_reads_back (b : Backend) (u orgId : string) :
  user b = Some u -> is_Some (profiles b !! u) -> orgId <> "" ->
  getCurrentOrgFromProfile
    (apply_requests b (saveCurrentOrgToProfile b orgId)) = Some orgId.
Proof.
  intros Hu [row Hrow] Hid. unfold saveCurrentOrgToProfile. rewrite Hu.
  cbn [apply_requests foldl apply_request]. cbn [String.eqb Ascii.eqb Bool.eqb andb].
  rewrite lookup_singleton_eq.
  apply (getCurrentOrgFromProfile_stored _ u); cbn [user profiles];
    [assumption | | assumption].
  rewrite lookup_alter_eq, Hrow. reflexivity.
Qed.

(** X1. The members permission follows the current organization:
    [isOwner] and [canManageMembers] hold exactly when there is a current
    organization whose role is [owner], the other two capabilities hold
    always, and after a switch to a listed id the role is the one of the
    entry now current. *)
Theorem permissions_follow_current (b : Backend) (orgId : string) (st : State) :
  (canManageMembers st = true
     <-> exists o, currentOrganization st = Some o /\ role o = "owner")
  /\ canManageMembers st = isOwner st
  /\ canManageProjects st = true
  /\ canExportReports st = true
  /\ (orgId ∈ id <$> organizations st ->
      exists org,
        currentOrganization (fst (switchOrganization b orgId st)) = Some org
        /\ id org = orgId
        /\ isOwner (fst (switchOrganization b orgId st))
           = String.eqb (role org) "owner").
Proof.
  assert (Hown : forall s : State,
             isOwner s = match currentOrganization s with
                         | Some o => String.eqb (role o) "owner"
                         | None => false
                         end).
  { intros s. unfold isOwner, role_of. destruct (currentOrganization s) as [o |];
      [| reflexivity]. cbn [Js.truthy].
    destruct (String.eqb_spec (role o) "") as [He | Hne]; cbn [negb];
      [now rewrite He | reflexivity]. }
  repeat apply conj; try reflexivity.
  - unfold canManageMembers. rewrite Hown.
    destruct (currentOrganization st) as [o |]; [| discriminate].
    intros H. apply String.eqb_eq in H. eauto.
  - unfold canManageMembers. rewrite Hown. intros (o & -> & Hr).
    now apply String.eqb_eq.
  - intros Hin. destruct (find_by_id_present _ _ Hin) as (org & Hfind & _ & Hid).
    exists org. rewrite Hown, switchOrganization_eq, Hfind. cbn. auto.
Qed.

(** X2. After a refresh, [useRequireOrganization] sends the browser to
    the onboarding page exactly when the fetched list is empty. *)
Theorem redirect_after_refresh (b : Backend)
    (fetched : list OrganizationWithRole) (st : State) (in_browser : bool) :
  useRequireOrganization in_browser (fst (refreshOrganizations b fetched st))
    = Some "/onboarding"
  <-> in_browser = true /\ fetched = [].
Proof.
  rewrite refreshOrganizations_eq. unfold useRequireOrganization.
  destruct fetched as [| first rest].
  - cbn. destruct in_browser; split; [auto | auto | discriminate | intros [? _]; discriminate].
  - destruct (List.find _ (first :: rest)); cbn;
      (split; [discriminate | intros [_ ?]; discriminate]).
Qed.

(** X3. A refresh does not depend on the state it starts from, and it is
    stable: for a user with a profile row and a first organization with a
    non-empty id, refreshing again after the sent requests were accepted
    gives the same state and sends nothing. *)
Theorem refresh_stable (b : Backend) (orgs : list OrganizationWithRole)
    (st : State) :
  (forall u, user b = Some u -> is_Some (profiles b !! u)) ->
  (forall first, head orgs = Some first -> id first <> "") ->
  (forall st0, refreshOrganizations b orgs st0 = refreshOrganizations b orgs st)
  /\ refreshOrganizations
       (apply_requests b (snd (refreshOrganizations b orgs st))) orgs
       (fst (refreshOrganizations b orgs st))
     = (fst (refreshOrganizations b orgs st), []).
Proof.
  intros Hrow Hid. split.
  - intros st0. now rewrite !refreshOrganizations_eq.
  - rewrite !refreshOrganizations_eq. destruct orgs as [| first rest];
      [reflexivity |].
    destruct (List.find (id_is (getCurrentOrgFromProfile b)) (first :: rest))
      as [saved |] eqn:Hfind; cbn [fst snd].
    + cbn [apply_requests foldl]. now rewrite Hfind.
    + destruct (user b) as [u |] eqn:Hu.
      * rewrite (saved_selection_reads_back b u (id first) Hu (Hrow u eq_refl)
                   (Hid first eq_refl)).
        cbn [List.find id_is]. now rewrite String.eqb_refl.
      * unfold saveCurrentOrgToProfile. rewrite Hu.
        cbn [apply_requests foldl]. now rewrite Hfind, Hu.
Qed.

(** X4. A switch survives a reload: for a signed-in user with a profile
    row, after a switch to a listed, non-empty id whose save was
    accepted, a refresh over the same list restores the organization the
    switch selected and sends nothing. *)
Theorem switch_then_refresh (b : Backend) (u orgId : string) (st : State) :
  user b = Some u ->
  is_Some (profiles b !! u) ->
  orgId <> "" ->
  orgId ∈ id <$> organizations st ->
  let switched := switchOrganization b orgId st in
  let refreshed :=
    refreshOrganizations (apply_requests b (snd switched))
                         (organizations st) (fst switched) in
  currentOrganization (fst refreshed) = currentOrganization (fst switched)
  /\ organizations (fst refreshed) = organizations st
  /\ snd refreshed = [].
Proof.
  intros Hu Hrow Hid Hin. cbv zeta.
  destruct (find_by_id_present _ _ Hin) as (org & Hfind & Horg & _).
  rewrite switchOrganization_eq, Hfind. cbn [fst snd].
  rewrite refreshOrganizations_eq.
  rewrite (saved_selection_reads_back b u orgId Hu Hrow Hid).
  destruct (organizations st) as [| first rest] eqn:Horgs;
    [now apply elem_of_nil in Horg |].
  change (id_is (Some orgId)) with (fun o => String.eqb (id o) orgId).
  rewrite Hfind. cbn. auto.
Qed.

Lemma step_consistent (st : State) (op : operation) :
  consistent st -> consistent (step st op).
Proof.
  intros Hst. destruct op as [b fetched | b orgId]; cbn [step].
  - rewrite refreshOrganizations_eq. destruct fetched as [| first rest].
    + intros o [=].
    + destruct (List.find _ (first :: rest)) as [saved |] eqn:Hfind;
        intros o [= <-]; cbn [fst organizations].
      * apply find_some in Hfind as [Hin _]. now apply list_elem_of_In.
      * apply list_elem_of_here.
  - rewrite switchOrganization_eq.
    destruct (List.find _ (organizations st)) as [org |] eqn:Hfind;
      [| exact Hst].
    intros o [= <-]. cbn [fst organizations].
    apply find_some in Hfind as [Hin _]. now apply list_elem_of_In.
Qed.

(** X5. Refreshes and switches made one after another, each call
    finished before the next one starts, in any number and order and
    against any backends, keep the current organization among the listed
    ones; and whatever the state before, it is so once a refresh has
    run.  Calls that overlap are not covered by this. *)
Theorem run_consistent (ops : list operation) (st : State) :
  (consistent st -> consistent (run ops st))
  /\ (forall b fetched, consistent (run (Refresh b fetched :: ops) st)).
Proof.
  assert (Hrun : forall ops s, consistent s -> consistent (run ops s)).
  { clear. intros ops. unfold run.
    induction ops as [| op ops IH]; intros s Hs; [exact Hs |].
    cbn [foldl]. apply IH. now apply step_consistent. }
  split; [apply Hrun |].
  intros b fetched. unfold run. cbn [foldl]. apply Hrun.
  cbn [step]. rewrite refreshOrganizations_eq.
  destruct fetched as [| first rest]; [intros o [=] |].
  destruct (List.find _ (first :: rest)) as [saved |] eqn:Hfind;
    intros o [= <-]; cbn [fst organizations].
  - apply find_some in Hfind as [Hin _]. now apply list_elem_of_In.
  - apply list_elem_of_here.
Qed.

(** The parts of a call, run with nothing in between, are the call. *)
Lemma refresh_parts_run (b : Backend) (orgs : list OrganizationWithRole)
    (st : State) :
  foldl part_step st (refresh_parts b orgs)
  = fst (refreshOrganizations b orgs st).
Proof.
  rewrite refreshOrganizations_eq. unfold refresh_parts.
  destruct orgs as [| first rest]; [reflexivity |].
  remember (first :: rest) as orgs eqn:Horgs.
  cbn [foldl].
  destruct (List.find (id_is (getCurrentOrgFromProfile b)) orgs) as [o |] eqn:Hfind;
    cbn [foldl part_step]; rewrite Hfind; subst orgs; reflexivity.
Qed.

(** X29. Two refreshes that overlap can leave the current organization
    unlisted.  The parts of a call, run with nothing in between, are the
    call.  But when a second refresh starts and ends while a first one
    waits for the saved id, the state ends with the list of the second
    and the current organization that the first chose from its own list;
    so when that one is not in the list of the second, the provider ends
    with a current organization that it does not list. *)
Theorem overlapping_refreshes (b1 b2 : Backend)
    (orgs1 orgs2 : list OrganizationWithRole) (st : State) :
  foldl part_step st (refresh_parts b1 orgs1)
    = fst (refreshOrganizations b1 orgs1 st)
  /\ (orgs1 <> [] ->
      orgs2 <> [] ->
      exists schedule,
        interleaving (refresh_parts b1 orgs1) (refresh_parts b2 orgs2) schedule
        /\ let final := foldl part_step st schedule in
           organizations final = orgs2
           /\ currentOrganization final
              = currentOrganization (fst (refreshOrganizations b1 orgs1 st))
           /\ isLoading final = false
           /\ (forall chosen,
                 currentOrganization final = Some chosen ->
                 chosen ∉ orgs2 ->
                 ~ consistent final)).
Proof.
  split; [apply refresh_parts_run |].
  intros H1 H2.
  destruct orgs1 as [| first1 rest1]; [congruence |].
  destruct orgs2 as [| first2 rest2]; [congruence |].
  rewrite refreshOrganizations_eq. unfold refresh_parts. cbv match.
  remember (first1 :: rest1) as orgs1 eqn:Horgs1.
  remember (first2 :: rest2) as orgs2 eqn:Horgs2.
  exists ([Started; Fetched orgs1]
          ++ (Started :: Fetched orgs2
              :: Resolved (getCurrentOrgFromProfile b2) orgs2
              :: match List.find (id_is (getCurrentOrgFromProfile b2)) orgs2 with
                 | Some _ => []
                 | None => [Saved]
                 end)
          ++ (Resolved (getCurrentOrgFromProfile b1) orgs1
              :: match List.find (id_is (getCurrentOrgFromProfile b1)) orgs1 with
                 | Some _ => []
                 | None => [Saved]
                 end)).
  destruct (List.find (id_is (getCurrentOrgFromProfile b1)) orgs1) as [o1 |] eqn:Hfind1;
    destruct (List.find (id_is (getCurrentOrgFromProfile b2)) orgs2) as [o2 |] eqn:Hfind2.
  all: split; [cbn [app]; repeat constructor |].
  all: cbv zeta; cbn [app foldl part_step]; rewrite ?Hfind1, ?Hfind2.
  all: rewrite Horgs1, Horgs2; cbn [fst currentOrganization organizations isLoading
                                      setIsLoading setCurrentOrganization
                                      setOrganizations].
  all: repeat apply conj; try reflexivity.
  all: intros chosen Hchosen Hout Hcons; exact (Hout (Hcons chosen Hchosen)).
Qed.

End ProviderProperties.

(** A user with a profile row and nothing saved: the first refresh saves
    the first organization, the second one finds it and sends nothing. *)
Lemma refresh_stable_witness :
  let a := Scenario.organization "org-a" None None ∅ in
  let b := Scenario.organization "org-b" None None ∅ in
  let backend := Scenario.backend "u1" None in
  let first_run :=
    OrganizationContext.refreshOrganizations backend [a; b] (Scenario.state None []) in
  snd first_run <> []
  /\ OrganizationContext.refreshOrganizations
       (Provider.apply_requests backend (snd first_run)) [a; b] (fst first_run)
     = (fst first_run, []).
Proof.
  cbv zeta. split; [discriminate |].
  destruct (refresh_stable (Scenario.backend "u1" None)
              [Scenario.organization "org-a" None None ∅;
               Scenario.organization "org-b" None None ∅]
              (Scenario.state None [])) as [_ Hstable].
  - intros u [= <-]. eexists. reflexivity.
  - intros first [= <-]. discriminate.
  - exact Hstable.
Defined.

(** Switching to the second organization and reloading keeps it. *)
Lemma switch_then_refresh_witness :
  let a := Scenario.organization "org-a" None None ∅ in
  let b := Scenario.organization "org-b" None None ∅ in
  let backend := Scenario.backend "u1" (Some "org-a") in
  let st := Scenario.state (Some a) [a; b] in
  let switched := OrganizationContext.switchOrganization backend "org-b" st in
  OrganizationContext.currentOrganization
    (fst (OrganizationContext.refreshOrganizations
            (Provider.apply_requests backend (snd switched)) [a; b] (fst switched)))
  = Some b.
Proof.
  cbv zeta.
  pose (a := Scenario.organization "org-a" None None ∅).
  pose (b := Scenario.organization "org-b" None None ∅).
  destruct (switch_then_refresh (Scenario.backend "u1" (Some "org-a")) "u1" "org-b"
              (Scenario.state (Some a) [a; b])) as (Hcur & _).
  - reflexivity.
  - eexists. reflexivity.
  - discriminate.
  - apply list_elem_of_further, list_elem_of_here.
  - exact Hcur.
Defined.

(** Two refreshes overlap; the first fetched the list [[a]] and the
    second the list [[b]]: the provider ends on [a] while listing only
    [b]. *)
Lemma overlapping_refreshes_witness :
  let a := Scenario.organization "org-a" None None ∅ in
  let b := Scenario.organization "org-b" None None ∅ in
  let backend := Scenario.backend "u1" None in
  exists final,
    OrganizationContext.organizations final = [b]
    /\ OrganizationContext.currentOrganization final = Some a
    /\ ~ Provider.consistent final.
Proof.
  cbv zeta.
  destruct (proj2 (overlapping_refreshes (Scenario.backend "u1" None)
                     (Scenario.backend "u1" None)
                     [Scenario.organization "org-a" None None ∅]
                     [Scenario.organization "org-b" None None ∅]
                     (Scenario.state None [])))
    as (schedule & _ & Hlist & Hcurrent & _ & Hbroken); [discriminate .. |].
  exists (foldl Provider.part_step (Scenario.state None []) schedule).
  split; [exact Hlist |]. split; [exact Hcurrent |].
  apply (Hbroken _ Hcurrent).
  intros Hin. apply elem_of_cons in Hin as [Heq | Hin];
    [discriminate Heq | now apply elem_of_nil in Hin].
Defined.

(** Two switches and a refresh from a state whose current organization
    is listed. *)
Lemma run_consistent_witness :
  let a := Scenario.organization "org-a" None None ∅ in
  let b := Scenario.organization "org-b" None None ∅ in
  let backend := Scenario.backend "u1" None in
  Provider.consistent
    (Provider.run [ Provider.Switch backend "org-b";
                    Provider.Refresh backend [b];
                    Provider.Switch backend "org-a" ]
                  (Scenario.state (Some a) [a; b])).
Proof.
  cbv zeta.
  apply (proj1 (run_consistent _ _)).
  intros o [= <-]. apply list_elem_of_here.
Defined.

(** The owner of the organization switched to may manage members. *)
Lemma permissions_follow_current_witness :
  let a := Scenario.organization "org-a" None None ∅ in
  let st := Scenario.state None [a] in
  Provider.isOwner
    (fst (OrganizationContext.switchOrganization
            (Scenario.backend "u1" None) "org-a" st)) = true.
Proof.
  cbv zeta.
  destruct (proj2 (proj2 (proj2 (proj2
             (permissions_follow_current (Scenario.backend "u1" None) "org-a"
                (Scenario.state None [Scenario.organization "org-a" None None ∅]))))))
    as (org & Hcur & _ & Hown).
  - apply list_elem_of_here.
  - rewrite Hown. cbn in Hcur. injection Hcur as <-. reflexivity.
Defined.

Section LayoutProperties.

Import OrganizationContext DashboardLayout.

Lemma is_current_id_is (profile : option Profile) (o : OrganizationWithRole) :
  is_current profile o = id_is (layout_saved profile) o.
Proof. unfold is_current, layout_saved. now destruct profile as [[[s |] ?] |]. Qed.

Lemma layout_current_listed (user : option AuthUser)
    (getOrganizations : string -> list OrganizationWithRole)
    (getProfile : string -> option Profile)
    (shell_user : ShellUser) (organizations : list OrganizationWithRole)
    (current : OrganizationWithRole) :
  DashboardLayout user getOrganizations getProfile
    = Shell shell_user organizations current ->
  current ∈ organizations.
Proof.
  unfold DashboardLayout. cbv zeta. destruct user as [u |]; [| discriminate].
  destruct (getOrganizations (user_id u)) as [| first rest]; [discriminate |].
  remember (first :: rest) as orgs eqn:Horgs0.
  intros [= _ Horgs Hcur]. subst organizations current.
  destruct (List.find _ orgs) as [org |] eqn:Hfind.
  - apply find_some in Hfind as [Hin _]. now apply list_elem_of_In.
  - subst orgs. apply list_elem_of_here.
Qed.

(** X6. The layout sends a visitor without a session to the login page
    and a user without organizations to onboarding; a user with
    organizations gets the shell, with the user's id, e-mail (or the
    empty text) and profile name, the user's list, and a current
    organization taken from that list: the first entry whose id is the
    one saved in the profile, or the first entry when no entry has it or
    nothing is saved.  Nothing else is ever shown. *)
Theorem DashboardLayout_outcome (user : option AuthUser)
    (getOrganizations : string -> list OrganizationWithRole)
    (getProfile : string -> option Profile) :
  let shown := DashboardLayout user getOrganizations getProfile in
  (shown = Redirect "/login" <-> user = None)
  /\ (shown = Redirect "/onboarding"
      <-> exists u, user = Some u /\ getOrganizations (user_id u) = [])
  /\ (forall u,
        user = Some u ->
        getOrganizations (user_id u) <> [] ->
        let organizations := getOrganizations (user_id u) in
        let saved := layout_saved (getProfile (user_id u)) in
        exists current,
          shown = Shell {| shell_id := user_id u;
                           shell_email := default "" (user_email u);
                           shell_fullName := getProfile (user_id u) ≫= full_name |}
                        organizations current
          /\ current ∈ organizations
          /\ (forall s,
                saved = Some s ->
                s ∈ id <$> organizations ->
                List.find (fun o => String.eqb (id o) s) organizations
                  = Some current)
          /\ ((forall s, saved = Some s -> s ∉ id <$> organizations) ->
              head organizations = Some current))
  /\ (forall shell_user organizations current,
        shown = Shell shell_user organizations current ->
        exists u,
          user = Some u
          /\ shell_id shell_user = user_id u
          /\ organizations = getOrganizations (user_id u)
          /\ organizations <> []
          /\ current ∈ organizations
          /\ (forall s,
                layout_saved (getProfile (user_id u)) = Some s ->
                s ∈ id <$> organizations ->
                List.find (fun o => String.eqb (id o) s) organizations
                  = Some current)
          /\ ((forall s, layout_saved (getProfile (user_id u)) = Some s ->
                         s ∉ id <$> organizations) ->
              head organizations = Some current)).
Proof.
  cbv zeta. unfold DashboardLayout. cbv zeta.
  destruct user as [u |].
  2: { split; [| split; [| split]].
       - split; reflexivity.
       - split; [discriminate | intros (? & H & _); discriminate H].
       - intros ? [=].
       - intros ? ? ? [=]. }
  destruct (getOrganizations (user_id u)) as [| first rest] eqn:Horgs.
  { split; [| split; [| split]].
    - split; discriminate.
    - split; [eauto | reflexivity].
    - intros u' [= <-]. now rewrite Horgs.
    - intros ? ? ? [=]. }
  remember (first :: rest) as orgs eqn:Horgs0.
  set (profile := getProfile (user_id u)).
  set (cur := match List.find (is_current profile) orgs with
              | Some org => org
              | None => first
              end).
  assert (Hin : cur ∈ orgs).
  { subst cur. destruct (List.find _ orgs) as [org |] eqn:Hfind.
    - apply find_some in Hfind as [Hin _]. now apply list_elem_of_In.
    - subst orgs. apply list_elem_of_here. }
  assert (Hfound : forall s,
             layout_saved profile = Some s ->
             s ∈ id <$> orgs ->
             List.find (fun o => String.eqb (id o) s) orgs = Some cur).
  { intros s Hs Hs_in. subst cur.
    rewrite (find_ext (is_current profile) (id_is (layout_saved profile)) _
                      (is_current_id_is profile)), Hs.
    change (id_is (Some s)) with (fun o => String.eqb (id o) s).
    destruct (find_by_id_present _ _ Hs_in) as (o & Ho & _). now rewrite Ho. }
  assert (Hfirst : (forall s, layout_saved profile = Some s -> s ∉ id <$> orgs) ->
                   head orgs = Some cur).
  { intros Hout. subst cur.
    rewrite (find_ext (is_current profile) (id_is (layout_saved profile)) _
                      (is_current_id_is profile)).
    destruct (layout_saved profile) as [s |] eqn:Hs.
    - change (id_is (Some s)) with (fun o => String.eqb (id o) s).
      rewrite (find_by_id_absent _ _ (Hout s eq_refl)). now subst orgs.
    - assert (Hnone : forall l : list OrganizationWithRole,
                 List.find (id_is None) l = None)
        by (induction l; [reflexivity | assumption]).
      rewrite Hnone. now subst orgs. }
  split; [| split; [| split]].
  - split; discriminate.
  - split; [discriminate | intros (u' & [= <-] & Hu')]. congruence.
  - intros u' [= <-] _. rewrite Horgs. exists cur.
    split; [reflexivity |]. auto.
  - intros shell_user organizations current [= Hsu Horgs' Hcur].
    subst shell_user organizations current.
    exists u. repeat apply conj; try reflexivity; try assumption.
    + congruence.
    + subst orgs. discriminate.
Qed.

(** X7. The server and the client agree: when the layout renders the
    shell and the provider's backend holds the same user and the same
    saved id, a refresh over the same list ends in exactly the state the
    shell starts the provider with, provided the saved id is not the
    empty text (which the client reads as none, while the layout compares
    it with the ids). *)
Theorem layout_agrees_with_refresh (u : AuthUser)
    (getOrganizations : string -> list OrganizationWithRole)
    (getProfile : string -> option Profile)
    (shell_user : ShellUser) (organizations : list OrganizationWithRole)
    (current : OrganizationWithRole) (b : Backend) (st : State) :
  DashboardLayout (Some u) getOrganizations getProfile
    = Shell shell_user organizations current ->
  user b = Some (user_id u) ->
  profiles b !! user_id u = current_organization_id <$> getProfile (user_id u) ->
  layout_saved (getProfile (user_id u)) <> Some "" ->
  fst (refreshOrganizations b organizations st)
    = DashboardShell organizations current.
Proof.
  intros Hshown Hu Hrow Hne.
  assert (Hsaved : getCurrentOrgFromProfile b = layout_saved (getProfile (user_id u))).
  { unfold getCurrentOrgFromProfile, layout_saved in *. rewrite Hu, Hrow.
    destruct (getProfile (user_id u)) as [[[s |] ?] |]; cbn in *; try reflexivity.
    destruct (String.eqb_spec s "") as [-> | ?]; [congruence | reflexivity]. }
  unfold DashboardLayout in Hshown. cbv zeta in Hshown.
  destruct (getOrganizations (user_id u)) as [| first rest]; [discriminate |].
  remember (first :: rest) as orgs eqn:Horgs0.
  injection Hshown as _ Horgs Hcur. subst organizations current.
  rewrite refreshOrganizations_eq, Hsaved.
  rewrite (find_ext (is_current (getProfile (user_id u)))
                       (id_is (layout_saved (getProfile (user_id u)))) _
                       (is_current_id_is (getProfile (user_id u)))).
  subst orgs. now destruct (List.find _ (first :: rest)).
Qed.

(** X8. When the layout renders the shell, the provider starts out not
    loading, with its current organization among the listed ones; the
    mount effect neither refreshes nor sends anything, and
    [useRequireOrganization] does not redirect. *)
Theorem shell_starts_provider (user : option AuthUser)
    (getOrganizations : string -> list OrganizationWithRole)
    (getProfile : string -> option Profile)
    (shell_user : ShellUser) (organizations : list OrganizationWithRole)
    (current : OrganizationWithRole)
    (b : Backend) (fetched : list OrganizationWithRole) (in_browser : bool) :
  DashboardLayout user getOrganizations getProfile
    = Shell shell_user organizations current ->
  let st := DashboardShell organizations current in
  Provider.consistent st
  /\ isLoading st = false
  /\ Provider.mount b fetched (Some current) organizations = (st, [])
  /\ Provider.useRequireOrganization in_browser st = None.
Proof.
  intros Hshown. cbv zeta.
  pose proof (layout_current_listed _ _ _ _ _ _ Hshown) as Hin.
  repeat apply conj; try reflexivity.
  intros o [= <-]. exact Hin.
Qed.

End LayoutProperties.

(** A user of two organizations: with the second one saved in the
    profile the layout renders the shell on the second, and with an id
    saved that is not in the list it renders the shell on the first. *)
Lemma DashboardLayout_outcome_witness :
  let a := Scenario.organization "org-a" None None ∅ in
  let b := Scenario.organization "org-b" None None ∅ in
  let user := {| DashboardLayout.user_id := "u1";
                 DashboardLayout.user_email := Some "ana@firma.me" |} in
  let profile saved := {| DashboardLayout.current_organization_id := Some saved;
                          DashboardLayout.full_name := None |} in
  let shell_user := {| DashboardLayout.shell_id := "u1";
                       DashboardLayout.shell_email := "ana@firma.me";
                       DashboardLayout.shell_fullName := None |} in
  DashboardLayout.DashboardLayout (Some user) (fun _ => [a; b])
      (fun _ => Some (profile "org-b"))
    = DashboardLayout.Shell shell_user [a; b] b
  /\ DashboardLayout.DashboardLayout (Some user) (fun _ => [a; b])
      (fun _ => Some (profile "org-z"))
    = DashboardLayout.Shell shell_user [a; b] a.
Proof.
  cbv zeta.
  pose (a := Scenario.organization "org-a" None None ∅).
  pose (b := Scenario.organization "org-b" None None ∅).
  pose (user := {| DashboardLayout.user_id := "u1";
                   DashboardLayout.user_email := Some "ana@firma.me" |}).
  pose (profile := fun saved =>
          {| DashboardLayout.current_organization_id := Some saved;
             DashboardLayout.full_name := None |}).
  split.
  - destruct (proj1 (proj2 (proj2
               (DashboardLayout_outcome (Some user) (fun _ => [a; b])
                  (fun _ => Some (profile "org-b")))))
               user eq_refl)
      as (current & Hshown & _ & Hfound & _); [discriminate |].
    assert (Hcurrent : Some b = Some current).
    { apply (Hfound "org-b" eq_refl).
      apply list_elem_of_further, list_elem_of_here. }
    injection Hcurrent as <-. exact Hshown.
  - destruct (proj1 (proj2 (proj2
               (DashboardLayout_outcome (Some user) (fun _ => [a; b])
                  (fun _ => Some (profile "org-z")))))
               user eq_refl)
      as (current & Hshown & _ & _ & Hfirst); [discriminate |].
    assert (Hcurrent : Some a = Some current).
    { apply Hfirst. intros s [= <-] Hin.
      apply list_elem_of_fmap in Hin as (o & Ho & Hin).
      apply elem_of_cons in Hin as [-> | Hin]; [discriminate Ho |].
      apply elem_of_cons in Hin as [-> | Hin]; [discriminate Ho |].
      now apply elem_of_nil in Hin. }
    injection Hcurrent as <-. exact Hshown.
Defined.

Lemma layout_agrees_with_refresh_witness :
  let a := Scenario.organization "org-a" None None ∅ in
  let b := Scenario.organization "org-b" None None ∅ in
  fst (OrganizationContext.refreshOrganizations
         (Scenario.backend "u1" (Some "org-b")) [a; b] (Scenario.state None []))
  = DashboardLayout.DashboardShell [a; b] b.
Proof.
  cbv zeta.
  apply (layout_agrees_with_refresh
           {| DashboardLayout.user_id := "u1";
              DashboardLayout.user_email := Some "ana@firma.me" |}
           (fun _ => [Scenario.organization "org-a" None None ∅;
                      Scenario.organization "org-b" None None ∅])
           (fun _ => Some {| DashboardLayout.current_organization_id := Some "org-b";
                             DashboardLayout.full_name := None |})
           {| DashboardLayout.shell_id := "u1";
              DashboardLayout.shell_email := "ana@firma.me";
              DashboardLayout.shell_fullName := None |}).
  - reflexivity.
  - reflexivity.
  - reflexivity.
  - discriminate.
Defined.

Lemma shell_starts_provider_witness :
  let a := Scenario.organization "org-a" None None ∅ in
  let b := Scenario.organization "org-b" None None ∅ in
  Provider.mount (Scenario.backend "u1" None) [] (Some b) [a; b]
  = (DashboardLayout.DashboardShell [a; b] b, []).
Proof.
  cbv zeta.
  apply (shell_starts_provider
           (Some {| DashboardLayout.user_id := "u1";
                    DashboardLayout.user_email := Some "ana@firma.me" |})
           (fun _ => [Scenario.organization "org-a" None None ∅;
                      Scenario.organization "org-b" None None ∅])
           (fun _ => Some {| DashboardLayout.current_organization_id := Some "org-b";
                             DashboardLayout.full_name := None |})
           {| DashboardLayout.shell_id := "u1";
              DashboardLayout.shell_email := "ana@firma.me";
              DashboardLayout.shell_fullName := None |}
           _ _ (Scenario.backend "u1" None) [] true).
  reflexivity.
Defined.

Section HeaderProperties.

Import OrganizationContext Header.

Lemma same_id_unique (orgs : list OrganizationWithRole)
    (x y : OrganizationWithRole) :
  NoDup (id <$> orgs) -> x ∈ orgs -> y ∈ orgs -> id x = id y -> x = y.
Proof.
  induction orgs as [| o orgs IH]; intros Hnd Hx Hy Hid.
  - now apply elem_of_nil in Hx.
  - rewrite fmap_cons in Hnd. apply NoDup_cons in Hnd as [Hnotin Hnd].
    apply elem_of_cons in Hx as [-> | Hx]; apply elem_of_cons in Hy as [-> | Hy].
    + reflexivity.
    + exfalso. apply Hnotin. rewrite Hid. now apply list_elem_of_fmap_2.
    + exfalso. apply Hnotin. rewrite <- Hid. now apply list_elem_of_fmap_2.
    + now apply IH.
Qed.

(** X9. Every entry of the organization switcher works: choosing it
    makes an organization with the entry's id current, one that is in the
    list, keeps the list, gives that entry the check mark, closes the
    dropdown and refreshes the page; when the listed ids are distinct the
    organization made current is the entry itself. *)
Theorem switcher_entries_work (b : Backend) (showOrgDropdown : bool)
    (st : State) (org : OrganizationWithRole) :
  org ∈ switcherEntries showOrgDropdown st ->
  let chosen := handleSwitchOrg b (id org) st in
  let st' := fst (fst chosen) in
  snd chosen = [ SetShowOrgDropdown false; RouterRefresh ]
  /\ organizations st' = organizations st
  /\ checked st' org = true
  /\ exists current,
       currentOrganization st' = Some current
       /\ id current = id org
       /\ current ∈ organizations st
       /\ (NoDup (id <$> organizations st) -> current = org).
Proof.
  intros Hentry. cbv zeta.
  assert (Horg : org ∈ organizations st).
  { unfold switcherEntries in Hentry.
    destruct (currentOrganization st); [| now apply elem_of_nil in Hentry].
    destruct (_ && _); [assumption | now apply elem_of_nil in Hentry]. }
  destruct (find_by_id_present (organizations st) (id org))
    as (current & Hfind & Hcur & Hid); [now apply list_elem_of_fmap_2 |].
  unfold handleSwitchOrg. cbn [fst snd]. rewrite switchOrganization_eq, Hfind.
  cbn [fst]. unfold checked. cbn [currentOrganization organizations].
  repeat apply conj; try reflexivity.
  - rewrite Hid. apply String.eqb_refl.
  - exists current. repeat apply conj; try assumption; try reflexivity.
    intros Hnd. now apply (same_id_unique (organizations st)).
Qed.

Lemma is_at (c : ascii) : Js.is_char 64 c = true <-> c = "@"%char.
Proof.
  unfold Js.is_char, Js.code. rewrite N.eqb_eq. split.
  - intros H. rewrite <- (ascii_N_embedding c), H. reflexivity.
  - intros ->. reflexivity.
Qed.

Lemma before_at_split (s : string) :
  ("@"%char ∉ list_ascii_of_string (before_at s))
  /\ exists rest,
       s = before_at s +:+ rest
       /\ (rest = EmptyString \/ exists r, rest = String "@" r).
Proof.
  induction s as [| c s [IHno (rest & IHeq & IHrest)]]; cbn [before_at].
  - split; [apply not_elem_of_nil |]. exists EmptyString. auto.
  - destruct (Js.is_char 64 c) eqn:Hc.
    + apply is_at in Hc as ->. split; [apply not_elem_of_nil |].
      exists (String "@" s). split; [reflexivity | eauto].
    + split.
      * cbn [list_ascii_of_string]. apply not_elem_of_cons. split; [| exact IHno].
        intros <-. now rewrite (proj2 (is_at "@") eq_refl) in Hc.
      * exists rest. split; [| exact IHrest].
        change (String c s = String c (before_at s +:+ rest)). now f_equal.
Qed.

(** X10. The name shown in the header is the full name when there is a
    non-empty one; otherwise it is the part of the email before its first
    [@]: it holds no [@], and the email is that part followed by nothing
    or by a text that starts with [@]. *)
Theorem displayName_spec (user : DashboardLayout.ShellUser) :
  (forall n,
     DashboardLayout.shell_fullName user = Some n -> n <> "" ->
     displayName user = n)
  /\ ((DashboardLayout.shell_fullName user = None
       \/ DashboardLayout.shell_fullName user = Some "") ->
      ("@"%char ∉ list_ascii_of_string (displayName user))
      /\ exists rest,
           DashboardLayout.shell_email user = displayName user +:+ rest
           /\ (rest = EmptyString \/ exists r, rest = String "@" r)).
Proof.
  unfold displayName. split.
  - intros n -> Hn. now rewrite (truthy_string n Hn).
  - intros [-> | ->]; cbn [Js.truthy String.eqb negb]; apply before_at_split.
Qed.

End HeaderProperties.

Lemma switcher_entries_work_witness :
  let a := Scenario.organization "org-a" None None ∅ in
  let b := Scenario.organization "org-b" None None ∅ in
  let st := Scenario.state (Some a) [a; b] in
  OrganizationContext.currentOrganization
    (fst (fst (Header.handleSwitchOrg (Scenario.backend "u1" None) "org-b" st)))
  = Some b.
Proof.
  cbv zeta.
  pose (a := Scenario.organization "org-a" None None ∅).
  pose (b := Scenario.organization "org-b" None None ∅).
  destruct (switcher_entries_work (Scenario.backend "u1" None) true
              (Scenario.state (Some a) [a; b]) b)
    as (_ & _ & _ & current & Hcur & _ & _ & Hsame).
  - apply list_elem_of_further, list_elem_of_here.
  - fold a b. change (OrganizationContext.id b) with "org-b" in Hcur.
    rewrite Hcur. f_equal. apply Hsame.
    cbn. apply NoDup_cons. split; [| apply NoDup_singleton].
    intros Hin. apply list_elem_of_singleton in Hin. discriminate Hin.
Defined.

Lemma displayName_spec_witness :
  Header.displayName
    {| DashboardLayout.shell_id := "u1";
       DashboardLayout.shell_email := "ana@firma.me";
       DashboardLayout.shell_fullName := Some "Ana Anic" |} = "Ana Anic"
  /\ exists rest,
       "ana@firma.me"
       = Header.displayName
           {| DashboardLayout.shell_id := "u1";
              DashboardLayout.shell_email := "ana@firma.me";
              DashboardLayout.shell_fullName := None |} +:+ rest.
Proof.
  split.
  - apply (proj1 (displayName_spec _) "Ana Anic"); [reflexivity | discriminate].
  - destruct (proj2 (displayName_spec
                       {| DashboardLayout.shell_id := "u1";
                          DashboardLayout.shell_email := "ana@firma.me";
                          DashboardLayout.shell_fullName := None |}))
      as (_ & rest & Hrest & _); [now left |].
    exists rest. exact Hrest.
Defined.


(* ===================================================================== *)
(** * Further properties of the invoice view *)
(* ===================================================================== *)

Section InvoiceViewProperties.

Import InvoiceVerification InvoiceForm.

(** X11. Whatever [JSON.parse] does, [parseLineItems] returns an array,
    and parsing its result again changes nothing. *)
Theorem parseLineItems_array (JSON_parse : string -> option Js.value)
    (lineItems : Js.value) :
  Js.isArray (parseLineItems JSON_parse lineItems) = true
  /\ parseLineItems JSON_parse (parseLineItems JSON_parse lineItems)
     = parseLineItems JSON_parse lineItems.
Proof.
  assert (Harr : exists items, parseLineItems JSON_parse lineItems = Js.VArray items).
  { unfold parseLineItems. destruct (negb (Js.truthy lineItems)); [eauto |].
    destruct lineItems; cbn [Js.isArray]; eauto.
    destruct (JSON_parse s) as [[] |]; cbn [Js.isArray]; eauto. }
  destruct Harr as (items & ->). split; reflexivity.
Qed.

Lemma defined_not_inherited (s : string) :
  s ∈ InvoiceStatus -> s ∉ Js.Object_prototype.
Proof.
  unfold InvoiceStatus. rewrite !elem_of_cons, elem_of_nil.
  intros [-> | [-> | [-> | [-> | [-> | []]]]]]; intros Hin;
    apply inherited_spec in Hin; discriminate Hin.
Qed.

(** X12. The status badge is blank exactly for the statuses that name a
    property of [Object.prototype]; a defined state shows its own entry
    and every other status shows the pending entry. *)
Theorem badge_blank_iff (invoice : Invoice) :
  (badge (statusInfo invoice) = None <-> status invoice ∈ Js.Object_prototype)
  /\ (status invoice ∈ InvoiceStatus ->
      badge (statusInfo invoice) = statusConfig !! status invoice)
  /\ (status invoice ∉ InvoiceStatus -> status invoice ∉ Js.Object_prototype ->
      badge (statusInfo invoice) = Some pending_info).
Proof.
  split; [| split].
  - split.
    + intros Hblank.
      destruct (existsb (String.eqb (status invoice)) Js.Object_prototype) eqn:Hex;
        [now apply inherited_spec |].
      assert (Hout : status invoice ∉ Js.Object_prototype).
      { intros Hin. apply inherited_spec in Hin. congruence. }
      destruct (decide (status invoice ∈ InvoiceStatus)) as [Hin | Hnot].
      * destruct (statusInfo_defined invoice Hin) as (info & _ & Hinfo).
        rewrite Hinfo in Hblank. discriminate Hblank.
      * rewrite (statusInfo_unrecognized invoice Hnot Hout) in Hblank.
        discriminate Hblank.
    + intros Hin. now rewrite (statusInfo_inherited invoice Hin).
  - intros Hin. destruct (statusInfo_defined invoice Hin) as (info & Hcfg & Hinfo).
    now rewrite Hinfo, Hcfg.
  - intros Hnot Hout. now rewrite (statusInfo_unrecognized invoice Hnot Hout).
Qed.

(** X13. Each of the three writing handlers, whatever the backend
    answers, first sets the saving flag, sends exactly one update of
    [invoices] filtered by the invoice's id, and last clears the saving
    flag. If the update fails it alerts, and neither refreshes the page
    nor leaves edit mode; if it is accepted it refreshes the page and
    does not alert. *)
Theorem handlers_bracket (h : handler) (invoice : Invoice)
    (response : option string) :
  let done := handle h invoice response in
  head done = Some (SetIsSaving true)
  /\ last done = Some (SetIsSaving false)
  /\ (exists payload,
        requests done = [ Supabase.Update "invoices" payload "id" (id invoice) ])
  /\ existsb is_alert done = match response with Some _ => true | None => false end
  /\ existsb is_refresh done = match response with Some _ => false | None => true end
  /\ (SetIsEditing false ∈ done
      <-> response = None /\ exists formData, h = HandleSave formData).
Proof.
  cbv zeta. destruct h as [formData | |], response as [message |];
    cbn [handle]; (split; [reflexivity |]); (split; [reflexivity |]);
    (split; [eexists; reflexivity |]); (split; [reflexivity |]);
    (split; [reflexivity |]); cbn.
  all: split;
    [ intros Hin; repeat (apply elem_of_cons in Hin as [Hin | Hin];
                          [discriminate Hin |]);
      try (now apply elem_of_nil in Hin)
    | intros [Hr (fd & Hfd)]; try discriminate Hr; try discriminate Hfd ].
  all: try (apply elem_of_cons in Hin as [_ | Hin]; [eauto |];
            repeat (apply elem_of_cons in Hin as [Hin | Hin]; [discriminate Hin |]);
            now apply elem_of_nil in Hin).
  all: try (do 2 apply list_elem_of_further; apply list_elem_of_here).
Qed.

Lemma apply_update_frame (payload : gmap string Js.value) (column v : string)
    (rows : list (gmap string Js.value)) :
  Forall2 (fun row row' => forall c, payload !! c = None -> row' !! c = row !! c)
          rows (Supabase.apply_update payload column v rows).
Proof.
  unfold Supabase.apply_update.
  apply Forall2_fmap_r, Forall_Forall2_diag, Forall_forall.
  intros row _ c Hc. cbn [compose].
  destruct (Supabase.matches column v row); [| reflexivity].
  rewrite lookup_union_r; [reflexivity | exact Hc].
Qed.

(** X14. An accepted [handleSendToAccountant] sends one update, for the
    invoice's id, whose payload is the single column [status] with value
    [sent_to_accountant]; it does not look at the current status, and on
    the stored rows it changes [status] alone. *)
Theorem handleSendToAccountant_writes_status_only (invoice : Invoice) :
  let payload : gmap string Js.value :=
    {[ "status" := Js.VString "sent_to_accountant" ]} in
  requests (handleSendToAccountant invoice None)
    = [ Supabase.Update "invoices" payload "id" (id invoice) ]
  /\ dom payload = ({[ "status" ]} : gset string)
  /\ forall rows : list (gmap string Js.value),
       Forall2
         (fun row row' =>
            if Supabase.matches "id" (id invoice) row
            then row' !! "status" = Some (Js.VString "sent_to_accountant")
                 /\ delete "status" row' = delete "status" row
            else row' = row)
         rows (Supabase.apply_update payload "id" (id invoice) rows).
Proof.
  cbv zeta. split; [reflexivity |]. split; [apply dom_singleton_L |].
  intros rows. unfold Supabase.apply_update.
  apply Forall2_fmap_r, Forall_Forall2_diag, Forall_forall.
  intros row _. cbn [compose].
  destruct (Supabase.matches "id" (id invoice) row); [| reflexivity].
  split.
  - apply lookup_union_Some_l, lookup_singleton_eq.
  - rewrite delete_union, delete_singleton_eq. apply (left_id_L ∅ (∪)).
Qed.

Lemma dom_initialFormData (invoice : Invoice) :
  dom (initialFormData invoice) = (list_to_set form_keys : gset string).
Proof.
  unfold initialFormData. rewrite dom_list_to_map_L. reflexivity.
Qed.

Lemma input_fields_form_keys (k : string) : k ∈ input_fields -> k ∈ form_keys.
Proof.
  unfold input_fields, form_keys. rewrite !elem_of_cons, !elem_of_nil.
  intros H. repeat (destruct H as [-> | H]; [tauto |]). destruct H.
Qed.

Lemma numeric_keys_form_keys (k : string) : k ∈ numeric_keys -> k ∈ form_keys.
Proof.
  unfold numeric_keys, form_keys. rewrite !elem_of_cons, !elem_of_nil.
  intros H. repeat (destruct H as [-> | H]; [tauto |]). destruct H.
Qed.

Lemma dom_edited (invoice : Invoice) (edits : list (string * form_value)) :
  Forall (fun e => fst e ∈ input_fields) edits ->
  dom (edited invoice edits) = (list_to_set form_keys : gset string).
Proof.
  unfold edited. intros Hedits.
  pose proof (dom_initialFormData invoice) as Hdom.
  revert Hdom. generalize (initialFormData invoice) as formData.
  induction Hedits as [| [k v] edits Hk _ IH]; intros formData Hdom;
    [exact Hdom | cbn [foldl fst snd]].
  apply IH. unfold handleInputChange. rewrite dom_insert_L, Hdom.
  apply input_fields_form_keys in Hk.
  apply (elem_of_list_to_set (C := gset string)) in Hk.
  now apply subseteq_union_1_L, singleton_subseteq_l.
Qed.

Lemma dom_save_payload (formData : gmap string form_value) :
  dom (to_value <$> save_payload formData)
  = dom formData ∪ (list_to_set numeric_keys : gset string).
Proof.
  rewrite dom_fmap_L. unfold save_payload, numeric_keys.
  rewrite !dom_insert_L. cbn [list_to_set foldr].
  apply set_eq. intros k.
  rewrite !elem_of_union, !elem_of_singleton, elem_of_empty. tauto.
Qed.

(** X15. Saving edits never touches what is not in the form: after any
    series of changes made through the inputs of the view, the payload of
    [handleSave] has exactly the fourteen keys of the form, so on the
    stored rows it leaves every other column as it was, [status] among
    them. *)
Theorem save_keeps_other_columns (invoice : Invoice)
    (edits : list (string * form_value)) :
  Forall (fun e => fst e ∈ input_fields) edits ->
  let payload := to_value <$> save_payload (edited invoice edits) in
  dom payload = (list_to_set form_keys : gset string)
  /\ forall rows : list (gmap string Js.value),
       Forall2
         (fun row row' =>
            row' !! "status" = row !! "status"
            /\ forall c, c ∉ form_keys -> row' !! c = row !! c)
         rows (Supabase.apply_update payload "id" (id invoice) rows).
Proof.
  intros Hedits. cbv zeta.
  assert (Hdom : dom (to_value <$> save_payload (edited invoice edits))
                 = (list_to_set form_keys : gset string)).
  { rewrite dom_save_payload, (dom_edited invoice edits Hedits).
    rewrite (comm_L (∪)). apply subseteq_union_1_L.
    intros k. rewrite !elem_of_list_to_set. apply numeric_keys_form_keys. }
  split; [exact Hdom |].
  intros rows. eapply Forall2_impl; [apply apply_update_frame |].
  cbn beta. intros row row' Hframe.
  assert (Hother : forall c, c ∉ form_keys -> row' !! c = row !! c).
  { intros c Hc. apply Hframe. apply not_elem_of_dom. rewrite Hdom.
    now rewrite elem_of_list_to_set. }
  split; [| exact Hother].
  apply Hother. unfold form_keys. rewrite !not_elem_of_cons.
  repeat split; try discriminate. apply not_elem_of_nil.
Qed.

Lemma number_or_zero_spec (x : option Js.number) :
  exists n, number_or_zero x = FNumber n /\ Js.is_NaN n = false
            /\ (forall m, x = Some m -> Js.truthy (Js.VNumber m) = true -> n = m)
            /\ ((x = None \/ exists m, x = Some m /\ Js.truthy (Js.VNumber m) = false)
                -> n = Js.Dec false 0 0).
Proof.
  unfold number_or_zero. destruct x as [m |].
  - destruct (Js.truthy (Js.VNumber m)) eqn:Ht.
    + exists m. repeat split; try congruence.
      * cbn in Ht. now destruct m.
      * intros [[=] | (m' & [= <-] & Hm')]. congruence.
    + exists (Js.Dec false 0 0). repeat split; congruence.
  - exists (Js.Dec false 0 0). repeat split; congruence.
Qed.

Lemma initial_lookup (invoice : Invoice) :
  initialFormData invoice !! "subtotal" = Some (number_or_zero (subtotal invoice))
  /\ initialFormData invoice !! "tax_amount"
     = Some (number_or_zero (tax_amount invoice))
  /\ initialFormData invoice !! "total_amount"
     = Some (number_or_zero (total_amount invoice))
  /\ initialFormData invoice !! "notes" = Some (text_or_empty (notes invoice)).
Proof.
  unfold initialFormData. cbn [list_to_map foldr uncurry fst snd].
  repeat apply conj; (rewrite !lookup_insert_ne by done; apply lookup_insert_eq).
Qed.

(** X16. On a form that was not edited the coercion of [handleSave]
    changes nothing: the payload is the initial form itself, in which
    each numeric field is the invoice's number when that is truthy and
    [0] when it is null, zero or [NaN], so that no [NaN] is written.
    The payload has the fourteen fields and no other: the nine texts and
    the notes are the invoice's, or the empty text where the invoice has
    null; the currency is the invoice's, or [EUR] where the invoice has
    the empty text; and the three numbers are as said. *)
Theorem unedited_save_payload (invoice : Invoice) :
  let text (x : option string) := FString (default "" x) in
  let number (x : option Js.number) :=
    FNumber match x with
            | Some n =>
                if Js.number_is_zero n || Js.is_NaN n then Js.Dec false 0 0
                else n
            | None => Js.Dec false 0 0
            end in
  save_payload (initialFormData invoice) = initialFormData invoice
  /\ Forall
       (fun k => exists n,
          save_payload (initialFormData invoice) !! k = Some (FNumber n)
          /\ Js.is_NaN n = false)
       numeric_keys
  /\ save_payload (initialFormData invoice) !! "subtotal"
     = Some (number_or_zero (subtotal invoice))
  /\ save_payload (initialFormData invoice) !! "notes"
     = Some (FString (default "" (notes invoice)))
  /\ save_payload (initialFormData invoice)
     = list_to_map
         [ ("invoice_number", text (invoice_number invoice));
           ("invoice_date", text (invoice_date invoice));
           ("vendor_name", text (vendor_name invoice));
           ("vendor_address", text (vendor_address invoice));
           ("vendor_tax_id", text (vendor_tax_id invoice));
           ("vendor_pdv", text (vendor_pdv invoice));
           ("buyer_name", text (buyer_name invoice));
           ("buyer_address", text (buyer_address invoice));
           ("buyer_tax_id", text (buyer_tax_id invoice));
           ("subtotal", number (subtotal invoice));
           ("tax_amount", number (tax_amount invoice));
           ("total_amount", number (total_amount invoice));
           ("currency",
             FString (if String.eqb (currency invoice) "" then "EUR"
                      else currency invoice));
           ("notes", text (notes invoice)) ].
Proof.
  cbv zeta.
  assert (Hsame : save_payload (initialFormData invoice) = initialFormData invoice).
  { unfold save_payload.
    destruct (number_or_zero_spec (subtotal invoice)) as (n1 & H1 & _).
    destruct (number_or_zero_spec (tax_amount invoice)) as (n2 & H2 & _).
    destruct (number_or_zero_spec (total_amount invoice)) as (n3 & H3 & _).
    assert (L1 : initialFormData invoice !! "subtotal" = Some (FNumber n1))
      by (rewrite <- H1; apply initial_lookup).
    assert (L2 : initialFormData invoice !! "tax_amount" = Some (FNumber n2))
      by (rewrite <- H2; apply initial_lookup).
    assert (L3 : initialFormData invoice !! "total_amount" = Some (FNumber n3))
      by (rewrite <- H3; apply initial_lookup).
    rewrite L1, L2, L3. cbn [Number_of].
    rewrite (insert_id _ _ _ L1), (insert_id _ _ _ L2). now apply insert_id. }
  rewrite Hsame. split; [reflexivity |]. split; [| split; [| split]].
  - unfold numeric_keys.
    destruct (number_or_zero_spec (subtotal invoice)) as (n1 & H1 & N1 & _).
    destruct (number_or_zero_spec (tax_amount invoice)) as (n2 & H2 & N2 & _).
    destruct (number_or_zero_spec (total_amount invoice)) as (n3 & H3 & N3 & _).
    repeat apply Forall_cons_2; [| | | apply Forall_nil_2].
    + exists n1. split; [rewrite <- H1; apply initial_lookup | exact N1].
    + exists n2. split; [rewrite <- H2; apply initial_lookup | exact N2].
    + exists n3. split; [rewrite <- H3; apply initial_lookup | exact N3].
  - apply initial_lookup.
  - rewrite (proj2 (proj2 (proj2 (initial_lookup invoice)))).
    unfold text_or_empty. now destruct (notes invoice).
  - assert (Htext : forall x, text_or_empty x = FString (default "" x))
      by (now intros [s |]).
    assert (Hnumber : forall x,
               number_or_zero x
               = FNumber match x with
                         | Some n =>
                             if Js.number_is_zero n || Js.is_NaN n
                             then Js.Dec false 0 0 else n
                         | None => Js.Dec false 0 0
                         end).
    { intros [n |]; [| reflexivity]. unfold number_or_zero. cbn [Js.truthy].
      now destruct (Js.number_is_zero n || Js.is_NaN n). }
    unfold initialFormData. rewrite !Htext, !Hnumber. cbn [Js.truthy].
    now destruct (String.eqb (currency invoice) "").
Qed.

End InvoiceViewProperties.

Lemma badge_blank_iff_witness :
  InvoiceVerification.badge
    (InvoiceVerification.statusInfo (Scenario.invoice "verified" Js.VNull))
  = InvoiceVerification.statusConfig !! "verified"
  /\ InvoiceVerification.badge
       (InvoiceVerification.statusInfo (Scenario.invoice "archived" Js.VNull))
     = Some InvoiceVerification.pending_info.
Proof.
  split.
  - apply (proj1 (proj2 (badge_blank_iff (Scenario.invoice "verified" Js.VNull)))).
    do 2 apply list_elem_of_further. apply list_elem_of_here.
  - apply (proj2 (proj2 (badge_blank_iff (Scenario.invoice "archived" Js.VNull)))).
    + intros Hin. apply list_elem_of_In in Hin. cbn in Hin.
      repeat (destruct Hin as [Hin | Hin]; [discriminate Hin |]). exact Hin.
    + intros Hin. apply list_elem_of_In in Hin. cbn in Hin.
      repeat (destruct Hin as [Hin | Hin]; [discriminate Hin |]). exact Hin.
Defined.

(** After a note and a subtotal were typed in, the payload still has the
    fourteen keys of the form. *)
Lemma save_keeps_other_columns_witness :
  let invoice := Scenario.invoice "processed" Js.VNull in
  let edits := [ ("notes", InvoiceVerification.FString "placeno");
                 ("subtotal", InvoiceVerification.FString "12.50") ] in
  dom (InvoiceVerification.to_value
         <$> InvoiceVerification.save_payload (InvoiceForm.edited invoice edits))
  = (list_to_set InvoiceForm.form_keys : gset string).
Proof.
  cbv zeta.
  destruct (save_keeps_other_columns (Scenario.invoice "processed" Js.VNull)
              [ ("notes", InvoiceVerification.FString "placeno");
                ("subtotal", InvoiceVerification.FString "12.50") ])
    as [Hdom _]; [| exact Hdom].
  apply Forall_cons_2; [| apply Forall_cons_2; [| apply Forall_nil_2]]; cbn [fst].
  - do 10 apply list_elem_of_further. apply list_elem_of_here.
  - do 6 apply list_elem_of_further. apply list_elem_of_here.
Defined.

Section MergeInvariants.

Import OrganizationContext TaxFields.

Lemma or_empty_spec (a : Js.value) :
  Js.truthy (Js.logical_or a (Js.VString "")) = true
  \/ Js.logical_or a (Js.VString "") = Js.VString "".
Proof.
  unfold Js.logical_or. destruct (Js.truthy a) eqn:Ha; [left; exact Ha | now right].
Qed.

Lemma address_line_truthy (org : OrganizationWithRole) :
  Js.truthy (Js.of_nullable (address org)) = true ->
  Js.truthy (Js.VString (InvoiceVerification.address_line org)) = true.
Proof.
  unfold InvoiceVerification.address_line.
  destruct (address org) as [[| c street] |]; try discriminate. reflexivity.
Qed.

(** X17. A merged company field is never null or undefined: in the
    company data of the invoice view and in the settings form alike, each
    of pib, pdv_number, address, email and phone is either a truthy
    value or the empty text; without a current organization all of them
    are the empty text and the company card is not rendered. *)
Theorem merged_fields_never_null (f : field) :
  (forall org,
     let v := in_company f (InvoiceVerification.companyData org) in
     Js.truthy v = true \/ v = Js.VString "")
  /\ (forall org formData,
        let v := in_form f (Settings.loadFormData (Some org) formData) in
        Js.truthy v = true \/ v = Js.VString "")
  /\ in_company f (InvoiceVerification.companyData None) = Js.VString ""
  /\ InvoiceForm.showCompanyCard (InvoiceVerification.companyData None) = false.
Proof.
  split; [| split; [| split]].
  - intros [org |]; cbv zeta; [| destruct f; now right].
    destruct f; cbn [in_company InvoiceVerification.companyData
                     InvoiceVerification.cd_pib InvoiceVerification.cd_pdv_number
                     InvoiceVerification.cd_address InvoiceVerification.cd_email
                     InvoiceVerification.cd_phone InvoiceVerification.attr];
      try apply or_empty_spec.
    destruct (Js.truthy (Js.of_nullable (address org))) eqn:Ha;
      [left; now apply address_line_truthy | apply or_empty_spec].
  - intros org formData. cbv zeta.
    destruct f; cbn [in_form Settings.loadFormData Settings.pib
                     Settings.pdv_number Settings.address Settings.email
                     Settings.phone];
      try apply or_empty_spec.
    destruct (Js.truthy (Js.of_nullable (address org))) eqn:Ha;
      [left; now apply address_line_truthy | apply or_empty_spec].
  - now destruct f.
  - reflexivity.
Qed.

End MergeInvariants.

(* ===================================================================== *)
(** * Further properties of the members page *)
(* ===================================================================== *)

Section MembersPageProperties.

Import MembersPage.




(** X19. Without a current organization, or with one whose id is empty,
    [loadMembers] changes nothing, so a page that is loading stays so.
    When the members query fails, the list is kept as it was, loading
    stops, and the failure is shown as a fixed message. *)
Theorem loadMembers_nothing_loaded
    (currentOrganization : option OrganizationContext.OrganizationWithRole)
    (membersResponse : result (list MemberRow))
    (user : option DashboardLayout.AuthUser)
    (profilesData : option (list ProfileRow)) (st : State) :
  let loaded :=
    loadMembers currentOrganization membersResponse user profilesData st in
  ((currentOrganization = None
    \/ exists org, currentOrganization = Some org /\ OrganizationContext.id org = "")
     -> loaded = (st, []))
  /\ (forall org message,
        currentOrganization = Some org -> OrganizationContext.id org <> "" ->
        membersResponse = QueryError message ->
        members (fst loaded) = members st
        /\ loading (fst loaded) = false
        /\ snd loaded = [ ConsoleError "Error loading members:";
                          ToastError "Greska pri ucitavanju clanova" ])
  /\ (forall org,
        currentOrganization = Some org -> OrganizationContext.id org <> "" ->
        membersResponse = QueryData None ->
        loaded = ({| members := []; loading := false |}, [])).
Proof.
  cbv zeta. unfold loadMembers. repeat apply conj.
  - intros [-> | (org & -> & ->)]; reflexivity.
  - intros org message -> Hid ->. rewrite (truthy_string _ Hid). repeat split.
  - intros org -> Hid ->. now rewrite (truthy_string _ Hid).
Qed.

(** X20. The remove button and the handler agree: the button is
    rendered only to an owner and only for a member who is not an owner,
    and for every member whose button is rendered [handleRemoveMember]
    does not refuse but asks for confirmation; the handler's refusal is
    reached only for members whose button is never rendered. *)
Theorem removeButton_guards_handler (isOwner : bool) (member : Member)
    (confirmed : bool) (response : option string) :
  (removeButton isOwner member = true
     <-> isOwner = true /\ role (row member) <> "owner")
  /\ (removeButton isOwner member = true ->
      TeamMembers.rejections
        (TeamMembers.handleRemoveMember (as_member member) confirmed None) = []
      /\ head (TeamMembers.handleRemoveMember (as_member member) confirmed response)
         = Some (TeamMembers.Confirm
                   "Da li ste sigurni da zelite ukloniti ovog clana?"))
  /\ (TeamMembers.handleRemoveMember (as_member member) confirmed response
        = [ TeamMembers.ToastError "Ne mozete ukloniti vlasnika" ] ->
      forall viewer_is_owner, removeButton viewer_is_owner member = false).
Proof.
  unfold removeButton, TeamMembers.handleRemoveMember.
  cbn [as_member TeamMembers.role TeamMembers.id].
  destruct (String.eqb_spec (role (row member)) "owner") as [Hown | Hnot];
    cbn [negb].
  - split; [| split].
    + rewrite andb_false_r. split; [discriminate | intros [_ H]; contradiction].
    + rewrite andb_false_r. discriminate.
    + intros _ v. apply andb_false_r.
  - split; [| split].
    + rewrite andb_true_r. split; [auto | now intros [-> _]].
    + intros _. split; [now destruct confirmed | reflexivity].
    + discriminate.
Qed.

(** X21. The invitation is a stub: [handleInvite] never sends anything to
    the backend. It does nothing at all exactly when the email is blank
    after trimming; otherwise it announces success once, naming the
    invitee by name or else by the email as typed, closes the dialog,
    clears email, name and phone, and keeps the chosen role. *)
Theorem handleInvite_stub (form : InviteForm) :
  let invited := handleInvite form in
  snd invited = []
  /\ (invited = (form, [], []) <-> trim (inviteEmail form) = "")
  /\ (trim (inviteEmail form) <> "" ->
      let form' := fst (fst invited) in
      showInviteModal form' = false
      /\ inviteEmail form' = "" /\ inviteName form' = "" /\ invitePhone form' = ""
      /\ inviteRole form' = inviteRole form
      /\ inviting form' = false
      /\ snd (fst invited)
         = [ ToastSuccess
               ("Pozivnica za "
                +:+ (if String.eqb (inviteName form) "" then inviteEmail form
                     else inviteName form)
                +:+ " ce biti poslana (funkcionalnost u izradi)") ]).
Proof.
  cbv zeta. unfold handleInvite. cbn [Js.truthy].
  destruct (String.eqb_spec (trim (inviteEmail form)) "") as [Hblank | Hne];
    cbn [negb fst snd].
  - split; [reflexivity |]. split; [tauto | contradiction].
  - split; [reflexivity |]. split.
    + split; [discriminate | contradiction].
    + intros _. repeat split.
      now destruct (String.eqb (inviteName form) "").
Qed.

End MembersPageProperties.


Lemma loadMembers_nothing_loaded_witness :
  let st := {| MembersPage.members := []; MembersPage.loading := true |} in
  MembersPage.loadMembers None (MembersPage.QueryData None) None None st = (st, []).
Proof.
  cbv zeta.
  apply (proj1 (loadMembers_nothing_loaded None (MembersPage.QueryData None)
                  None None _)).
  now left.
Defined.

Lemma removeButton_guards_handler_witness :
  let member :=
    {| MembersPage.row :=
         {| MembersPage.id := "m-2"; MembersPage.user_id := "u2";
            MembersPage.role := "employee";
            MembersPage.created_at := "2024-02-01" |};
       MembersPage.email := Some "korisnik@email.com";
       MembersPage.full_name := None |} in
  head (TeamMembers.handleRemoveMember (MembersPage.as_member member) true None)
  = Some (TeamMembers.Confirm "Da li ste sigurni da zelite ukloniti ovog clana?").
Proof.
  cbv zeta.
  apply (proj1 (proj2 (removeButton_guards_handler true _ true None))).
  reflexivity.
Defined.

Lemma handleInvite_stub_witness :
  let form := {| MembersPage.showInviteModal := true;
                 MembersPage.inviteEmail := "iva@firma.me";
                 MembersPage.inviteName := "";
                 MembersPage.invitePhone := "067";
                 MembersPage.inviteRole := "owner";
                 MembersPage.inviting := false |} in
  MembersPage.inviteRole (fst (fst (MembersPage.handleInvite form))) = "owner"
  /\ MembersPage.handleInvite
       {| MembersPage.showInviteModal := true;
          MembersPage.inviteEmail := "   ";
          MembersPage.inviteName := "Iva";
          MembersPage.invitePhone := "";
          MembersPage.inviteRole := "employee";
          MembersPage.inviting := false |}
     = ({| MembersPage.showInviteModal := true;
           MembersPage.inviteEmail := "   ";
           MembersPage.inviteName := "Iva";
           MembersPage.invitePhone := "";
           MembersPage.inviteRole := "employee";
           MembersPage.inviting := false |}, [], []).
Proof.
  cbv zeta. split.
  - destruct (proj2 (proj2 (handleInvite_stub
                {| MembersPage.showInviteModal := true;
                   MembersPage.inviteEmail := "iva@firma.me";
                   MembersPage.inviteName := "";
                   MembersPage.invitePhone := "067";
                   MembersPage.inviteRole := "owner";
                   MembersPage.inviting := false |})))
      as (_ & _ & _ & _ & Hrole & _); [discriminate | exact Hrole].
  - apply (proj1 (proj2 (handleInvite_stub _))). reflexivity.
Defined.

(* ===================================================================== *)
(** * Further properties of the settings page *)
(* ===================================================================== *)

Section SettingsPageProperties.

Import OrganizationContext TaxFields SettingsPage.

Lemma submitted_settings_field (org : OrganizationWithRole)
    (formData : Settings.FormData) (f : field) :
  submitted_settings org formData !! key f = Some (in_form f formData).
Proof.
  unfold submitted_settings.
  destruct f; cbn [key in_form];
    rewrite ?lookup_insert_ne by done; apply lookup_insert_eq.
Qed.

Lemma submitted_settings_other (org : OrganizationWithRole)
    (formData : Settings.FormData) (k : string) :
  (forall f, k <> key f) ->
  submitted_settings org formData !! k = settings_of org !! k.
Proof.
  intros Hk. unfold submitted_settings, settings_of.
  pose proof (Hk Pib). pose proof (Hk PdvNumber). pose proof (Hk Address).
  pose proof (Hk Email). pose proof (Hk Phone). cbn [key] in *.
  now rewrite !lookup_insert_ne by congruence.
Qed.

(** X22. [handleSubmit] does nothing without an organization id.
    Otherwise, whatever the backend answers, it sends one update, for the
    organization's id, that writes the name, the accountant email and
    [settings] and nothing else; the new [settings] hold the form's pib,
    pdv_number, address, email and phone and keep every other key of the
    old settings. The organizations are refreshed only when the update
    was accepted, and the loading flag is cleared at the end. *)
Theorem handleSubmit_merges_settings
    (currentOrganization : option OrganizationWithRole)
    (formData : Settings.FormData) (response : option string) :
  let done := handleSubmit currentOrganization formData response in
  ((currentOrganization = None
    \/ exists org, currentOrganization = Some org /\ id org = "") -> done = [])
  /\ (forall org,
        currentOrganization = Some org -> id org <> "" ->
        filter (fun e => is_write e = true) done
          = [ UpdateOrganization (submitted org formData) (id org) ]
        /\ upd_name (submitted org formData) = Settings.name formData
        /\ upd_accountant_email (submitted org formData)
           = Settings.accountant_email formData
        /\ (forall f, upd_settings (submitted org formData) !! key f
                      = Some (in_form f formData))
        /\ (forall k, (forall f, k <> key f) ->
                      upd_settings (submitted org formData) !! k
                      = settings_of org !! k)
        /\ head done = Some (SetLoading true)
        /\ last done = Some (SetLoading false)
        /\ existsb is_refresh done
           = match response with Some _ => false | None => true end).
Proof.
  cbv zeta. unfold handleSubmit. split.
  - intros [-> | (org & -> & ->)]; reflexivity.
  - intros org -> Hid. rewrite (truthy_string _ Hid). cbn [negb].
    repeat apply conj; try reflexivity.
    + now destruct response.
    + apply submitted_settings_field.
    + apply submitted_settings_other.
    + now destruct response.
    + now destruct response.
Qed.

Lemma reloaded_first_class (org org' : OrganizationWithRole)
    (formData : Settings.FormData) (f : field) :
  reloaded org formData org' -> first_class f org' = first_class f org.
Proof. intros (? & ? & ? & ? & ? & ? & ? & ?). now destruct f. Qed.

Lemma reloaded_address_line (org org' : OrganizationWithRole)
    (formData : Settings.FormData) :
  reloaded org formData org' ->
  InvoiceVerification.address_line org' = InvoiceVerification.address_line org.
Proof.
  intros (_ & _ & Ha & Hc & Hp & _). unfold InvoiceVerification.address_line.
  now rewrite Ha, Hc, Hp.
Qed.

(** X23. Saving and loading again: for a field whose direct column is
    truthy, the form after an accepted save and a reload shows what it
    showed before the save, whatever was typed, because the save writes
    [settings] and the load prefers the column; for a field whose direct
    column is null or empty, it shows the value that was saved, or the
    empty text when that value is falsy. *)
Theorem settings_save_then_load (org org' : OrganizationWithRole)
    (formData before : Settings.FormData) (f : field) :
  reloaded org formData org' ->
  let shown := in_form f (Settings.loadFormData (Some org') formData) in
  (Js.truthy (Js.of_nullable (first_class f org)) = true ->
     shown = in_form f (Settings.loadFormData (Some org) before))
  /\ (Js.truthy (Js.of_nullable (first_class f org)) = false ->
      shown = Js.logical_or (in_form f formData) (Js.VString "")).
Proof.
  intros Hre. cbv zeta. split; intros Hfc.
  - destruct (first_class f org) as [s |] eqn:Hs; [| discriminate].
    assert (Hne : s <> "").
    { intros ->. discriminate Hfc. }
    assert (Hs' : first_class f org' = Some s)
      by now rewrite (reloaded_first_class _ _ _ f Hre).
    destruct (merged_first_class org' formData f s Hs' Hne) as [H' _].
    destruct (merged_first_class org before f s Hs Hne) as [H _].
    rewrite H', H. destruct f; try reflexivity.
    now rewrite (reloaded_address_line _ _ _ Hre).
  - destruct (merged_fallback org' formData f) as [H' _].
    { now rewrite (reloaded_first_class _ _ _ f Hre). }
    rewrite H'. unfold settings_of.
    destruct Hre as (_ & _ & _ & _ & _ & _ & _ & ->).
    change (default ∅ (Some (submitted_settings org formData)))
      with (submitted_settings org formData).
    now rewrite (get_own _ _ _ (submitted_settings_field org formData f)).
Qed.


(** X25. [handleRemoveLogo] asks first and does nothing when the user
    declines. When the user confirms it sends one update, for the current
    organization's id, that sets [logo_url] to null and nothing else,
    with the busy flag on before and off after; the organizations are
    refreshed only when the update was accepted, and a failure is shown
    by its message or, when that is empty, by a fixed one. *)
Theorem handleRemoveLogo_confirms
    (currentOrganization : option OrganizationWithRole) (confirmed : bool)
    (response : option string) :
  let done := handleRemoveLogo currentOrganization confirmed response in
  head done = Some (Confirm "Da li ste sigurni da zelite ukloniti logo?")
  /\ (confirmed = false -> done = [ Confirm "Da li ste sigurni da zelite ukloniti logo?" ])
  /\ (confirmed = true ->
      filter (fun e => is_write e = true) done
        = [ UpdateLogoUrlNull (id <$> currentOrganization) ]
      /\ last done = Some (SetUploadingLogo false)
      /\ existsb is_refresh done
         = match response with Some _ => false | None => true end
      /\ (forall message, response = Some message ->
            ToastError (if String.eqb message "" then "Greska pri uklanjanju"
                        else message) ∈ done)).
Proof.
  cbv zeta. unfold handleRemoveLogo. split; [reflexivity |]. split.
  - now intros ->.
  - intros ->. cbn [negb]. repeat apply conj; try now destruct response.
    intros message ->. unfold message_or. cbn [Js.truthy].
    destruct (String.eqb message ""); cbn [negb];
      do 3 apply list_elem_of_further; apply list_elem_of_here.
Qed.

End SettingsPageProperties.

(** An organization with a direct [pib] of [123]: after [456] was typed
    and saved, the reloaded form shows [123] again. *)
Lemma settings_save_then_load_witness :
  let org := Scenario.organization "org-a" (Some "123") None ∅ in
  let typed :=
    {| Settings.name := Js.VString "Firma"; Settings.pib := Js.VString "456";
       Settings.pdv_number := Js.VString ""; Settings.address := Js.VString "";
       Settings.email := Js.VString ""; Settings.phone := Js.VString "";
       Settings.accountant_email := Js.VString "" |} in
  let org' :=
    Scenario.organization "org-a" (Some "123") None
      (SettingsPage.submitted_settings org typed) in
  SettingsPage.submitted_settings org typed !! "pib" = Some (Js.VString "456")
  /\ Settings.pib (Settings.loadFormData (Some org') typed) = Js.VString "123".
Proof.
  cbv zeta. split; [reflexivity |].
  pose (org := Scenario.organization "org-a" (Some "123") None ∅).
  pose (typed :=
    {| Settings.name := Js.VString "Firma"; Settings.pib := Js.VString "456";
       Settings.pdv_number := Js.VString ""; Settings.address := Js.VString "";
       Settings.email := Js.VString ""; Settings.phone := Js.VString "";
       Settings.accountant_email := Js.VString "" |}).
  destruct (settings_save_then_load org
              (Scenario.organization "org-a" (Some "123") None
                 (SettingsPage.submitted_settings org typed))
              typed Settings.emptyFormData TaxFields.Pib) as [Hkept _].
  - repeat split.
  - fold org typed. change (Settings.pib ?x) with (TaxFields.in_form TaxFields.Pib x).
    rewrite Hkept; reflexivity.
Defined.

Lemma handleSubmit_merges_settings_witness :
  let org :=
    Scenario.organization "org-a" None None {[ "theme" := Js.VString "dark" ]} in
  SettingsPage.upd_settings (SettingsPage.submitted org Settings.emptyFormData)
    !! "theme" = Some (Js.VString "dark").
Proof.
  cbv zeta.
  destruct (proj2 (handleSubmit_merges_settings
                     (Some (Scenario.organization "org-a" None None
                              {[ "theme" := Js.VString "dark" ]}))
                     Settings.emptyFormData None) _ eq_refl)
    as (_ & _ & _ & _ & Hother & _).
  - discriminate.
  - rewrite Hother; [reflexivity |]. intros f. now destruct f.
Defined.


Lemma handleRemoveLogo_confirms_witness :
  SettingsPage.handleRemoveLogo
    (Some (Scenario.organization "org-a" None None ∅)) false None
  = [ SettingsPage.Confirm "Da li ste sigurni da zelite ukloniti logo?" ].
Proof.
  apply (proj1 (proj2 (handleRemoveLogo_confirms _ false None))). reflexivity.
Defined.

(* ===================================================================== *)
(** * Properties of the registration and login pages *)
(* ===================================================================== *)

Section AuthPagesProperties.

Import AuthPages.



(** X26. Registration calls sign-up exactly when the two passwords are
    equal and the password has at least six code units. Otherwise it
    shows one message, about the mismatch if the passwords differ and
    about the length only if they are equal, and does nothing else: it
    does not start loading, sign up, write a profile or navigate. *)
Theorem handleRegister_validates (email : string)
    (password confirmPassword : list N) (fullName : string)
    (signUp : signUp_result) (upsert_threw : bool) :
  let done :=
    handleRegister email password confirmPassword fullName signUp upsert_threw in
  (existsb is_signUp done = true
     <-> password = confirmPassword /\ 6 <= length password)
  /\ (password <> confirmPassword ->
      done = [ SetError ""; SetError "Lozinke se ne podudaraju" ])
  /\ (password = confirmPassword -> length password < 6 ->
      done = [ SetError "";
               SetError "Lozinka mora imati najmanje 6 karaktera" ])
  /\ (password = confirmPassword -> 6 <= length password ->
      filter (fun e => is_signUp e = true) done
        = [ SignUp email password fullName ]
      /\ last done = Some (SetLoading false)).
Proof.
  cbv zeta. unfold handleRegister.
  destruct (decide (password = confirmPassword)) as [Heq | Hne].
  - rewrite (bool_decide_eq_true_2 _ Heq). cbn [negb].
    destruct (Nat.ltb_spec (length password) 6) as [Hshort | Hlong].
    + repeat apply conj.
      * discriminate.
      * intros [_ H]. lia.
      * contradiction.
      * reflexivity.
      * intros _ H. lia.
    + repeat apply conj.
      * auto.
      * reflexivity.
      * contradiction.
      * intros _ H. lia.
      * intros _ _. split; [now destruct signUp as [| | [|]], upsert_threw |].
        now destruct signUp as [| | [|]], upsert_threw.
  - rewrite (bool_decide_eq_false_2 _ Hne). cbn [negb].
    repeat apply conj; try contradiction; try discriminate.
    + intros [H _]. contradiction.
    + reflexivity.
Qed.


(** X28. The login page never shows the backend's error text: whatever
    sign-in returns, the messages set are the cleared one followed by at
    most one of two fixed texts. It goes to the dashboard exactly when
    sign-in succeeded, and it stops loading in every case. *)
Theorem handleLogin_outcome (email : string) (password : list N)
    (signIn : signIn_result) :
  let done := handleLogin email password signIn in
  (errors done = [ "" ]
   \/ errors done = [ ""; "Pogrešan email ili lozinka" ]
   \/ errors done = [ ""; "Došlo je do greške. Pokušajte ponovo." ])
  /\ (existsb is_push done = true <-> signIn = SignInOk)
  /\ (signIn = SignInOk ->
      filter (fun e => is_push e = true) done = [ RouterPush "/dashboard" ])
  /\ last done = Some (SetLoading false)
  /\ (forall message message',
        errors (handleLogin email password (SignInError message))
        = errors (handleLogin email password (SignInError message'))).
Proof.
  cbv zeta. unfold handleLogin.
  destruct signIn as [| message |]; cbn;
    (split; [auto |]); (split; [split; [try discriminate; auto | try discriminate; auto] |]);
    (split; [try discriminate; auto |]); split; reflexivity.
Qed.

End AuthPagesProperties.

(** Six code units are enough, five are not. *)
Lemma handleRegister_validates_witness :
  AuthPages.handleRegister "ana@firma.me" [97; 98; 99; 100; 101]%N
    [97; 98; 99; 100; 101]%N "Ana" (AuthPages.SignUpData None) false
  = [ AuthPages.SetError "";
      AuthPages.SetError "Lozinka mora imati najmanje 6 karaktera" ]
  /\ existsb AuthPages.is_signUp
       (AuthPages.handleRegister "ana@firma.me" [97; 98; 99; 100; 101; 102]%N
          [97; 98; 99; 100; 101; 102]%N "Ana" (AuthPages.SignUpData None) false)
     = true.
Proof.
  split.
  - apply (proj1 (proj2 (proj2 (handleRegister_validates _ _ _ _ _ _))));
      [reflexivity | cbn; lia].
  - apply (proj1 (handleRegister_validates _ _ _ _ _ _)).
    split; [reflexivity | cbn; lia].
Defined.


Lemma handleLogin_outcome_witness :
  filter (fun e => AuthPages.is_push e = true)
    (AuthPages.handleLogin "ana@firma.me" [97; 98; 99]%N AuthPages.SignInOk)
  = [ AuthPages.RouterPush "/dashboard" ].
Proof.
  apply (proj1 (proj2 (proj2 (handleLogin_outcome _ _ AuthPages.SignInOk)))).
  reflexivity.
Defined.
